(** * Verification of the MLO simulation test runners

    Shallow embedding of [testing_script.py] (class [MLOSimulationRunner])
    and [testing_script_extreme.py] (class [MLOExtremeSimulationRunner]):
    scenario catalog, command construction, matrix expansion, single-run
    execution with its log artifact, and result aggregation. *)

From stdpp Require Import base strings list gmap pretty.
From Stdlib Require Import Ascii ZArith QArith Qabs Qround Lia.

Local Open Scope Z_scope.

(** ** Python primitives used by the runners *)

Module Py.

(** Outcome of evaluating a Python expression or call: a value, or an
    exception (an instance of [Exception]) identified by its [str()] text.
    Signals deriving only from [BaseException] (keyboard interrupt,
    interpreter exit) are outside the model. *)
Inductive result (A : Type) : Type :=
| Returned (a : A)
| Raised (e : string).
Global Arguments Returned {A} a.
Global Arguments Raised {A} e.

Definition LF : string := String "010"%char "".

(** [str(n)] and the [{n}] f-string field for an [int]. *)
Definition str_int (n : Z) : string := pretty n.

(** [sep.join(l)]. *)
Fixpoint join (sep : string) (l : list string) : string :=
  match l with
  | [] => ""
  | [x] => x
  | x :: l' => x +:+ sep +:+ join sep l'
  end.

(** [s.split(sep)] for a one-character separator. *)
Fixpoint split (sep : ascii) (s : string) : list string :=
  match s with
  | "" => [""]
  | String c s' =>
      if decide (c = sep) then "" :: split sep s'
      else match split sep s' with
           | [] => [String c ""]
           | w :: ws => String c w :: ws
           end
  end.

(** Value of a decimal digit, by its character code (48 to 57). *)
Definition digit_value (c : ascii) : option Z :=
  let code := Z.of_N (N_of_ascii c) in
  if decide (48 <= code <= 57) then Some (code - 48) else None.

Fixpoint int_digits (acc : Z) (s : string) : option Z :=
  match s with
  | "" => Some acc
  | String c s' =>
      match digit_value c with
      | Some d => int_digits (10 * acc + d) s'
      | None => None
      end
  end.

(** *** Characters

    A string stands for the Python [str] that it spells in UTF-8, which
    is how the literals of the scripts are written below.  The tables
    are those of Unicode 14.0, the version of CPython 3.11. *)

Definition byte (c : ascii) : N := N_of_ascii c.

Definition trail (l : list ascii) (i : nat) : option N :=
  match l !! i with
  | Some c => if (128 <=? byte c)%N && (byte c <? 192)%N then Some (byte c - 128)%N else None
  | None => None
  end.

(** The code point at the head of a non-empty byte list and the number
    of bytes that spell it.  A byte that starts no well-formed sequence
    (it occurs in no Python string) is read as U+FFFD. *)
Definition first_code_point (l : list ascii) : N * nat :=
  let n0 := byte (default "000"%char (head l)) in
  if (n0 <? 128)%N then (n0, 1%nat)
  else
    match trail l 1, trail l 2, trail l 3 with
    | Some t1, t2, t3 =>
        if (n0 <? 192)%N then (65533%N, 1%nat)
        else if (n0 <? 224)%N then
          let cp := ((n0 - 192) * 64 + t1)%N in
          if (128 <=? cp)%N then (cp, 2%nat) else (65533%N, 1%nat)
        else
          match t2, t3 with
          | Some t2, t3 =>
              if (n0 <? 240)%N then
                let cp := ((n0 - 224) * 4096 + t1 * 64 + t2)%N in
                if (2048 <=? cp)%N && negb ((55296 <=? cp)%N && (cp <=? 57343)%N)
                then (cp, 3%nat) else (65533%N, 1%nat)
              else
                match t3 with
                | Some t3 =>
                    let cp := ((n0 - 240) * 262144 + t1 * 4096 + t2 * 64 + t3)%N in
                    if (n0 <? 248)%N && (65536 <=? cp)%N && (cp <=? 1114111)%N
                    then (cp, 4%nat) else (65533%N, 1%nat)
                | None => (65533%N, 1%nat)
                end
          | None, _ => (65533%N, 1%nat)
          end
    | None, _, _ => (65533%N, 1%nat)
    end.

(** The characters of a string, each with its spelling. *)
Fixpoint code_points_from (skip : nat) (l : list ascii) : list (N * string) :=
  match l with
  | [] => []
  | _ :: l' =>
      match skip with
      | S k => code_points_from k l'
      | O =>
          let '(cp, n) := first_code_point l in
          (cp, String.string_of_list_ascii (take n l)) :: code_points_from (n - 1) l'
      end
  end.

Definition code_points (s : string) : list (N * string) :=
  code_points_from 0 (String.list_ascii_of_string s).

(** [Py_UNICODE_ISSPACE] beyond ASCII. *)
Definition unicode_space (cp : N) : bool :=
  bool_decide (cp ∈ [133; 160; 5760; 8232; 8233; 8239; 8287; 12288]%N) ||
  ((8192 <=? cp)%N && (cp <=? 8202)%N).

(** First code points of the runs of ten decimal digits (category
    [Nd]), zero to nine in each. *)
Definition decimal_runs : list N :=
  [
   48; 1632; 1776; 1984; 2406; 2534; 2662; 2790; 2918; 3046;
   3174; 3302; 3430; 3558; 3664; 3792; 3872; 4160; 4240; 6112;
   6160; 6470; 6608; 6784; 6800; 6992; 7088; 7232; 7248; 42528;
   43216; 43264; 43472; 43504; 43600; 44016; 65296; 66720; 68912; 69734;
   69872; 69942; 70096; 70384; 70736; 70864; 71248; 71360; 71472; 71904;
   72016; 72784; 73040; 73120; 92768; 92864; 93008; 120782; 120792; 120802;
   120812; 120822; 123200; 123632; 125264; 130032
  ]%N.

(** [Py_UNICODE_TODECIMAL]. *)
Definition decimal (cp : N) : option N :=
  match filter (fun a => (a <= cp < a + 10)%N) decimal_runs with
  | a :: _ => Some (cp - a)%N
  | [] => None
  end.

(** Ranges of the code points from 128 on that [str.isprintable] refuses. *)
Definition not_printable : list (N * N) :=
  [
   (128, 160); (173, 173); (888, 889); (896, 899); (907, 907);
   (909, 909); (930, 930); (1328, 1328); (1367, 1368); (1419, 1420);
   (1424, 1424); (1480, 1487); (1515, 1518); (1525, 1541); (1564, 1564);
   (1757, 1757); (1806, 1807); (1867, 1868); (1970, 1983); (2043, 2044);
   (2094, 2095); (2111, 2111); (2140, 2141); (2143, 2143); (2155, 2159);
   (2191, 2199); (2274, 2274); (2436, 2436); (2445, 2446); (2449, 2450);
   (2473, 2473); (2481, 2481); (2483, 2485); (2490, 2491); (2501, 2502);
   (2505, 2506); (2511, 2518); (2520, 2523); (2526, 2526); (2532, 2533);
   (2559, 2560); (2564, 2564); (2571, 2574); (2577, 2578); (2601, 2601);
   (2609, 2609); (2612, 2612); (2615, 2615); (2618, 2619); (2621, 2621);
   (2627, 2630); (2633, 2634); (2638, 2640); (2642, 2648); (2653, 2653);
   (2655, 2661); (2679, 2688); (2692, 2692); (2702, 2702); (2706, 2706);
   (2729, 2729); (2737, 2737); (2740, 2740); (2746, 2747); (2758, 2758);
   (2762, 2762); (2766, 2767); (2769, 2783); (2788, 2789); (2802, 2808);
   (2816, 2816); (2820, 2820); (2829, 2830); (2833, 2834); (2857, 2857);
   (2865, 2865); (2868, 2868); (2874, 2875); (2885, 2886); (2889, 2890);
   (2894, 2900); (2904, 2907); (2910, 2910); (2916, 2917); (2936, 2945);
   (2948, 2948); (2955, 2957); (2961, 2961); (2966, 2968); (2971, 2971);
   (2973, 2973); (2976, 2978); (2981, 2983); (2987, 2989); (3002, 3005);
   (3011, 3013); (3017, 3017); (3022, 3023); (3025, 3030); (3032, 3045);
   (3067, 3071); (3085, 3085); (3089, 3089); (3113, 3113); (3130, 3131);
   (3141, 3141); (3145, 3145); (3150, 3156); (3159, 3159); (3163, 3164);
   (3166, 3167); (3172, 3173); (3184, 3190); (3213, 3213); (3217, 3217);
   (3241, 3241); (3252, 3252); (3258, 3259); (3269, 3269); (3273, 3273);
   (3278, 3284); (3287, 3292); (3295, 3295); (3300, 3301); (3312, 3312);
   (3315, 3327); (3341, 3341); (3345, 3345); (3397, 3397); (3401, 3401);
   (3408, 3411); (3428, 3429); (3456, 3456); (3460, 3460); (3479, 3481);
   (3506, 3506); (3516, 3516); (3518, 3519); (3527, 3529); (3531, 3534);
   (3541, 3541); (3543, 3543); (3552, 3557); (3568, 3569); (3573, 3584);
   (3643, 3646); (3676, 3712); (3715, 3715); (3717, 3717); (3723, 3723);
   (3748, 3748); (3750, 3750); (3774, 3775); (3781, 3781); (3783, 3783);
   (3790, 3791); (3802, 3803); (3808, 3839); (3912, 3912); (3949, 3952);
   (3992, 3992); (4029, 4029); (4045, 4045); (4059, 4095); (4294, 4294);
   (4296, 4300); (4302, 4303); (4681, 4681); (4686, 4687); (4695, 4695);
   (4697, 4697); (4702, 4703); (4745, 4745); (4750, 4751); (4785, 4785);
   (4790, 4791); (4799, 4799); (4801, 4801); (4806, 4807); (4823, 4823);
   (4881, 4881); (4886, 4887); (4955, 4956); (4989, 4991); (5018, 5023);
   (5110, 5111); (5118, 5119); (5760, 5760); (5789, 5791); (5881, 5887);
   (5910, 5918); (5943, 5951); (5972, 5983); (5997, 5997); (6001, 6001);
   (6004, 6015); (6110, 6111); (6122, 6127); (6138, 6143); (6158, 6158);
   (6170, 6175); (6265, 6271); (6315, 6319); (6390, 6399); (6431, 6431);
   (6444, 6447); (6460, 6463); (6465, 6467); (6510, 6511); (6517, 6527);
   (6572, 6575); (6602, 6607); (6619, 6621); (6684, 6685); (6751, 6751);
   (6781, 6782); (6794, 6799); (6810, 6815); (6830, 6831); (6863, 6911);
   (6989, 6991); (7039, 7039); (7156, 7163); (7224, 7226); (7242, 7244);
   (7305, 7311); (7355, 7356); (7368, 7375); (7419, 7423); (7958, 7959);
   (7966, 7967); (8006, 8007); (8014, 8015); (8024, 8024); (8026, 8026);
   (8028, 8028); (8030, 8030); (8062, 8063); (8117, 8117); (8133, 8133);
   (8148, 8149); (8156, 8156); (8176, 8177); (8181, 8181); (8191, 8207);
   (8232, 8239); (8287, 8303); (8306, 8307); (8335, 8335); (8349, 8351);
   (8385, 8399); (8433, 8447); (8588, 8591); (9255, 9279); (9291, 9311);
   (11124, 11125); (11158, 11158); (11508, 11512); (11558, 11558); (11560, 11564);
   (11566, 11567); (11624, 11630); (11633, 11646); (11671, 11679); (11687, 11687);
   (11695, 11695); (11703, 11703); (11711, 11711); (11719, 11719); (11727, 11727);
   (11735, 11735); (11743, 11743); (11870, 11903); (11930, 11930); (12020, 12031);
   (12246, 12271); (12284, 12288); (12352, 12352); (12439, 12440); (12544, 12548);
   (12592, 12592); (12687, 12687); (12772, 12783); (12831, 12831); (42125, 42127);
   (42183, 42191); (42540, 42559); (42744, 42751); (42955, 42959); (42962, 42962);
   (42964, 42964); (42970, 42993); (43053, 43055); (43066, 43071); (43128, 43135);
   (43206, 43213); (43226, 43231); (43348, 43358); (43389, 43391); (43470, 43470);
   (43482, 43485); (43519, 43519); (43575, 43583); (43598, 43599); (43610, 43611);
   (43715, 43738); (43767, 43776); (43783, 43784); (43791, 43792); (43799, 43807);
   (43815, 43815); (43823, 43823); (43884, 43887); (44014, 44015); (44026, 44031);
   (55204, 55215); (55239, 55242); (55292, 63743); (64110, 64111); (64218, 64255);
   (64263, 64274); (64280, 64284); (64311, 64311); (64317, 64317); (64319, 64319);
   (64322, 64322); (64325, 64325); (64451, 64466); (64912, 64913); (64968, 64974);
   (64976, 65007); (65050, 65055); (65107, 65107); (65127, 65127); (65132, 65135);
   (65141, 65141); (65277, 65280); (65471, 65473); (65480, 65481); (65488, 65489);
   (65496, 65497); (65501, 65503); (65511, 65511); (65519, 65531); (65534, 65535);
   (65548, 65548); (65575, 65575); (65595, 65595); (65598, 65598); (65614, 65615);
   (65630, 65663); (65787, 65791); (65795, 65798); (65844, 65846); (65935, 65935);
   (65949, 65951); (65953, 65999); (66046, 66175); (66205, 66207); (66257, 66271);
   (66300, 66303); (66340, 66348); (66379, 66383); (66427, 66431); (66462, 66462);
   (66500, 66503); (66518, 66559); (66718, 66719); (66730, 66735); (66772, 66775);
   (66812, 66815); (66856, 66863); (66916, 66926); (66939, 66939); (66955, 66955);
   (66963, 66963); (66966, 66966); (66978, 66978); (66994, 66994); (67002, 67002);
   (67005, 67071); (67383, 67391); (67414, 67423); (67432, 67455); (67462, 67462);
   (67505, 67505); (67515, 67583); (67590, 67591); (67593, 67593); (67638, 67638);
   (67641, 67643); (67645, 67646); (67670, 67670); (67743, 67750); (67760, 67807);
   (67827, 67827); (67830, 67834); (67868, 67870); (67898, 67902); (67904, 67967);
   (68024, 68027); (68048, 68049); (68100, 68100); (68103, 68107); (68116, 68116);
   (68120, 68120); (68150, 68151); (68155, 68158); (68169, 68175); (68185, 68191);
   (68256, 68287); (68327, 68330); (68343, 68351); (68406, 68408); (68438, 68439);
   (68467, 68471); (68498, 68504); (68509, 68520); (68528, 68607); (68681, 68735);
   (68787, 68799); (68851, 68857); (68904, 68911); (68922, 69215); (69247, 69247);
   (69290, 69290); (69294, 69295); (69298, 69375); (69416, 69423); (69466, 69487);
   (69514, 69551); (69580, 69599); (69623, 69631); (69710, 69713); (69750, 69758);
   (69821, 69821); (69827, 69839); (69865, 69871); (69882, 69887); (69941, 69941);
   (69960, 69967); (70007, 70015); (70112, 70112); (70133, 70143); (70162, 70162);
   (70207, 70271); (70279, 70279); (70281, 70281); (70286, 70286); (70302, 70302);
   (70314, 70319); (70379, 70383); (70394, 70399); (70404, 70404); (70413, 70414);
   (70417, 70418); (70441, 70441); (70449, 70449); (70452, 70452); (70458, 70458);
   (70469, 70470); (70473, 70474); (70478, 70479); (70481, 70486); (70488, 70492);
   (70500, 70501); (70509, 70511); (70517, 70655); (70748, 70748); (70754, 70783);
   (70856, 70863); (70874, 71039); (71094, 71095); (71134, 71167); (71237, 71247);
   (71258, 71263); (71277, 71295); (71354, 71359); (71370, 71423); (71451, 71452);
   (71468, 71471); (71495, 71679); (71740, 71839); (71923, 71934); (71943, 71944);
   (71946, 71947); (71956, 71956); (71959, 71959); (71990, 71990); (71993, 71994);
   (72007, 72015); (72026, 72095); (72104, 72105); (72152, 72153); (72165, 72191);
   (72264, 72271); (72355, 72367); (72441, 72703); (72713, 72713); (72759, 72759);
   (72774, 72783); (72813, 72815); (72848, 72849); (72872, 72872); (72887, 72959);
   (72967, 72967); (72970, 72970); (73015, 73017); (73019, 73019); (73022, 73022);
   (73032, 73039); (73050, 73055); (73062, 73062); (73065, 73065); (73103, 73103);
   (73106, 73106); (73113, 73119); (73130, 73439); (73465, 73647); (73649, 73663);
   (73714, 73726); (74650, 74751); (74863, 74863); (74869, 74879); (75076, 77711);
   (77811, 77823); (78895, 82943); (83527, 92159); (92729, 92735); (92767, 92767);
   (92778, 92781); (92863, 92863); (92874, 92879); (92910, 92911); (92918, 92927);
   (92998, 93007); (93018, 93018); (93026, 93026); (93048, 93052); (93072, 93759);
   (93851, 93951); (94027, 94030); (94088, 94094); (94112, 94175); (94181, 94191);
   (94194, 94207); (100344, 100351); (101590, 101631); (101641, 110575); (110580, 110580);
   (110588, 110588); (110591, 110591); (110883, 110927); (110931, 110947); (110952, 110959);
   (111356, 113663); (113771, 113775); (113789, 113791); (113801, 113807); (113818, 113819);
   (113824, 118527); (118574, 118575); (118599, 118607); (118724, 118783); (119030, 119039);
   (119079, 119080); (119155, 119162); (119275, 119295); (119366, 119519); (119540, 119551);
   (119639, 119647); (119673, 119807); (119893, 119893); (119965, 119965); (119968, 119969);
   (119971, 119972); (119975, 119976); (119981, 119981); (119994, 119994); (119996, 119996);
   (120004, 120004); (120070, 120070); (120075, 120076); (120085, 120085); (120093, 120093);
   (120122, 120122); (120127, 120127); (120133, 120133); (120135, 120137); (120145, 120145);
   (120486, 120487); (120780, 120781); (121484, 121498); (121504, 121504); (121520, 122623);
   (122655, 122879); (122887, 122887); (122905, 122906); (122914, 122914); (122917, 122917);
   (122923, 123135); (123181, 123183); (123198, 123199); (123210, 123213); (123216, 123535);
   (123567, 123583); (123642, 123646); (123648, 124895); (124903, 124903); (124908, 124908);
   (124911, 124911); (124927, 124927); (125125, 125126); (125143, 125183); (125260, 125263);
   (125274, 125277); (125280, 126064); (126133, 126208); (126270, 126463); (126468, 126468);
   (126496, 126496); (126499, 126499); (126501, 126502); (126504, 126504); (126515, 126515);
   (126520, 126520); (126522, 126522); (126524, 126529); (126531, 126534); (126536, 126536);
   (126538, 126538); (126540, 126540); (126544, 126544); (126547, 126547); (126549, 126550);
   (126552, 126552); (126554, 126554); (126556, 126556); (126558, 126558); (126560, 126560);
   (126563, 126563); (126565, 126566); (126571, 126571); (126579, 126579); (126584, 126584);
   (126589, 126589); (126591, 126591); (126602, 126602); (126620, 126624); (126628, 126628);
   (126634, 126634); (126652, 126703); (126706, 126975); (127020, 127023); (127124, 127135);
   (127151, 127152); (127168, 127168); (127184, 127184); (127222, 127231); (127406, 127461);
   (127491, 127503); (127548, 127551); (127561, 127567); (127570, 127583); (127590, 127743);
   (128728, 128732); (128749, 128751); (128765, 128767); (128884, 128895); (128985, 128991);
   (129004, 129007); (129009, 129023); (129036, 129039); (129096, 129103); (129114, 129119);
   (129160, 129167); (129198, 129199); (129202, 129279); (129620, 129631); (129646, 129647);
   (129653, 129655); (129661, 129663); (129671, 129679); (129709, 129711); (129723, 129727);
   (129734, 129743); (129754, 129759); (129768, 129775); (129783, 129791); (129939, 129939);
   (129995, 130031); (130042, 131071); (173792, 173823); (177977, 177983); (178206, 178207);
   (183970, 183983); (191457, 194559); (195102, 196607); (201547, 917759); (918000, 1114111)
  ]%N.

Definition printable (cp : N) : bool :=
  if (cp <? 128)%N then (32 <=? cp)%N && (cp <? 127)%N
  else bool_decide (Forall (fun ab => ~ (fst ab <= cp <= snd ab)%N) not_printable).

Definition hex_digit (n : N) : ascii :=
  if (n <? 10)%N then ascii_of_N (48 + n) else ascii_of_N (87 + n).

(** [n] in hexadecimal, on [width] digits. *)
Fixpoint hex (width : nat) (n : N) : string :=
  match width with
  | O => ""
  | S w => hex w (n / 16) +:+ String (hex_digit (n mod 16)) ""
  end.

(** *** [repr(s)] *)

(** One element per character of the result. *)
Definition escape (s : string) : list string :=
  (fun c => String c "") <$> String.list_ascii_of_string s.

Definition repr_char (quote : ascii) (c : N * string) : list string :=
  let '(cp, spelling) := c in
  if bool_decide (cp = byte quote) || bool_decide (cp = 92%N)
  then ["\"; spelling]
  else if bool_decide (cp = 9%N) then escape "\t"
  else if bool_decide (cp = 10%N) then escape "\n"
  else if bool_decide (cp = 13%N) then escape "\r"
  else if printable cp then [spelling]
  else if (cp <? 256)%N then escape ("\x" +:+ hex 2 cp)
  else if (cp <? 65536)%N then escape ("\u" +:+ hex 4 cp)
  else escape ("\U" +:+ hex 8 cp).

(** The characters of [repr(s)]: single quotes unless the string holds
    a single quote and no double quote. *)
Definition repr_chars (s : string) : list string :=
  let l := String.list_ascii_of_string s in
  let quote :=
    if bool_decide ("'"%char ∈ l) && negb (bool_decide ("034"%char ∈ l))
    then "034"%char else "'"%char in
  [String quote ""] ++ (code_points s ≫= repr_char quote) ++ [String quote ""].

Fixpoint concat (l : list string) : string :=
  match l with
  | [] => ""
  | x :: l' => x +:+ concat l'
  end.

Definition repr (s : string) : string := concat (repr_chars s).

(** *** [int(s)] for a [str], base ten

    The steps of CPython: characters from 127 on are replaced (a blank
    for white space, the ASCII digit for a decimal digit, a question
    mark otherwise); blanks are skipped at both ends; a sign may come
    first; the digits may be grouped by single underscores; more than
    4300 digits are refused (the default of
    [sys.set_int_max_str_digits]). *)

Definition to_ascii (cp : N) : ascii :=
  if (cp <? 127)%N then ascii_of_N cp
  else if unicode_space cp then " "%char
  else match decimal cp with
       | Some d => ascii_of_N (48 + d)
       | None => "?"%char
       end.

(** [Py_ISSPACE]. *)
Definition c_space (c : ascii) : bool :=
  ((9 <=? byte c)%N && (byte c <=? 13)%N) || bool_decide (byte c = 32%N).

Fixpoint skip_spaces (l : list ascii) : list ascii :=
  match l with
  | c :: l' => if c_space c then skip_spaces l' else l
  | [] => []
  end.

(** Digits with single underscores between them: the digits read and
    what follows them, or [None] for an underscore that is first, last
    or doubled, or when there is no digit. *)
Fixpoint scan_digits (after_underscore : bool) (l : list ascii)
    : option (string * list ascii) :=
  match l with
  | c :: l' =>
      match digit_value c with
      | Some _ =>
          match scan_digits false l' with
          | Some (ds, rest) => Some (String c ds, rest)
          | None => None
          end
      | None =>
          if bool_decide (c = "_"%char) then
            if after_underscore then None else scan_digits true l'
          else if after_underscore then None else Some ("", l)
      end
  | [] => if after_underscore then None else Some ("", [])
  end.

Definition invalid_literal (s : string) : string :=
  "invalid literal for int() with base 10: " +:+ concat (take 200 (repr_chars s)).

Definition too_many_digits (n : nat) : string :=
  "Exceeds the limit (4300 digits) for integer string conversion: value has " +:+
  str_int (Z.of_nat n) +:+
  " digits; use sys.set_int_max_str_digits() to increase the limit".

Definition int (s : string) : result Z :=
  let l := skip_spaces ((fun c => to_ascii (fst c)) <$> code_points s) in
  let '(sign, l) :=
    match l with
    | c :: l' =>
        if bool_decide (c = "+"%char) then (1, l')
        else if bool_decide (c = "-"%char) then (-1, l')
        else (1, l)
    | [] => (1, l)
    end in
  match scan_digits true l with
  | Some (ds, rest) =>
      if (4300 <? String.length ds)%nat then Raised (too_many_digits (String.length ds))
      else
        match skip_spaces rest, int_digits 0 ds with
        | [], Some n => Returned (sign * n)
        | _, _ => Raised (invalid_literal s)
        end
  | None => Raised (invalid_literal s)
  end.

(** [x or y] on a list-valued optional argument: [None] and the empty
    list are falsy. *)
Definition or_list {A} (x : option (list A)) (y : list A) : list A :=
  match x with
  | None | Some [] => y
  | Some l => l
  end.

(** Left padding with zeros, as done by the [%02d]-style fields of
    [strftime] and by fixed-precision float formatting. *)
Definition zfill (width : nat) (s : string) : string :=
  String.string_of_list_ascii (replicate (width - String.length s) "0"%char) +:+ s.

(** [format(x, '.<prec>f')] for a finite float whose exact value is the
    rational [x]: correctly rounded, ties to even, sign kept. *)
Definition round_half_even (x : Q) : Z :=
  let fl := Qfloor x in
  match Qcompare (x - inject_Z fl) (1 # 2) with
  | Lt => fl
  | Gt => fl + 1
  | Eq => if Z.even fl then fl else fl + 1
  end.

Definition format_f (prec : nat) (x : Q) : string :=
  let scale := 10 ^ Z.of_nat prec in
  let n := round_half_even (Qabs x * inject_Z scale) in
  (if Qlt_le_dec x 0 then "-" else "") +:+
  str_int (n / scale) +:+
  (match prec with
   | O => ""
   | _ => "." +:+ zfill prec (str_int (n mod scale))
   end).

End Py.

(** ** [datetime] values and the two renderings the runners use *)

Record datetime := mk_datetime {
  year : Z; month : Z; day : Z;
  hour : Z; minute : Z; second : Z; microsecond : Z }.

Definition valid_datetime (d : datetime) : Prop :=
  1000 <= year d <= 9999 /\ 1 <= month d <= 12 /\ 1 <= day d <= 31 /\
  0 <= hour d < 24 /\ 0 <= minute d < 60 /\ 0 <= second d < 60 /\
  0 <= microsecond d < 1000000.

Definition pad (width : nat) (n : Z) : string := Py.zfill width (Py.str_int n).

(** [d.strftime("%Y%m%d_%H%M%S")]. *)
Definition strftime_Ymd_HMS (d : datetime) : string :=
  pad 4 (year d) +:+ pad 2 (month d) +:+ pad 2 (day d) +:+ "_" +:+
  pad 2 (hour d) +:+ pad 2 (minute d) +:+ pad 2 (second d).

(** [d.isoformat()] of a naive datetime. *)
Definition isoformat (d : datetime) : string :=
  pad 4 (year d) +:+ "-" +:+ pad 2 (month d) +:+ "-" +:+ pad 2 (day d) +:+ "T" +:+
  pad 2 (hour d) +:+ ":" +:+ pad 2 (minute d) +:+ ":" +:+ pad 2 (second d) +:+
  (if decide (microsecond d = 0) then "" else "." +:+ pad 6 (microsecond d)).

(** ** [pathlib.Path] on a POSIX host *)

Module Path.

Record t := mk { root : string; parts : list string }.

(** [posixpath.splitroot]: no leading slash, exactly two, or any other
    number of them. *)
Definition splitroot (p : string) : string * string :=
  match p with
  | String c1 r1 =>
      if decide (c1 = "/"%char) then
        match r1 with
        | String c2 r2 =>
            if decide (c2 = "/"%char) then
              match r2 with
              | String c3 _ =>
                  if decide (c3 = "/"%char) then ("/", r1) else ("//", r2)
              | "" => ("//", r2)
              end
            else ("/", r1)
        | "" => ("/", r1)
        end
      else ("", p)
  | "" => ("", p)
  end.

Definition keep_part (x : string) : bool :=
  bool_decide (x <> "" /\ x <> ".").

(** [Path(s)]. *)
Definition of_str (s : string) : t :=
  let '(rt, rel) := splitroot s in
  mk rt (filter (fun x => keep_part x = true) (Py.split "/" rel)).

(** [p / s]: an absolute right operand replaces the left one. *)
Definition div (p : t) (s : string) : t :=
  let q := of_str s in
  if decide (root q = "") then mk (root p) (parts p ++ parts q) else q.

(** [str(p)]. *)
Definition str (p : t) : string :=
  match root p, parts p with
  | "", [] => "."
  | rt, ps => rt +:+ Py.join "/" ps
  end.

End Path.

Infix "</>" := Path.div (at level 40, left associativity).


(** ** Scenario catalog *)

Record test_config := mk_test {
  name : string; params : string; description : string }.

Record category := mk_category {
  cat_description : string; tests : list test_config }.

(** The catalog is a [dict] literal: insertion-ordered, looked up by key. *)
Definition scenarios_dict := list (string * category).

Definition keys (d : scenarios_dict) : list string := map fst d.

Fixpoint dict_get (d : scenarios_dict) (k : string) : option category :=
  match d with
  | [] => None
  | (k', v) :: d' => if decide (k' = k) then Some v else dict_get d' k
  end.

Inductive runner_class := MLOSimulationRunner | MLOExtremeSimulationRunner.

Definition basic_baseline_tests : list test_config :=
  [mk_test "normal_load_critical_high"
    "--nWifi=20 --tidCount=24 --criticalTids=0 --emergencyTids=24 --simtime=30 --dataRate=100Mbps"
    "Normal load - Emergency TIDs with Ultra-Critical SLA (1ms threshold)";
  mk_test "normal_load_critical_basic"
    "--nWifi=20 --tidCount=24 --criticalTids=24 --emergencyTids=0 --simtime=30 --dataRate=100Mbps"
    "Normal load - Critical Basic SLA (All Critical TIDs)";
  mk_test "normal_load_non_critical"
    "--nWifi=20 --tidCount=24 --criticalTids=0 --emergencyTids=0 --simtime=30 --dataRate=100Mbps"
    "Normal load - Non Critical SLA (All Non-Critical TIDs)";
  mk_test "normal_load_mixed_tid"
    "--nWifi=20 --tidCount=24 --criticalTids=8 --emergencyTids=8 --simtime=30 --dataRate=100Mbps"
    "Normal load - Mixed TID (Emergency + Critical + Non-Critical)";
  mk_test "high_load_critical_high"
    "--nWifi=30 --tidCount=36 --criticalTids=0 --emergencyTids=36 --simtime=30 --dataRate=150Mbps"
    "High load - Emergency TIDs with Ultra-Critical SLA (1ms threshold)";
  mk_test "high_load_critical_basic"
    "--nWifi=30 --tidCount=36 --criticalTids=36 --emergencyTids=0 --simtime=30 --dataRate=150Mbps"
    "High load - Critical Basic SLA (All Critical TIDs)";
  mk_test "high_load_non_critical"
    "--nWifi=30 --tidCount=36 --criticalTids=0 --emergencyTids=0 --simtime=30 --dataRate=150Mbps"
    "High load - Non Critical SLA (All Non-Critical TIDs)";
  mk_test "high_load_mixed_tid"
    "--nWifi=30 --tidCount=36 --criticalTids=12 --emergencyTids=12 --simtime=30 --dataRate=150Mbps"
    "High load - Mixed TID (Emergency + Critical + Non-Critical)";
  mk_test "mixed_traffic_critical_high"
    "--nWifi=25 --tidCount=32 --criticalTids=0 --emergencyTids=32 --simtime=30 --dataRate=120Mbps"
    "Mixed traffic - Emergency TIDs with Ultra-Critical SLA (1ms threshold)";
  mk_test "mixed_traffic_critical_basic"
    "--nWifi=25 --tidCount=32 --criticalTids=32 --emergencyTids=0 --simtime=30 --dataRate=120Mbps"
    "Mixed traffic - Critical Basic SLA (All Critical TIDs)";
  mk_test "mixed_traffic_non_critical"
    "--nWifi=25 --tidCount=32 --criticalTids=0 --emergencyTids=0 --simtime=30 --dataRate=120Mbps"
    "Mixed traffic - Non Critical SLA (All Non-Critical TIDs)";
  mk_test "mixed_traffic_mixed_tid"
    "--nWifi=25 --tidCount=32 --criticalTids=11 --emergencyTids=11 --simtime=30 --dataRate=120Mbps"
    "Mixed traffic - Mixed TID (Emergency + Critical + Non-Critical)"].

Definition basic_interference_tests : list test_config :=
  [mk_test "low_interference_critical_high"
    "--nWifi=20 --tidCount=24 --criticalTids=0 --emergencyTids=24 --simtime=30 --interference=true --interferenceIntensity=0.3"
    "Low interference - Emergency TIDs with Ultra-Critical SLA (1ms threshold)";
  mk_test "low_interference_critical_basic"
    "--nWifi=20 --tidCount=24 --criticalTids=24 --emergencyTids=0 --simtime=30 --interference=true --interferenceIntensity=0.3"
    "Low interference - Critical Basic SLA (All Critical TIDs)";
  mk_test "low_interference_non_critical"
    "--nWifi=20 --tidCount=24 --criticalTids=0 --emergencyTids=0 --simtime=30 --interference=true --interferenceIntensity=0.3"
    "Low interference - Non Critical SLA (All Non-Critical TIDs)";
  mk_test "low_interference_mixed_tid"
    "--nWifi=20 --tidCount=24 --criticalTids=8 --emergencyTids=8 --simtime=30 --interference=true --interferenceIntensity=0.3"
    "Low interference - Mixed TID (Emergency + Critical + Non-Critical)";
  mk_test "medium_interference_critical_high"
    "--nWifi=20 --tidCount=24 --criticalTids=0 --emergencyTids=24 --simtime=30 --interference=true --interferenceIntensity=0.6"
    "Medium interference - Emergency TIDs with Ultra-Critical SLA (1ms threshold)";
  mk_test "medium_interference_critical_basic"
    "--nWifi=20 --tidCount=24 --criticalTids=24 --emergencyTids=0 --simtime=30 --interference=true --interferenceIntensity=0.6"
    "Medium interference - Critical Basic SLA (All Critical TIDs)";
  mk_test "medium_interference_non_critical"
    "--nWifi=20 --tidCount=24 --criticalTids=0 --emergencyTids=0 --simtime=30 --interference=true --interferenceIntensity=0.6"
    "Medium interference - Non Critical SLA (All Non-Critical TIDs)";
  mk_test "medium_interference_mixed_tid"
    "--nWifi=20 --tidCount=24 --criticalTids=8 --emergencyTids=8 --simtime=30 --interference=true --interferenceIntensity=0.6"
    "Medium interference - Mixed TID (Emergency + Critical + Non-Critical)"].

Definition basic_failure_recovery_tests : list test_config :=
  [mk_test "random_failures_mixed_tid"
    "--nWifi=20 --tidCount=24 --criticalTids=8 --emergencyTids=8 --simtime=40 --linkFailureRate=0.1 --enableFailureRecovery=true"
    "Random failures (10% chance per second) - Mixed TID"].

Definition basic_mobility_tests : list test_config :=
  [mk_test "static_nodes_critical_high"
    "--nWifi=20 --tidCount=24 --criticalTids=0 --emergencyTids=24 --simtime=30 --mobility=false"
    "Static topology - Critical High SLA (All Emergency TIDs)";
  mk_test "static_nodes_critical_basic"
    "--nWifi=20 --tidCount=24 --criticalTids=24 --emergencyTids=0 --simtime=30 --mobility=false"
    "Static topology - Critical Basic SLA (All Critical TIDs)";
  mk_test "static_nodes_non_critical"
    "--nWifi=20 --tidCount=24 --criticalTids=0 --emergencyTids=0 --simtime=30 --mobility=false"
    "Static topology - Non Critical SLA (All Non-Critical TIDs)";
  mk_test "static_nodes_mixed_tid"
    "--nWifi=20 --tidCount=24 --criticalTids=8 --emergencyTids=8 --simtime=30 --mobility=false"
    "Static topology - Mixed TID (Emergency + Critical + Non-Critical)";
  mk_test "low_mobility_critical_high"
    "--nWifi=20 --tidCount=24 --criticalTids=0 --emergencyTids=24 --simtime=35 --mobility=true --mobilitySpeed=2.0"
    "Low mobility - Critical High SLA (All Emergency TIDs)";
  mk_test "low_mobility_critical_basic"
    "--nWifi=20 --tidCount=24 --criticalTids=24 --emergencyTids=0 --simtime=35 --mobility=true --mobilitySpeed=2.0"
    "Low mobility - Critical Basic SLA (All Critical TIDs)";
  mk_test "low_mobility_non_critical"
    "--nWifi=20 --tidCount=24 --criticalTids=0 --emergencyTids=0 --simtime=35 --mobility=true --mobilitySpeed=2.0"
    "Low mobility - Non Critical SLA (All Non-Critical TIDs)";
  mk_test "low_mobility_mixed_tid"
    "--nWifi=20 --tidCount=24 --criticalTids=8 --emergencyTids=8 --simtime=35 --mobility=true --mobilitySpeed=2.0"
    "Low mobility - Mixed TID (Emergency + Critical + Non-Critical)";
  mk_test "medium_mobility_critical_high"
    "--nWifi=20 --tidCount=24 --criticalTids=0 --emergencyTids=24 --simtime=35 --mobility=true --mobilitySpeed=5.0"
    "Medium mobility - Critical High SLA (All Emergency TIDs)";
  mk_test "medium_mobility_critical_basic"
    "--nWifi=20 --tidCount=24 --criticalTids=24 --emergencyTids=0 --simtime=35 --mobility=true --mobilitySpeed=5.0"
    "Medium mobility - Critical Basic SLA (All Critical TIDs)";
  mk_test "medium_mobility_non_critical"
    "--nWifi=20 --tidCount=24 --criticalTids=0 --emergencyTids=0 --simtime=35 --mobility=true --mobilitySpeed=5.0"
    "Medium mobility - Non Critical SLA (All Non-Critical TIDs)";
  mk_test "medium_mobility_mixed_tid"
    "--nWifi=20 --tidCount=24 --criticalTids=8 --emergencyTids=8 --simtime=35 --mobility=true --mobilitySpeed=5.0"
    "Medium mobility - Mixed TID (Emergency + Critical + Non-Critical)"].

Definition basic_scalability_tests : list test_config :=
  [mk_test "10_nodes_mixed_tid"
    "--nWifi=10 --tidCount=12 --criticalTids=4 --emergencyTids=4 --simtime=25 --dataRate=50Mbps"
    "10 nodes - Mixed TID (Emergency + Critical + Non-Critical)";
  mk_test "20_nodes_critical_high"
    "--nWifi=20 --tidCount=24 --criticalTids=0 --emergencyTids=24 --simtime=30 --dataRate=75Mbps"
    "20 nodes - Critical High SLA (All Emergency TIDs)";
  mk_test "20_nodes_mixed_tid"
    "--nWifi=20 --tidCount=24 --criticalTids=8 --emergencyTids=8 --simtime=30 --dataRate=75Mbps"
    "20 nodes - Mixed TID (Emergency + Critical + Non-Critical)";
  mk_test "25_nodes_critical_basic"
    "--nWifi=25 --tidCount=30 --criticalTids=30 --emergencyTids=0 --simtime=30 --dataRate=90Mbps"
    "25 nodes - Critical Basic SLA (All Critical TIDs)";
  mk_test "25_nodes_mixed_tid"
    "--nWifi=25 --tidCount=30 --criticalTids=10 --emergencyTids=10 --simtime=30 --dataRate=90Mbps"
    "25 nodes - Mixed TID (Emergency + Critical + Non-Critical)";
  mk_test "30_nodes_critical_high"
    "--nWifi=30 --tidCount=36 --criticalTids=0 --emergencyTids=36 --simtime=30 --dataRate=100Mbps"
    "30 nodes - Critical High SLA (All Emergency TIDs)";
  mk_test "30_nodes_mixed_tid"
    "--nWifi=30 --tidCount=36 --criticalTids=12 --emergencyTids=12 --simtime=30 --dataRate=100Mbps"
    "30 nodes - Mixed TID (Emergency + Critical + Non-Critical)";
  mk_test "40_nodes_critical_basic"
    "--nWifi=40 --tidCount=48 --criticalTids=48 --emergencyTids=0 --simtime=35 --dataRate=120Mbps"
    "40 nodes - Critical Basic SLA (All Critical TIDs)";
  mk_test "40_nodes_mixed_tid"
    "--nWifi=40 --tidCount=48 --criticalTids=16 --emergencyTids=16 --simtime=35 --dataRate=120Mbps"
    "40 nodes - Mixed TID (Emergency + Critical + Non-Critical)";
  mk_test "50_nodes_critical_high"
    "--nWifi=50 --tidCount=60 --criticalTids=0 --emergencyTids=60 --simtime=35 --dataRate=150Mbps"
    "50 nodes - Critical High SLA (All Emergency TIDs)";
  mk_test "50_nodes_mixed_tid"
    "--nWifi=50 --tidCount=60 --criticalTids=20 --emergencyTids=20 --simtime=35 --dataRate=150Mbps"
    "50 nodes - Mixed TID (Emergency + Critical + Non-Critical)";
  mk_test "60_nodes_critical_basic"
    "--nWifi=60 --tidCount=72 --criticalTids=72 --emergencyTids=0 --simtime=40 --dataRate=180Mbps"
    "60 nodes - Critical Basic SLA (All Critical TIDs)";
  mk_test "60_nodes_mixed_tid"
    "--nWifi=60 --tidCount=72 --criticalTids=24 --emergencyTids=24 --simtime=40 --dataRate=180Mbps"
    "60 nodes - Mixed TID (Emergency + Critical + Non-Critical)"].

Definition basic_critical_performance_tests : list test_config :=
  [mk_test "low_critical_ratio_critical_high"
    "--nWifi=30 --tidCount=40 --criticalTids=0 --emergencyTids=8 --simtime=30 --dataRate=120Mbps"
    "Low critical ratio - Critical High SLA (20% Emergency TIDs)";
  mk_test "low_critical_ratio_critical_basic"
    "--nWifi=30 --tidCount=40 --criticalTids=8 --emergencyTids=0 --simtime=30 --dataRate=120Mbps"
    "Low critical ratio - Critical Basic SLA (20% Critical TIDs)";
  mk_test "low_critical_ratio_non_critical"
    "--nWifi=30 --tidCount=40 --criticalTids=0 --emergencyTids=0 --simtime=30 --dataRate=120Mbps"
    "Low critical ratio - Non Critical SLA (All Non-Critical TIDs)";
  mk_test "low_critical_ratio_mixed_tid"
    "--nWifi=30 --tidCount=40 --criticalTids=4 --emergencyTids=4 --simtime=30 --dataRate=120Mbps"
    "Low critical ratio - Mixed TID (Emergency + Critical + Non-Critical)";
  mk_test "medium_critical_ratio_critical_high"
    "--nWifi=30 --tidCount=40 --criticalTids=0 --emergencyTids=16 --simtime=30 --dataRate=120Mbps"
    "Medium critical ratio - Critical High SLA (40% Emergency TIDs)";
  mk_test "medium_critical_ratio_critical_basic"
    "--nWifi=30 --tidCount=40 --criticalTids=16 --emergencyTids=0 --simtime=30 --dataRate=120Mbps"
    "Medium critical ratio - Critical Basic SLA (40% Critical TIDs)";
  mk_test "medium_critical_ratio_non_critical"
    "--nWifi=30 --tidCount=40 --criticalTids=0 --emergencyTids=0 --simtime=30 --dataRate=120Mbps"
    "Medium critical ratio - Non Critical SLA (All Non-Critical TIDs)";
  mk_test "medium_critical_ratio_mixed_tid"
    "--nWifi=30 --tidCount=40 --criticalTids=8 --emergencyTids=8 --simtime=30 --dataRate=120Mbps"
    "Medium critical ratio - Mixed TID (Emergency + Critical + Non-Critical)"].

Definition basic_network_configuration_tests : list test_config :=
  [mk_test "basic_ul_ofdma_mixed_tid"
    "--nWifi=20 --tidCount=24 --criticalTids=8 --emergencyTids=8 --simtime=30 --enableUlOfdma=true"
    "Basic UL OFDMA - Mixed TID";
  mk_test "bsrp_enabled_mixed_tid"
    "--nWifi=25 --tidCount=30 --criticalTids=10 --emergencyTids=10 --simtime=30 --enableBsrp=true --enableUlOfdma=true"
    "BSRP enabled with UL OFDMA - Mixed TID (Buffer status reporting)";
  mk_test "medium_congestion_mixed_protocol"
    "--nWifi=25 --tidCount=30 --criticalTids=10 --emergencyTids=10 --simtime=30 --congestionLevel=medium --dataRate=100Mbps"
    "Medium congestion level - Mixed TID (Moderate network stress)"].

Definition basic_protocol_variations_tests : list test_config :=
  [mk_test "tcp_basic_segments_mixed"
    "--nWifi=20 --tidCount=24 --criticalTids=8 --emergencyTids=8 --simtime=30 --tcpSegmentSize=1500 --dataRate=100Mbps"
    "TCP standard segments - Mixed TID (1.5KB segments)";
  mk_test "mixed_protocol_basic_mobility"
    "--nWifi=20 --tidCount=24 --criticalTids=8 --emergencyTids=8 --simtime=35 --mobility=true --mobilitySpeed=3.0"
    "Mixed protocol with basic mobility - Mixed TID (UDP/TCP alternating)";
  mk_test "mixed_protocol_basic_interference"
    "--nWifi=20 --tidCount=24 --criticalTids=8 --emergencyTids=8 --simtime=30 --interference=true --interferenceIntensity=0.4"
    "Mixed protocol with basic interference - Mixed TID"].

Definition basic_scenarios : scenarios_dict :=
  [("baseline", mk_category "Basic performance under normal conditions" basic_baseline_tests);
   ("interference", mk_category "Performance under different interference patterns" basic_interference_tests);
   ("failure_recovery", mk_category "Basic link failure and recovery performance" basic_failure_recovery_tests);
   ("mobility", mk_category "Performance under mobility conditions" basic_mobility_tests);
   ("scalability", mk_category "Scalability performance tests with node progression: 10, 20, 25, 30, 40, 50, 60" basic_scalability_tests);
   ("critical_performance", mk_category "Critical traffic handling capabilities" basic_critical_performance_tests);
   ("network_configuration", mk_category "Basic network configuration parameter testing" basic_network_configuration_tests);
   ("protocol_variations", mk_category "Basic protocol configuration testing" basic_protocol_variations_tests)].
Definition extreme_baseline_tests : list test_config :=
  [mk_test "normal_load_critical_high"
    "--nWifi=20 --tidCount=24 --criticalTids=0 --emergencyTids=24 --simtime=30 --dataRate=100Mbps"
    "Normal load - Critical High SLA (All Emergency TIDs)";
  mk_test "normal_load_critical_basic"
    "--nWifi=20 --tidCount=24 --criticalTids=24 --emergencyTids=0 --simtime=30 --dataRate=100Mbps"
    "Normal load - Critical Basic SLA (All Critical TIDs)";
  mk_test "normal_load_non_critical"
    "--nWifi=20 --tidCount=24 --criticalTids=0 --emergencyTids=0 --simtime=30 --dataRate=100Mbps"
    "Normal load - Non Critical SLA (All Non-Critical TIDs)";
  mk_test "normal_load_mixed_tid"
    "--nWifi=20 --tidCount=24 --criticalTids=8 --emergencyTids=8 --simtime=30 --dataRate=100Mbps"
    "Normal load - Mixed TID (Emergency + Critical + Non-Critical)";
  mk_test "high_load_critical_high"
    "--nWifi=30 --tidCount=36 --criticalTids=0 --emergencyTids=36 --simtime=30 --dataRate=150Mbps"
    "High load - Critical High SLA (All Emergency TIDs)";
  mk_test "high_load_critical_basic"
    "--nWifi=30 --tidCount=36 --criticalTids=36 --emergencyTids=0 --simtime=30 --dataRate=150Mbps"
    "High load - Critical Basic SLA (All Critical TIDs)";
  mk_test "high_load_non_critical"
    "--nWifi=30 --tidCount=36 --criticalTids=0 --emergencyTids=0 --simtime=30 --dataRate=150Mbps"
    "High load - Non Critical SLA (All Non-Critical TIDs)";
  mk_test "high_load_mixed_tid"
    "--nWifi=30 --tidCount=36 --criticalTids=12 --emergencyTids=12 --simtime=30 --dataRate=150Mbps"
    "High load - Mixed TID (Emergency + Critical + Non-Critical)";
  mk_test "mixed_traffic_critical_high"
    "--nWifi=25 --tidCount=32 --criticalTids=0 --emergencyTids=32 --simtime=30 --dataRate=120Mbps"
    "Mixed traffic - Critical High SLA (All Emergency TIDs)";
  mk_test "mixed_traffic_critical_basic"
    "--nWifi=25 --tidCount=32 --criticalTids=32 --emergencyTids=0 --simtime=30 --dataRate=120Mbps"
    "Mixed traffic - Critical Basic SLA (All Critical TIDs)";
  mk_test "mixed_traffic_non_critical"
    "--nWifi=25 --tidCount=32 --criticalTids=0 --emergencyTids=0 --simtime=30 --dataRate=120Mbps"
    "Mixed traffic - Non Critical SLA (All Non-Critical TIDs)";
  mk_test "mixed_traffic_mixed_tid"
    "--nWifi=25 --tidCount=32 --criticalTids=11 --emergencyTids=11 --simtime=30 --dataRate=120Mbps"
    "Mixed traffic - Mixed TID (Emergency + Critical + Non-Critical)"].

Definition extreme_interference_tests : list test_config :=
  [mk_test "low_interference_critical_high"
    "--nWifi=20 --tidCount=24 --criticalTids=0 --emergencyTids=24 --simtime=30 --interference=true --interferenceIntensity=0.3"
    "Low interference - Critical High SLA (All Emergency TIDs)";
  mk_test "low_interference_critical_basic"
    "--nWifi=20 --tidCount=24 --criticalTids=24 --emergencyTids=0 --simtime=30 --interference=true --interferenceIntensity=0.3"
    "Low interference - Critical Basic SLA (All Critical TIDs)";
  mk_test "low_interference_non_critical"
    "--nWifi=20 --tidCount=24 --criticalTids=0 --emergencyTids=0 --simtime=30 --interference=true --interferenceIntensity=0.3"
    "Low interference - Non Critical SLA (All Non-Critical TIDs)";
  mk_test "low_interference_mixed_tid"
    "--nWifi=20 --tidCount=24 --criticalTids=8 --emergencyTids=8 --simtime=30 --interference=true --interferenceIntensity=0.3"
    "Low interference - Mixed TID (Emergency + Critical + Non-Critical)";
  mk_test "medium_interference_critical_high"
    "--nWifi=20 --tidCount=24 --criticalTids=0 --emergencyTids=24 --simtime=30 --interference=true --interferenceIntensity=0.6"
    "Medium interference - Critical High SLA (All Emergency TIDs)";
  mk_test "medium_interference_critical_basic"
    "--nWifi=20 --tidCount=24 --criticalTids=24 --emergencyTids=0 --simtime=30 --interference=true --interferenceIntensity=0.6"
    "Medium interference - Critical Basic SLA (All Critical TIDs)";
  mk_test "medium_interference_non_critical"
    "--nWifi=20 --tidCount=24 --criticalTids=0 --emergencyTids=0 --simtime=30 --interference=true --interferenceIntensity=0.6"
    "Medium interference - Non Critical SLA (All Non-Critical TIDs)";
  mk_test "medium_interference_mixed_tid"
    "--nWifi=20 --tidCount=24 --criticalTids=8 --emergencyTids=8 --simtime=30 --interference=true --interferenceIntensity=0.6"
    "Medium interference - Mixed TID (Emergency + Critical + Non-Critical)";
  mk_test "high_interference_critical_high"
    "--nWifi=20 --tidCount=24 --criticalTids=0 --emergencyTids=24 --simtime=30 --interference=true --interferenceIntensity=0.9"
    "High interference - Critical High SLA (All Emergency TIDs)";
  mk_test "high_interference_critical_basic"
    "--nWifi=20 --tidCount=24 --criticalTids=24 --emergencyTids=0 --simtime=30 --interference=true --interferenceIntensity=0.9"
    "High interference - Critical Basic SLA (All Critical TIDs)";
  mk_test "high_interference_non_critical"
    "--nWifi=20 --tidCount=24 --criticalTids=0 --emergencyTids=0 --simtime=30 --interference=true --interferenceIntensity=0.9"
    "High interference - Non Critical SLA (All Non-Critical TIDs)";
  mk_test "high_interference_mixed_tid"
    "--nWifi=20 --tidCount=24 --criticalTids=8 --emergencyTids=8 --simtime=30 --interference=true --interferenceIntensity=0.9"
    "High interference - Mixed TID (Emergency + Critical + Non-Critical)";
  mk_test "burst_interference_critical_high"
    "--nWifi=20 --tidCount=24 --criticalTids=0 --emergencyTids=24 --simtime=35 --interferencePattern=burst_2.4ghz --interferenceIntensity=0.8"
    "Burst interference - Critical High SLA (All Emergency TIDs)";
  mk_test "burst_interference_critical_basic"
    "--nWifi=20 --tidCount=24 --criticalTids=24 --emergencyTids=0 --simtime=35 --interferencePattern=burst_2.4ghz --interferenceIntensity=0.8"
    "Burst interference - Critical Basic SLA (All Critical TIDs)";
  mk_test "burst_interference_non_critical"
    "--nWifi=20 --tidCount=24 --criticalTids=0 --emergencyTids=0 --simtime=35 --interferencePattern=burst_2.4ghz --interferenceIntensity=0.8"
    "Burst interference - Non Critical SLA (All Non-Critical TIDs)";
  mk_test "burst_interference_mixed_tid"
    "--nWifi=20 --tidCount=24 --criticalTids=8 --emergencyTids=8 --simtime=35 --interferencePattern=burst_2.4ghz --interferenceIntensity=0.8"
    "Burst interference - Mixed TID (Emergency + Critical + Non-Critical)";
  mk_test "burst_5ghz_interference_critical_high"
    "--nWifi=20 --tidCount=24 --criticalTids=0 --emergencyTids=24 --simtime=35 --interferencePattern=burst_5ghz --interferenceIntensity=0.7 --burstDuration=2000 --burstInterval=5000"
    "Burst 5GHz interference - Critical High SLA (2s bursts every 5s)";
  mk_test "multiband_burst_interference_mixed"
    "--nWifi=25 --tidCount=30 --criticalTids=10 --emergencyTids=10 --simtime=40 --interferencePattern=burst_all --interferenceIntensity=0.9 --burstDuration=1500 --burstInterval=4000"
    "Multi-band burst interference - Mixed TID (All bands affected)";
  mk_test "low_freq_interference_critical_basic"
    "--nWifi=20 --tidCount=24 --criticalTids=24 --emergencyTids=0 --simtime=30 --interference=true --interferenceFrequency=low --interferenceIntensity=0.4"
    "Low frequency interference - Critical Basic SLA (Sporadic interference)";
  mk_test "high_freq_interference_emergency"
    "--nWifi=15 --tidCount=18 --criticalTids=0 --emergencyTids=18 --simtime=30 --interference=true --interferenceFrequency=high --interferenceIntensity=0.6 --maxInterference=0.9"
    "High frequency interference - Emergency Focus (Frequent high-intensity interference)";
  mk_test "variable_interference_mixed"
    "--nWifi=20 --tidCount=24 --criticalTids=8 --emergencyTids=8 --simtime=35 --interferencePattern=gradual --interferenceIntensity=0.3 --maxInterference=0.8"
    "Variable interference intensity - Mixed TID (Gradual intensity changes)"].

Definition extreme_failure_recovery_tests : list test_config :=
  [mk_test "random_failures_mixed_tid"
    "--nWifi=20 --tidCount=24 --criticalTids=8 --emergencyTids=8 --simtime=40 --linkFailureRate=0.1 --enableFailureRecovery=true"
    "Random failures (10% chance per second) - Mixed TID";
  mk_test "burst_failures_emulated_mixed_tid"
    "--nWifi=20 --tidCount=24 --criticalTids=8 --emergencyTids=8 --simtime=40 --linkFailureRate=0.3 --enableFailureRecovery=true"
    "Burst failures emulated with high random failure rate (30%) - Mixed TID";
  mk_test "periodic_failures_emulated_mixed_tid"
    "--nWifi=20 --tidCount=24 --criticalTids=8 --emergencyTids=8 --simtime=45 --interferencePattern=burst_all --burstDuration=2000 --burstInterval=10000 --interferenceIntensity=0.95"
    "Periodic failures emulated via interference bursts (2s burst every 10s) - Mixed TID";
  mk_test "long_duration_failures_emergency"
    "--nWifi=15 --tidCount=18 --criticalTids=0 --emergencyTids=18 --simtime=60 --linkFailureRate=0.1 --failureDuration=5000 --enableFailureRecovery=true"
    "Long duration failures (5s) - Emergency Focus"].

Definition extreme_mobility_tests : list test_config :=
  [mk_test "static_nodes_critical_high"
    "--nWifi=20 --tidCount=24 --criticalTids=0 --emergencyTids=24 --simtime=30 --mobility=false"
    "Static topology - Critical High SLA (All Emergency TIDs)";
  mk_test "static_nodes_critical_basic"
    "--nWifi=20 --tidCount=24 --criticalTids=24 --emergencyTids=0 --simtime=30 --mobility=false"
    "Static topology - Critical Basic SLA (All Critical TIDs)";
  mk_test "static_nodes_non_critical"
    "--nWifi=20 --tidCount=24 --criticalTids=0 --emergencyTids=0 --simtime=30 --mobility=false"
    "Static topology - Non Critical SLA (All Non-Critical TIDs)";
  mk_test "static_nodes_mixed_tid"
    "--nWifi=20 --tidCount=24 --criticalTids=8 --emergencyTids=8 --simtime=30 --mobility=false"
    "Static topology - Mixed TID (Emergency + Critical + Non-Critical)";
  mk_test "low_mobility_critical_high"
    "--nWifi=20 --tidCount=24 --criticalTids=0 --emergencyTids=24 --simtime=35 --mobility=true --mobilitySpeed=2.0"
    "Low mobility - Critical High SLA (All Emergency TIDs)";
  mk_test "low_mobility_critical_basic"
    "--nWifi=20 --tidCount=24 --criticalTids=24 --emergencyTids=0 --simtime=35 --mobility=true --mobilitySpeed=2.0"
    "Low mobility - Critical Basic SLA (All Critical TIDs)";
  mk_test "low_mobility_non_critical"
    "--nWifi=20 --tidCount=24 --criticalTids=0 --emergencyTids=0 --simtime=35 --mobility=true --mobilitySpeed=2.0"
    "Low mobility - Non Critical SLA (All Non-Critical TIDs)";
  mk_test "low_mobility_mixed_tid"
    "--nWifi=20 --tidCount=24 --criticalTids=8 --emergencyTids=8 --simtime=35 --mobility=true --mobilitySpeed=2.0"
    "Low mobility - Mixed TID (Emergency + Critical + Non-Critical)";
  mk_test "medium_mobility_critical_high"
    "--nWifi=20 --tidCount=24 --criticalTids=0 --emergencyTids=24 --simtime=35 --mobility=true --mobilitySpeed=5.0"
    "Medium mobility - Critical High SLA (All Emergency TIDs)";
  mk_test "medium_mobility_critical_basic"
    "--nWifi=20 --tidCount=24 --criticalTids=24 --emergencyTids=0 --simtime=35 --mobility=true --mobilitySpeed=5.0"
    "Medium mobility - Critical Basic SLA (All Critical TIDs)";
  mk_test "medium_mobility_non_critical"
    "--nWifi=20 --tidCount=24 --criticalTids=0 --emergencyTids=0 --simtime=35 --mobility=true --mobilitySpeed=5.0"
    "Medium mobility - Non Critical SLA (All Non-Critical TIDs)";
  mk_test "medium_mobility_mixed_tid"
    "--nWifi=20 --tidCount=24 --criticalTids=8 --emergencyTids=8 --simtime=35 --mobility=true --mobilitySpeed=5.0"
    "Medium mobility - Mixed TID (Emergency + Critical + Non-Critical)";
  mk_test "high_mobility_critical_high"
    "--nWifi=20 --tidCount=24 --criticalTids=0 --emergencyTids=24 --simtime=35 --mobility=true --mobilitySpeed=10.0"
    "High mobility - Critical High SLA (All Emergency TIDs)";
  mk_test "high_mobility_critical_basic"
    "--nWifi=20 --tidCount=24 --criticalTids=24 --emergencyTids=0 --simtime=35 --mobility=true --mobilitySpeed=10.0"
    "High mobility - Critical Basic SLA (All Critical TIDs)";
  mk_test "high_mobility_non_critical"
    "--nWifi=20 --tidCount=24 --criticalTids=0 --emergencyTids=0 --simtime=35 --mobility=true --mobilitySpeed=10.0"
    "High mobility - Non Critical SLA (All Non-Critical TIDs)";
  mk_test "high_mobility_mixed_tid"
    "--nWifi=20 --tidCount=24 --criticalTids=8 --emergencyTids=8 --simtime=35 --mobility=true --mobilitySpeed=10.0"
    "High mobility - Mixed TID (Emergency + Critical + Non-Critical)";
  mk_test "gradual_mobility_critical_high"
    "--nWifi=20 --tidCount=24 --criticalTids=0 --emergencyTids=24 --simtime=40 --mobility=true --mobilityPattern=gradual --mobilitySpeed=3.0"
    "Gradual mobility pattern - Critical High SLA (Predictable movement)";
  mk_test "random_mobility_mixed_tid"
    "--nWifi=25 --tidCount=30 --criticalTids=10 --emergencyTids=10 --simtime=40 --mobility=true --mobilityPattern=random --mobilitySpeed=7.0"
    "Random mobility pattern - Mixed TID (Unpredictable movement)";
  mk_test "very_high_speed_emergency"
    "--nWifi=15 --tidCount=18 --criticalTids=0 --emergencyTids=18 --simtime=30 --mobility=true --mobilitySpeed=15.0"
    "Very high speed mobility - Emergency Only (15 m/s speed)"].

Definition extreme_scalability_tests : list test_config :=
  [mk_test "small_network_critical_high"
    "--nWifi=10 --tidCount=12 --criticalTids=0 --emergencyTids=12 --simtime=25 --dataRate=50Mbps"
    "Small network - Critical High SLA (All Emergency TIDs)";
  mk_test "small_network_critical_basic"
    "--nWifi=10 --tidCount=12 --criticalTids=12 --emergencyTids=0 --simtime=25 --dataRate=50Mbps"
    "Small network - Critical Basic SLA (All Critical TIDs)";
  mk_test "small_network_non_critical"
    "--nWifi=10 --tidCount=12 --criticalTids=0 --emergencyTids=0 --simtime=25 --dataRate=50Mbps"
    "Small network - Non Critical SLA (All Non-Critical TIDs)";
  mk_test "small_network_mixed_tid"
    "--nWifi=10 --tidCount=12 --criticalTids=4 --emergencyTids=4 --simtime=25 --dataRate=50Mbps"
    "Small network - Mixed TID (Emergency + Critical + Non-Critical)";
  mk_test "medium_network_critical_high"
    "--nWifi=30 --tidCount=36 --criticalTids=0 --emergencyTids=36 --simtime=30 --dataRate=100Mbps"
    "Medium network - Critical High SLA (All Emergency TIDs)";
  mk_test "medium_network_critical_basic"
    "--nWifi=30 --tidCount=36 --criticalTids=36 --emergencyTids=0 --simtime=30 --dataRate=100Mbps"
    "Medium network - Critical Basic SLA (All Critical TIDs)";
  mk_test "medium_network_non_critical"
    "--nWifi=30 --tidCount=36 --criticalTids=0 --emergencyTids=0 --simtime=30 --dataRate=100Mbps"
    "Medium network - Non Critical SLA (All Non-Critical TIDs)";
  mk_test "medium_network_mixed_tid"
    "--nWifi=30 --tidCount=36 --criticalTids=12 --emergencyTids=12 --simtime=30 --dataRate=100Mbps"
    "Medium network - Mixed TID (Emergency + Critical + Non-Critical)";
  mk_test "large_network_critical_high"
    "--nWifi=50 --tidCount=60 --criticalTids=0 --emergencyTids=60 --simtime=35 --dataRate=150Mbps"
    "Large network - Critical High SLA (All Emergency TIDs)";
  mk_test "large_network_critical_basic"
    "--nWifi=50 --tidCount=60 --criticalTids=60 --emergencyTids=0 --simtime=35 --dataRate=150Mbps"
    "Large network - Critical Basic SLA (All Critical TIDs)";
  mk_test "large_network_non_critical"
    "--nWifi=50 --tidCount=60 --criticalTids=0 --emergencyTids=0 --simtime=35 --dataRate=150Mbps"
    "Large network - Non Critical SLA (All Non-Critical TIDs)";
  mk_test "large_network_mixed_tid"
    "--nWifi=50 --tidCount=60 --criticalTids=20 --emergencyTids=20 --simtime=35 --dataRate=150Mbps"
    "Large network - Mixed TID (Emergency + Critical + Non-Critical)";
  mk_test "very_large_network_critical_high"
    "--nWifi=80 --tidCount=96 --criticalTids=0 --emergencyTids=96 --simtime=40 --dataRate=200Mbps"
    "Very large network - Critical High SLA (All Emergency TIDs)";
  mk_test "very_large_network_critical_basic"
    "--nWifi=80 --tidCount=96 --criticalTids=96 --emergencyTids=0 --simtime=40 --dataRate=200Mbps"
    "Very large network - Critical Basic SLA (All Critical TIDs)";
  mk_test "very_large_network_non_critical"
    "--nWifi=80 --tidCount=96 --criticalTids=0 --emergencyTids=0 --simtime=40 --dataRate=200Mbps"
    "Very large network - Non Critical SLA (All Non-Critical TIDs)";
  mk_test "very_large_network_mixed_tid"
    "--nWifi=80 --tidCount=96 --criticalTids=32 --emergencyTids=32 --simtime=40 --dataRate=200Mbps"
    "Very large network - Mixed TID (Emergency + Critical + Non-Critical)"].

Definition extreme_critical_performance_tests : list test_config :=
  [mk_test "low_critical_ratio_critical_high"
    "--nWifi=30 --tidCount=40 --criticalTids=0 --emergencyTids=8 --simtime=30 --dataRate=120Mbps"
    "Low critical ratio - Critical High SLA (20% Emergency TIDs)";
  mk_test "low_critical_ratio_critical_basic"
    "--nWifi=30 --tidCount=40 --criticalTids=8 --emergencyTids=0 --simtime=30 --dataRate=120Mbps"
    "Low critical ratio - Critical Basic SLA (20% Critical TIDs)";
  mk_test "low_critical_ratio_non_critical"
    "--nWifi=30 --tidCount=40 --criticalTids=0 --emergencyTids=0 --simtime=30 --dataRate=120Mbps"
    "Low critical ratio - Non Critical SLA (All Non-Critical TIDs)";
  mk_test "low_critical_ratio_mixed_tid"
    "--nWifi=30 --tidCount=40 --criticalTids=4 --emergencyTids=4 --simtime=30 --dataRate=120Mbps"
    "Low critical ratio - Mixed TID (Emergency + Critical + Non-Critical)";
  mk_test "medium_critical_ratio_critical_high"
    "--nWifi=30 --tidCount=40 --criticalTids=0 --emergencyTids=16 --simtime=30 --dataRate=120Mbps"
    "Medium critical ratio - Critical High SLA (40% Emergency TIDs)";
  mk_test "medium_critical_ratio_critical_basic"
    "--nWifi=30 --tidCount=40 --criticalTids=16 --emergencyTids=0 --simtime=30 --dataRate=120Mbps"
    "Medium critical ratio - Critical Basic SLA (40% Critical TIDs)";
  mk_test "medium_critical_ratio_non_critical"
    "--nWifi=30 --tidCount=40 --criticalTids=0 --emergencyTids=0 --simtime=30 --dataRate=120Mbps"
    "Medium critical ratio - Non Critical SLA (All Non-Critical TIDs)";
  mk_test "medium_critical_ratio_mixed_tid"
    "--nWifi=30 --tidCount=40 --criticalTids=8 --emergencyTids=8 --simtime=30 --dataRate=120Mbps"
    "Medium critical ratio - Mixed TID (Emergency + Critical + Non-Critical)";
  mk_test "high_critical_ratio_critical_high"
    "--nWifi=30 --tidCount=40 --criticalTids=0 --emergencyTids=28 --simtime=30 --dataRate=120Mbps"
    "High critical ratio - Critical High SLA (70% Emergency TIDs)";
  mk_test "high_critical_ratio_critical_basic"
    "--nWifi=30 --tidCount=40 --criticalTids=28 --emergencyTids=0 --simtime=30 --dataRate=120Mbps"
    "High critical ratio - Critical Basic SLA (70% Critical TIDs)";
  mk_test "high_critical_ratio_non_critical"
    "--nWifi=30 --tidCount=40 --criticalTids=0 --emergencyTids=0 --simtime=30 --dataRate=120Mbps"
    "High critical ratio - Non Critical SLA (All Non-Critical TIDs)";
  mk_test "high_critical_ratio_mixed_tid"
    "--nWifi=30 --tidCount=40 --criticalTids=14 --emergencyTids=14 --simtime=30 --dataRate=120Mbps"
    "High critical ratio - Mixed TID (Emergency + Critical + Non-Critical)";
  mk_test "emergency_with_critical_critical_high"
    "--nWifi=25 --tidCount=32 --criticalTids=0 --emergencyTids=24 --simtime=35 --dataRate=150Mbps"
    "Emergency with critical - Critical High SLA (75% Emergency TIDs)";
  mk_test "emergency_with_critical_critical_basic"
    "--nWifi=25 --tidCount=32 --criticalTids=24 --emergencyTids=0 --simtime=35 --dataRate=150Mbps"
    "Emergency with critical - Critical Basic SLA (75% Critical TIDs)";
  mk_test "emergency_with_critical_non_critical"
    "--nWifi=25 --tidCount=32 --criticalTids=0 --emergencyTids=0 --simtime=35 --dataRate=150Mbps"
    "Emergency with critical - Non Critical SLA (All Non-Critical TIDs)";
  mk_test "emergency_with_critical_mixed_tid"
    "--nWifi=25 --tidCount=32 --criticalTids=11 --emergencyTids=11 --simtime=35 --dataRate=150Mbps"
    "Emergency with Critical - Mixed TID (Emergency + Critical + Non-Critical)"].

Definition extreme_network_configuration_tests : list test_config :=
  [mk_test "high_mcs_ul_ofdma_critical_high"
    "--nWifi=20 --tidCount=24 --criticalTids=0 --emergencyTids=24 --simtime=30 --mcs=11 --enableUlOfdma=true --channelWidth=160"
    "High MCS with UL OFDMA - Critical High SLA (MCS 11, 160MHz channel)";
  mk_test "bsrp_enabled_mixed_tid"
    "--nWifi=25 --tidCount=30 --criticalTids=10 --emergencyTids=10 --simtime=30 --enableBsrp=true --enableUlOfdma=true"
    "BSRP enabled with UL OFDMA - Mixed TID (Buffer status reporting)";
  mk_test "wide_channel_high_congestion_emergency"
    "--nWifi=30 --tidCount=36 --criticalTids=0 --emergencyTids=36 --simtime=35 --channelWidth=160 --congestionLevel=high --dataRate=200Mbps"
    "Wide channel with high congestion - Emergency Focus (160MHz under stress)";
  mk_test "low_mcs_high_load_critical_basic"
    "--nWifi=40 --tidCount=48 --criticalTids=48 --emergencyTids=0 --simtime=30 --mcs=2 --dataRate=50Mbps"
    "Low MCS with high load - Critical Basic SLA (MCS 2 under load)";
  mk_test "medium_congestion_mixed_protocol"
    "--nWifi=25 --tidCount=30 --criticalTids=10 --emergencyTids=10 --simtime=30 --congestionLevel=medium --dataRate=100Mbps"
    "Medium congestion level - Mixed TID (Moderate network stress)"].

Definition extreme_protocol_variations_tests : list test_config :=
  [mk_test "tcp_large_segments_critical_high"
    "--nWifi=20 --tidCount=24 --criticalTids=0 --emergencyTids=24 --simtime=30 --tcpSegmentSize=2000 --dataRate=100Mbps"
    "TCP large segments - Critical High SLA (2KB segments)";
  mk_test "tcp_small_segments_high_load_mixed"
    "--nWifi=30 --tidCount=36 --criticalTids=12 --emergencyTids=12 --simtime=30 --tcpSegmentSize=500 --dataRate=150Mbps"
    "TCP small segments with high load - Mixed TID (500B segments)";
  mk_test "mixed_protocol_mobility_emergency"
    "--nWifi=20 --tidCount=24 --criticalTids=0 --emergencyTids=24 --simtime=35 --mobility=true --mobilitySpeed=5.0"
    "Mixed protocol with mobility - Emergency Focus (UDP/TCP alternating)";
  mk_test "mixed_protocol_interference_critical_basic"
    "--nWifi=25 --tidCount=30 --criticalTids=30 --emergencyTids=0 --simtime=30 --interference=true --interferenceIntensity=0.5"
    "Mixed protocol with interference - Critical Basic SLA (Protocol diversity under interference)"].

Definition extreme_mobility_interference_extreme_tests : list test_config :=
  [mk_test "low_mobility_medium_interference_emergency"
    "--nWifi=20 --tidCount=24 --criticalTids=0 --emergencyTids=24 --simtime=40 --mobility=true --mobilitySpeed=2.0 --interference=true --interferenceIntensity=0.6"
    "Low mobility + Medium interference - Emergency SLA (2m/s + 60% interference)";
  mk_test "low_mobility_high_interference_mixed"
    "--nWifi=25 --tidCount=30 --criticalTids=10 --emergencyTids=10 --simtime=40 --mobility=true --mobilitySpeed=2.0 --interference=true --interferenceIntensity=0.9"
    "Low mobility + High interference - Mixed TID (2m/s + 90% interference)";
  mk_test "low_mobility_burst_interference_critical"
    "--nWifi=20 --tidCount=24 --criticalTids=24 --emergencyTids=0 --simtime=45 --mobility=true --mobilitySpeed=2.0 --interferencePattern=burst_2.4ghz --interferenceIntensity=0.8"
    "Low mobility + Burst interference - Critical Basic (2m/s + 2.4GHz bursts)";
  mk_test "medium_mobility_high_interference_emergency"
    "--nWifi=25 --tidCount=30 --criticalTids=0 --emergencyTids=30 --simtime=40 --mobility=true --mobilitySpeed=5.0 --interference=true --interferenceIntensity=0.9"
    "Medium mobility + High interference - Emergency SLA (5m/s + 90% interference)";
  mk_test "medium_mobility_burst_all_bands_mixed"
    "--nWifi=30 --tidCount=36 --criticalTids=12 --emergencyTids=12 --simtime=45 --mobility=true --mobilitySpeed=5.0 --interferencePattern=burst_all --interferenceIntensity=0.8 --burstDuration=1500 --burstInterval=4000"
    "Medium mobility + Multi-band burst interference - Mixed TID (5m/s + all-band bursts)";
  mk_test "medium_mobility_variable_interference_critical"
    "--nWifi=25 --tidCount=30 --criticalTids=30 --emergencyTids=0 --simtime=45 --mobility=true --mobilitySpeed=5.0 --interferencePattern=gradual --interferenceIntensity=0.4 --maxInterference=0.9"
    "Medium mobility + Variable interference - Critical Basic (5m/s + gradual interference changes)";
  mk_test "high_mobility_high_interference_emergency"
    "--nWifi=25 --tidCount=30 --criticalTids=0 --emergencyTids=30 --simtime=40 --mobility=true --mobilitySpeed=10.0 --interference=true --interferenceIntensity=0.9"
    "High mobility + High interference - Emergency SLA (10m/s + 90% interference)";
  mk_test "high_mobility_burst_5ghz_mixed"
    "--nWifi=20 --tidCount=24 --criticalTids=8 --emergencyTids=8 --simtime=45 --mobility=true --mobilitySpeed=10.0 --interferencePattern=burst_5ghz --interferenceIntensity=0.8 --burstDuration=2000 --burstInterval=5000"
    "High mobility + 5GHz burst interference - Mixed TID (10m/s + 5GHz bursts)";
  mk_test "high_mobility_high_freq_interference_critical"
    "--nWifi=20 --tidCount=24 --criticalTids=24 --emergencyTids=0 --simtime=40 --mobility=true --mobilitySpeed=10.0 --interference=true --interferenceFrequency=high --interferenceIntensity=0.7 --maxInterference=0.9"
    "High mobility + High freq interference - Critical Basic (10m/s + frequent interference)";
  mk_test "random_mobility_multiband_burst_emergency"
    "--nWifi=30 --tidCount=36 --criticalTids=0 --emergencyTids=36 --simtime=50 --mobility=true --mobilityPattern=random --mobilitySpeed=7.0 --interferencePattern=burst_all --interferenceIntensity=0.9 --burstDuration=1000 --burstInterval=3000"
    "Random mobility + Multi-band bursts - Emergency SLA (7m/s random + all-band interference)";
  mk_test "random_mobility_variable_interference_mixed"
    "--nWifi=25 --tidCount=30 --criticalTids=10 --emergencyTids=10 --simtime=50 --mobility=true --mobilityPattern=random --mobilitySpeed=8.0 --interferencePattern=gradual --interferenceIntensity=0.3 --maxInterference=0.95"
    "Random mobility + Variable interference - Mixed TID (8m/s random + gradual interference)";
  mk_test "very_high_speed_extreme_interference_emergency"
    "--nWifi=20 --tidCount=24 --criticalTids=0 --emergencyTids=24 --simtime=40 --mobility=true --mobilitySpeed=15.0 --interference=true --interferenceIntensity=0.95"
    "Very high speed + Extreme interference - Emergency Only (15m/s + 95% interference)";
  mk_test "very_high_speed_periodic_failures_mixed"
    "--nWifi=25 --tidCount=30 --criticalTids=10 --emergencyTids=10 --simtime=50 --mobility=true --mobilitySpeed=15.0 --interferencePattern=burst_all --burstDuration=3000 --burstInterval=8000 --interferenceIntensity=0.98"
    "Very high speed + Periodic failures - Mixed TID (15m/s + 98% interference bursts)";
  mk_test "large_network_mobility_interference_stress"
    "--nWifi=50 --tidCount=60 --criticalTids=20 --emergencyTids=20 --simtime=45 --mobility=true --mobilitySpeed=8.0 --interference=true --interferenceIntensity=0.8"
    "Large network mobility + interference stress test (50 nodes, 8m/s + 80% interference)";
  mk_test "very_large_network_extreme_mobility_interference"
    "--nWifi=80 --tidCount=96 --criticalTids=32 --emergencyTids=32 --simtime=50 --mobility=true --mobilityPattern=random --mobilitySpeed=12.0 --interferencePattern=burst_all --interferenceIntensity=0.9 --burstDuration=2000 --burstInterval=5000"
    "Very large network extreme test (80 nodes, 12m/s random + multi-band bursts)";
  mk_test "tcp_mobility_interference_stress"
    "--nWifi=25 --tidCount=30 --criticalTids=15 --emergencyTids=15 --simtime=45 --mobility=true --mobilitySpeed=8.0 --interference=true --interferenceIntensity=0.8 --tcpSegmentSize=1500"
    "TCP under mobility + interference stress (8m/s + 80% interference)";
  mk_test "mixed_protocol_extreme_mobility_interference"
    "--nWifi=30 --tidCount=36 --criticalTids=12 --emergencyTids=12 --simtime=50 --mobility=true --mobilityPattern=random --mobilitySpeed=10.0 --interferencePattern=burst_all --interferenceIntensity=0.85"
    "Mixed protocols under extreme conditions (10m/s random + burst interference)"].

Definition extreme_scenarios : scenarios_dict :=
  [("baseline", mk_category "Basic performance under normal conditions" extreme_baseline_tests);
   ("interference", mk_category "Performance under different interference patterns" extreme_interference_tests);
   ("failure_recovery", mk_category "Link failure and recovery performance" extreme_failure_recovery_tests);
   ("mobility", mk_category "Performance under mobility conditions" extreme_mobility_tests);
   ("scalability", mk_category "Scalability performance tests" extreme_scalability_tests);
   ("critical_performance", mk_category "Critical traffic handling capabilities" extreme_critical_performance_tests);
   ("network_configuration", mk_category "Advanced network configuration parameter testing" extreme_network_configuration_tests);
   ("protocol_variations", mk_category "Mixed protocol and advanced protocol configuration testing" extreme_protocol_variations_tests);
   ("mobility_interference_extreme", mk_category "Extreme scenarios combining mobility and interference stress testing" extreme_mobility_interference_extreme_tests)].
Definition define_test_scenarios (c : runner_class) : scenarios_dict :=
  match c with
  | MLOSimulationRunner => basic_scenarios
  | MLOExtremeSimulationRunner => extreme_scenarios
  end.

(** ** The runner object *)

Record runner := mk_runner {
  cls : runner_class;
  ns3_dir : Path.t;
  output_dir : Path.t;
  log_dir : Path.t;
  output_csv_path : Path.t;
  timestamp : string;
  scenarios : scenarios_dict;
  strategies : list string;
  protocols : list string }.

(** [__init__(self, ns3_dir)], run at the instant [now].  The directories
    made by [setup_directory_structure] are not tracked: the file store
    below holds regular files only. *)
Definition init (c : runner_class) (dir : string) (now : datetime) : runner :=
  let ns3 := Path.of_str dir in
  let out := ns3 </> "scratch" </> "output_files_csv" in
  {| cls := c;
     ns3_dir := ns3;
     output_dir := out;
     log_dir := ns3 </> "scratch" </> "logs";
     output_csv_path := out </> "mlo_unified_results.csv";
     timestamp := strftime_Ymd_HMS now;
     scenarios := define_test_scenarios c;
     strategies := ["RoundRobin"; "Greedy"; "Reliability"; "SLA-MLO"];
     protocols := ["UDP"; "TCP"; "Mixed"] |}.

(** A queued run: [(command, test_name, description)]. *)
Definition test_info : Type := string * string * string.

Definition generate_test_command (r : runner) (scenario_category : string)
    (tc : test_config) (strategy protocol : string) (seed : Z) : test_info :=
  let csv_file_path := output_csv_path r in
  let command :=
    "./ns3 run 'mlo_simulator " +:+
    "--strategy=" +:+ strategy +:+ " " +:+
    "--protocol=" +:+ protocol +:+ " " +:+
    "--seed=" +:+ Py.str_int seed +:+ " " +:+
    "--csvFile=" +:+ Path.str csv_file_path +:+ " " +:+
    "--scenario=" +:+ scenario_category +:+ "_" +:+ name tc +:+ " " +:+
    "--runNumber=" +:+ Py.str_int seed +:+ " " +:+
    "--verbose=1 " in
  let command := command +:+ params tc in
  let command := command +:+ "'" in
  let test_name :=
    scenario_category +:+ "_" +:+ name tc +:+ "_" +:+ strategy +:+ "_" +:+
    protocol +:+ "_" +:+ Py.str_int seed in
  (command, test_name, description tc).

(** ** Running one test *)

Record completed_process := mk_completed {
  returncode : Z; stdout : string; stderr : string }.

(** How the command that [subprocess.run(command, shell=True, cwd=...,
    capture_output=True, text=True)] hands to the shell ends. *)
Inductive spawned :=
  (** the process could not be created ([Popen] raises, for instance
      because the working directory is missing) *)
| not_started (e : string)
  (** the process ran to its end: its exit code, its two captured streams
      once decoded as text (an exception text when the bytes cannot be
      decoded), and the rows its simulator appended to the results file
      ([None] when it did not open the file) *)
| terminated (code : Z) (out err : Py.result string) (rows : option string).

(** What one worker observes of its surroundings while it runs a test. *)
Record process_env := mk_env {
  (** outcome of the command started in the given working directory *)
  spawn : string -> string -> spawned;
  (** exact value of the float [time.time() - start_time] *)
  execution_time : Q;
  (** [datetime.now()] when the log is written *)
  log_time : datetime;
  (** [open(path, mode)]: [Some e] when it raises an exception of text [e];
      once a file is open, writing to it succeeds. *)
  open_fault : string -> option string }.

(** What [subprocess.run] gives back: the finished process, or the
    exception raised by the creation of the process or by the decoding of
    its output, [stdout] first. *)
Definition subprocess_run (env : process_env) (command cwd : string)
    : Py.result completed_process :=
  match spawn env command cwd with
  | not_started e => Py.Raised e
  | terminated code (Py.Returned out) (Py.Returned err) _ =>
      Py.Returned (mk_completed code out err)
  | terminated _ (Py.Raised e) _ _ => Py.Raised e
  | terminated _ (Py.Returned _) (Py.Raised e) _ => Py.Raised e
  end.

(** Regular files by path, with their text. *)
Abbreviation file_store := (gmap string string).

(** The results file as the simulator opens it: the [--csvFile] path of
    the commands built by [generate_test_command], taken from the working
    directory [ns3_dir] the process is started in.  The simulator is not
    among the sources modelled here; that it appends its rows to this
    file is what the runners print at the end of a run
    ([All results appended to]). *)
Definition results_file (r : runner) : string :=
  Path.str (ns3_dir r </> Path.str (output_csv_path r)).

Definition appended_rows (r : runner) (env : process_env) (command : string)
    : option string :=
  match spawn env command (Path.str (ns3_dir r)) with
  | not_started _ => None
  | terminated _ _ _ rows => rows
  end.

(** The files once the spawned process has ended: the simulator, not the
    runner, appends to the results file. *)
Definition after_simulator (r : runner) (env : process_env) (fs : file_store)
    (command : string) : file_store :=
  match appended_rows r env command with
  | Some rows => <[results_file r := default "" (fs !! results_file r) +:+ rows]> fs
  | None => fs
  end.

Record single_run := mk_single {
  returned : Py.result bool;
  files : file_store;
  printed : list string }.

Definition details_header (c : runner_class) : string :=
  match c with
  | MLOSimulationRunner => "--- TEST DETAILS ---"
  | MLOExtremeSimulationRunner => "--- EXTREME TEST DETAILS ---"
  end.

Definition starting_label (c : runner_class) : string :=
  match c with
  | MLOSimulationRunner => "🚀 Starting test: "
  | MLOExtremeSimulationRunner => "🚀 Starting extreme test: "
  end.

Definition log_file_path (r : runner) (test_name : string) : Path.t :=
  log_dir r </> (test_name +:+ "_" +:+ timestamp r +:+ ".log").

(** The text written through [open(log_file_path, 'w')], one [f.write]
    per line of the definition. *)
Definition log_text (r : runner) (env : process_env) (t : test_info)
    (result : completed_process) : string :=
  let '(command, test_name, description) := t in
  details_header (cls r) +:+ Py.LF +:+
  "Test Name: " +:+ test_name +:+ Py.LF +:+
  "Description: " +:+ description +:+ Py.LF +:+
  "Timestamp: " +:+ isoformat (log_time env) +:+ Py.LF +:+
  "Execution Time: " +:+ Py.format_f 2 (execution_time env) +:+ " seconds" +:+ Py.LF +:+
  "Return Code: " +:+ Py.str_int (returncode result) +:+ Py.LF +:+ Py.LF +:+
  "--- COMMAND ---" +:+ Py.LF +:+ command +:+ Py.LF +:+ Py.LF +:+
  "--- STDOUT ---" +:+ Py.LF +:+
  stdout result +:+
  Py.LF +:+ "--- STDERR ---" +:+ Py.LF +:+
  stderr result.

(** The [except Exception as e] handler. *)
Definition on_exception (env : process_env) (fs : file_store)
    (out : list string) (test_name path e : string) : single_run :=
  let out := out ++ ["❌ CRITICAL ERROR: " +:+ test_name +:+
                     ". See log for details: " +:+ path] in
  match open_fault env path with
  | Some e' => mk_single (Py.Raised e') fs out
  | None =>
      let old := default "" (fs !! path) in
      mk_single (Py.Returned false)
        (<[path := old +:+ Py.LF +:+ "--- PYTHON EXCEPTION ---" +:+ Py.LF +:+ e]> fs)
        out
  end.

Definition run_single_test (r : runner) (env : process_env) (fs : file_store)
    (t : test_info) : single_run :=
  let '(command, test_name, description) := t in
  let path := Path.str (log_file_path r test_name) in
  let out := [starting_label (cls r) +:+ test_name] in
  let fs := after_simulator r env fs command in
  match subprocess_run env command (Path.str (ns3_dir r)) with
  | Py.Raised e => on_exception env fs out test_name path e
  | Py.Returned result =>
      match open_fault env path with
      | Some e => on_exception env fs out test_name path e
      | None =>
          let fs := <[path := log_text r env t result]> fs in
          if decide (returncode result = 0) then
            mk_single (Py.Returned true) fs
              (out ++ ["✅ SUCCESS: " +:+ test_name +:+ " (took " +:+
                       Py.format_f 1 (execution_time env) +:+ "s)"])
          else
            mk_single (Py.Returned false) fs
              (out ++ ["❌ FAILED: " +:+ test_name +:+
                       ". See log for details: " +:+ path])
      end
  end.

(** ** Running the whole matrix *)

Definition categories_to_run (r : runner) (categories : option (list string)) : list string :=
  Py.or_list categories (keys (scenarios r)).
Definition strategies_to_test (r : runner) (sel : option (list string)) : list string :=
  Py.or_list sel (strategies r).
Definition protocols_to_test (r : runner) (sel : option (list string)) : list string :=
  Py.or_list sel (protocols r).

(** [int(self.timestamp.split('_')[1])]; the [IndexError] of the index
    and the [ValueError] of [int] by their text. *)
Definition test_id_counter_init (r : runner) : Py.result Z :=
  match Py.split "_" (timestamp r) !! 1%nat with
  | None => Py.Raised "list index out of range"
  | Some t =>
      Py.int t
  end.

(** State threaded through the four nested [for] loops:
    [test_id_counter], [all_tests_to_run] and what was printed. *)
Record expansion := mk_expansion {
  test_id_counter : Z;
  all_tests_to_run : list test_info;
  warnings : list string }.

Definition for_protocol (r : runner) (category_name : string) (tc : test_config)
    (strategy : string) (st : expansion) (protocol : string) : expansion :=
  let ctr := test_id_counter st + 1 in
  mk_expansion ctr
    (all_tests_to_run st ++
       [generate_test_command r category_name tc strategy protocol ctr])
    (warnings st).

Definition for_strategy (r : runner) (protos : list string) (category_name : string)
    (tc : test_config) (st : expansion) (strategy : string) : expansion :=
  foldl (for_protocol r category_name tc strategy) st protos.

Definition for_test_config (r : runner) (strats protos : list string)
    (category_name : string) (st : expansion) (tc : test_config) : expansion :=
  foldl (for_strategy r protos category_name tc) st strats.

Definition for_category (r : runner) (strats protos : list string)
    (st : expansion) (category_name : string) : expansion :=
  match dict_get (scenarios r) category_name with
  | None =>
      mk_expansion (test_id_counter st) (all_tests_to_run st)
        (warnings st ++ ["⚠️ Warning: Scenario category '" +:+ category_name +:+
                          "' not found. Skipping."])
  | Some category =>
      foldl (for_test_config r strats protos category_name) st (tests category)
  end.

Definition expand_matrix (r : runner) (cats strats protos : list string)
    (start : Z) : expansion :=
  foldl (for_category r strats protos) (mk_expansion start [] []) cats.

(** The pool and the host as seen from the parent process. *)
Record host := mk_host {
  cpu_count : Z;
  (** surroundings of the worker that runs the [i]-th submitted test *)
  worker_env : nat -> process_env;
  (** a fault that [future.result()] raises for the [i]-th future although
      [run_single_test] itself did not raise (a worker process that died,
      a pool that broke before the test was started) *)
  pool_fault : nat -> option string;
  (** what the worker of such a future had done before it was lost: the
      rows its simulator appended to the results file, and the text it
      left in its log ([None] for a file it never opened) *)
  lost_worker : nat -> option string * option string;
  (** order in which [as_completed] yields the futures, by submission index *)
  completion_order : list nat;
  (** exact value of the float [time.time() - overall_start_time] *)
  total_execution_time : Q }.

Definition log_of (r : runner) (t : test_info) : string :=
  Path.str (log_file_path r (snd (fst t))).

(** The files a lost worker leaves. *)
Definition left_by_lost_worker (r : runner) (h : host) (fs : file_store)
    (i : nat) (t : test_info) : file_store :=
  let fs :=
    match fst (lost_worker h i) with
    | Some rows => <[results_file r := default "" (fs !! results_file r) +:+ rows]> fs
    | None => fs
    end in
  match snd (lost_worker h i) with
  | Some text => <[log_of r t := text]> fs
  | None => fs
  end.

(** [future.result()] of the [i]-th future, with the worker's effect on
    the files.  Workers run side by side; their effects are taken one
    after the other, in the order of completion. *)
Definition future_result (r : runner) (h : host) (fs : file_store)
    (i : nat) (t : test_info) : Py.result bool * file_store :=
  match pool_fault h i with
  | Some e => (Py.Raised e, left_by_lost_worker r h fs i t)
  | None =>
      let s := run_single_test r (worker_env h i) fs t in
      (returned s, files s)
  end.

Record tally := mk_tally {
  successful_runs : Z;
  failed_runs : Z;
  tally_files : file_store;
  tally_printed : list string }.

(** Body of [for future in as_completed(future_to_test)]. *)
Definition collect (r : runner) (h : host) (submitted : list test_info)
    (acc : tally) (i : nat) : tally :=
  match submitted !! i with
  | None => acc
  | Some t =>
      match future_result r h (tally_files acc) i t with
      | (Py.Returned true, fs) =>
          mk_tally (successful_runs acc + 1) (failed_runs acc) fs (tally_printed acc)
      | (Py.Returned false, fs) =>
          mk_tally (successful_runs acc) (failed_runs acc + 1) fs (tally_printed acc)
      | (Py.Raised exc, fs) =>
          mk_tally (successful_runs acc) (failed_runs acc + 1) fs
            (tally_printed acc ++ ["A test generated an exception: " +:+ exc])
      end
  end.

Definition banner_width (c : runner_class) : nat :=
  match c with MLOSimulationRunner => 70 | MLOExtremeSimulationRunner => 80 end.

Definition rule (c : runner_class) : string :=
  String.string_of_list_ascii (replicate (banner_width c) "="%char).

Definition opening_lines (r : runner) (max_workers : Z)
    (cats strats protos : list string) : list string :=
  match cls r with
  | MLOSimulationRunner =>
      [Py.LF +:+ rule (cls r);
       "🎯 MLO BASIC SIMULATION RUNNER INITIALIZING 🎯";
       rule (cls r);
       "🧪 Basic Test Categories: " +:+ Py.join ", " cats]
  | MLOExtremeSimulationRunner =>
      [Py.LF +:+ rule (cls r);
       "🎯 MLO EXTREME SIMULATION RUNNER INITIALIZING 🎯";
       rule (cls r);
       "🧪 Extreme Test Categories: " +:+ Py.join ", " cats]
  end ++
  ["📊 Strategies: " +:+ Py.join ", " strats;
   "🌐 Protocols: " +:+ Py.join ", " protos;
   "⚙️ Parallel Workers: " +:+ Py.str_int max_workers].

Definition total_line (c : runner_class) (n : nat) : string :=
  match c with
  | MLOSimulationRunner =>
      Py.LF +:+ "Total simulation runs to execute: " +:+ Py.str_int (Z.of_nat n) +:+ Py.LF
  | MLOExtremeSimulationRunner =>
      Py.LF +:+ "Total extreme simulation runs to execute: " +:+ Py.str_int (Z.of_nat n) +:+ Py.LF
  end.

Definition closing_lines (r : runner) (h : host) (ok ko : Z) : list string :=
  [Py.LF +:+ rule (cls r);
   match cls r with
   | MLOSimulationRunner => "🏁 MLO BASIC SIMULATION RUN COMPLETE 🏁"
   | MLOExtremeSimulationRunner => "🏁 MLO EXTREME SIMULATION RUN COMPLETE 🏁"
   end;
   rule (cls r);
   "⏱️  Total execution time: " +:+ Py.format_f 2 (total_execution_time h) +:+ " seconds";
   "✅ Successful runs: " +:+ Py.str_int ok;
   "❌ Failed runs: " +:+ Py.str_int ko;
   "📄 All results appended to: " +:+ Path.str (output_csv_path r);
   "📁 Detailed logs are in: " +:+ Path.str (log_dir r)].

(** What a call of [run_all_tests] leaves behind: the parent's console
    lines, the queue it built, the files, and either the exception that
    ended it or the two counters it printed. *)
Record report := mk_report {
  console : list string;
  submitted : list test_info;
  final_files : file_store;
  outcome : Py.result (Z * Z) }.

Definition run_all_tests (r : runner) (h : host) (fs : file_store)
    (max_workers : option Z) (categories strategies protocols : option (list string))
    : report :=
  let max_workers := default (cpu_count h) max_workers in
  let cats := categories_to_run r categories in
  let strats := strategies_to_test r strategies in
  let protos := protocols_to_test r protocols in
  let out := opening_lines r max_workers cats strats protos in
  match test_id_counter_init r with
  | Py.Raised e => mk_report out [] fs (Py.Raised e)
  | Py.Returned start =>
      let ex := expand_matrix r cats strats protos start in
      let queue := all_tests_to_run ex in
      let out := out ++ warnings ex ++ [total_line (cls r) (length queue)] in
      (* ProcessPoolExecutor(max_workers=...) *)
      if decide (max_workers <= 0) then
        mk_report out queue fs (Py.Raised "max_workers must be greater than 0")
      else
        let done := foldl (collect r h queue) (mk_tally 0 0 fs []) (completion_order h) in
        mk_report
          (out ++ tally_printed done ++
             closing_lines r h (successful_runs done) (failed_runs done))
          queue (tally_files done)
          (Py.Returned (successful_runs done, failed_runs done))
  end.

(** ** Reference descriptions the code is compared with *)

(** The simulator entry point: the [./ns3 run] wrapper, opening the quoted
    argument that holds the program name and all of its flags. *)
Definition simulator_entry : string := "./ns3 run 'mlo_simulator".

(** Command shape of the interface description: entry point, the seven
    orchestration flags, then the scenario parameter string, single blanks
    in between. *)
Definition spawned_command (S P : string) (N : Z)
    (path category scenario_name scenario_parameters : string) : string :=
  Py.join " "
    [simulator_entry;
     "--strategy=" +:+ S;
     "--protocol=" +:+ P;
     "--seed=" +:+ Py.str_int N;
     "--csvFile=" +:+ path;
     "--scenario=" +:+ category +:+ "_" +:+ scenario_name;
     "--runNumber=" +:+ Py.str_int N;
     "--verbose=1";
     scenario_parameters].

(** What stands between the two quotes of the command: the single argument
    the shell hands to [./ns3 run], i.e. the simulator with its flags. *)
Definition simulator_arguments (S P : string) (N : Z)
    (path category scenario_name scenario_parameters : string) : string :=
  Py.join " "
    ["mlo_simulator";
     "--strategy=" +:+ S;
     "--protocol=" +:+ P;
     "--seed=" +:+ Py.str_int N;
     "--csvFile=" +:+ path;
     "--scenario=" +:+ category +:+ "_" +:+ scenario_name;
     "--runNumber=" +:+ Py.str_int N;
     "--verbose=1";
     scenario_parameters].

(** One cell of the test matrix. *)
Definition cell : Type := string * test_config * string * string.

Definition tests_of (r : runner) (category_name : string) : list test_config :=
  match dict_get (scenarios r) category_name with
  | Some c => tests c
  | None => []
  end.

(** The Cartesian product in nested order: category, scenario in catalog
    order, strategy, protocol. *)
Definition matrix (r : runner) (cats strats protos : list string) : list cell :=
  c ← cats; tc ← tests_of r c; s ← strats; p ← protos; [(c, tc, s, p)].

Definition build (r : runner) (x : cell) (seed : Z) : test_info :=
  let '(c, tc, s, p) := x in generate_test_command r c tc s p seed.

Definition expected_total (r : runner) (cats strats protos : list string) : nat :=
  sum_list ((fun c => length (tests_of r c) * length strats * length protos)%nat <$> cats).

Definition run_id (t : test_info) : string := snd (fst t).
Definition command_of (t : test_info) : string := fst (fst t).

(** The runner object was created at the instant [now]. *)
Definition started_at (r : runner) (now : datetime) : Prop :=
  timestamp r = strftime_Ymd_HMS now /\ valid_datetime now.

(** The time of day read as the decimal number [HHMMSS]. *)
Definition seed_base (now : datetime) : Z :=
  hour now * 10000 + minute now * 100 + second now.

(** What [future.result()] gives for the [i]-th submitted test, whatever
    the files hold at that moment. *)
Definition future_value (r : runner) (h : host) (q : list test_info) (i : nat)
    : option (Py.result bool) :=
  match q !! i with
  | Some t => Some (fst (future_result r h ∅ i t))
  | None => None
  end.

Definition counts_as_success (o : option (Py.result bool)) : bool :=
  match o with
  | Some (Py.Returned true) => true
  | _ => false
  end.

(** Number of submission indices below [n] whose future succeeded, and
    number of those whose future returned [False] or raised. *)
Definition successes (r : runner) (h : host) (q : list test_info) : Z :=
  Z.of_nat (length (filter (fun i => counts_as_success (future_value r h q i) = true)
                           (seq 0 (length q)))).
Definition failures (r : runner) (h : host) (q : list test_info) : Z :=
  Z.of_nat (length (filter (fun i => counts_as_success (future_value r h q i) = false)
                           (seq 0 (length q)))).

(** [as_completed] yields every submitted future exactly once. *)
Definition completes_all (h : host) (q : list test_info) : Prop :=
  completion_order h ≡ₚ seq 0 (length q).

(** Seeds handed out by a run started at [now], in submission order. *)
Definition assigned_seeds (r : runner) (now : datetime)
    (cats strats protos : list string) : list Z :=
  seqZ (seed_base now + 1) (Z.of_nat (length (matrix r cats strats protos))).

(** The queue a run started at [now] is expected to build. *)
Definition expected_queue (r : runner) (now : datetime)
    (cats strats protos : list string) : list test_info :=
  zip_with (build r) (matrix r cats strats protos)
    (assigned_seeds r now cats strats protos).

Definition workers (h : host) (max_workers : option Z) : Z :=
  default (cpu_count h) max_workers.

Definition skip_warning (category_name : string) : string :=
  "⚠️ Warning: Scenario category '" +:+ category_name +:+ "' not found. Skipping.".

(** The rendering of [(category, scenario.name, strategy, protocol, seed)]. *)
Definition rendered_id (x : cell) (seed : Z) : string :=
  let '(c, tc, s, p) := x in
  c +:+ "_" +:+ name tc +:+ "_" +:+ s +:+ "_" +:+ p +:+ "_" +:+ Py.str_int seed.

Definition log_name (r : runner) (t : test_info) : string :=
  Path.str (log_file_path r (run_id t)).

(** Log layout of the interface description, one list element per line. *)
Definition log_artifact (header run_id description iso_time seconds : string)
    (return_code : Z) (command out err : string) : string :=
  Py.join Py.LF
    [header;
     "Test Name: " +:+ run_id;
     "Description: " +:+ description;
     "Timestamp: " +:+ iso_time;
     "Execution Time: " +:+ seconds;
     "Return Code: " +:+ Py.str_int return_code;
     "";
     "--- COMMAND ---";
     command;
     "";
     "--- STDOUT ---";
     out;
     "--- STDERR ---";
     err].

(** ** Vocabulary of the proofs *)

Abbreviation chars := String.list_ascii_of_string.

(** The characters a rendered integer is made of. *)
Definition digit_or_dash (c : ascii) : Prop :=
  In c (chars "0123456789-").


(** The two halves of the start timestamp. *)
Definition date_text (d : datetime) : string :=
  pad 4 (year d) +:+ pad 2 (month d) +:+ pad 2 (day d).
Definition time_text (d : datetime) : string :=
  pad 2 (hour d) +:+ pad 2 (minute d) +:+ pad 2 (second d).

Definition cell_label (x : cell) : string :=
  let '(c, tc, s, p) := x in c +:+ "_" +:+ name tc +:+ "_" +:+ s +:+ "_" +:+ p.

(** [st'] is [st] after queuing [cells] with consecutive seeds. *)
Definition queued (r : runner) (st : expansion) (cells : list cell) (st' : expansion) : Prop :=
  test_id_counter st' = test_id_counter st + Z.of_nat (length cells) /\
  all_tests_to_run st' =
    all_tests_to_run st ++
    zip_with (build r) cells (seqZ (test_id_counter st + 1) (Z.of_nat (length cells))).

(** ** Sample surroundings used to run the model on concrete inputs *)

Definition noon : datetime := mk_datetime 2026 11 3 12 0 0 0.
Definition noon_and_a_second : datetime := mk_datetime 2026 11 3 12 0 1 0.
Definition noon_next_day : datetime := mk_datetime 2026 11 4 12 0 0 0.

(** A row of the results file, ending with the exit code of the run. *)
Definition sample_row (code : Z) : string :=
  "Greedy,UDP," +:+ Py.str_int code +:+ Py.LF.

(** A worker whose simulator appends a row and terminates with the given
    exit code. *)
Definition exits_with (code : Z) : process_env :=
  mk_env (fun _ _ => terminated code (Py.Returned "simulation output") (Py.Returned "")
                       (Some (sample_row code)))
         (99 # 8) noon (fun _ => None).

(** A worker whose process cannot be created. *)
Definition cannot_launch (e : string) : process_env :=
  mk_env (fun _ _ => not_started e) 0 noon (fun _ => None).

(** A worker whose simulator appends a row and terminates with the given
    exit code after printing bytes that are no text. *)
Definition prints_no_text (code : Z) : process_env :=
  mk_env (fun _ _ =>
            terminated code
              (Py.Raised "'utf-8' codec can't decode byte 0xff in position 0: invalid start byte")
              (Py.Returned "") (Some (sample_row code)))
         (99 # 8) noon (fun _ => None).

(** Four cores, no pool fault, futures completing in the given order. *)
Definition plain_host (env : nat -> process_env) (order : list nat) : host :=
  mk_host 4 env (fun _ => None) (fun _ => (None, None)) order (3 # 2).

Definition baseline_selection : option (list string) := Some ["baseline"].
Definition two_strategies : option (list string) := Some ["RoundRobin"; "Greedy"].
Definition two_protocols : option (list string) := Some ["UDP"; "TCP"].

(** Four queued runs that end differently: a clean exit, exit code 137, a
    command that cannot be launched, and a worker lost by the pool after
    its simulator had appended a row and its log had been opened;
    completion order differs from submission order. *)
Definition mixed_env (i : nat) : process_env :=
  match i with
  | 1%nat => exits_with 137
  | 2%nat => cannot_launch "[Errno 2] No such file or directory: 'missing'"
  | _ => exits_with 0
  end.

Definition mixed_host : host :=
  mk_host 4 mixed_env
    (fun i => if decide (i = 3%nat)
              then Some "A process in the process pool was terminated abruptly"
              else None)
    (fun i => if decide (i = 3%nat) then (Some (sample_row 0), Some "") else (None, None))
    [2; 0; 3; 1]%nat (3 # 2).

Definition one_scenario : option (list string) := Some ["failure_recovery"].

Definition sample_test : test_info :=
  generate_test_command (init MLOSimulationRunner "." noon) "failure_recovery"
    (mk_test "random_failures_mixed_tid"
       "--nWifi=20 --tidCount=24 --criticalTids=8 --emergencyTids=8 --simtime=40 --linkFailureRate=0.1 --enableFailureRecovery=true"
       "Random failures (10% chance per second) - Mixed TID")
    "Greedy" "UDP" 120003.



(** ** The command line of the two scripts *)

(** [s.upper()] on text made of ASCII characters (as the category names
    are): the letters [a] to [z] move to [A] to [Z]. *)
Definition upper_char (c : ascii) : ascii :=
  let code := N_of_ascii c in
  if decide (97 <= code <= 122)%N then ascii_of_N (code - 32) else c.

Fixpoint upper (s : string) : string :=
  match s with
  | "" => ""
  | String c s' => String (upper_char c) (upper s')
  end.

(** The [choices] lists given to [add_argument]. *)
Definition category_choices (c : runner_class) : list string :=
  match c with
  | MLOSimulationRunner =>
      ["baseline"; "interference"; "failure_recovery";
       "mobility"; "scalability"; "critical_performance";
       "network_configuration"; "protocol_variations"]
  | MLOExtremeSimulationRunner =>
      ["baseline"; "interference"; "failure_recovery";
       "mobility"; "scalability"; "critical_performance";
       "network_configuration"; "protocol_variations";
       "mobility_interference_extreme"]
  end.

Definition strategy_choices : list string :=
  ["RoundRobin"; "Greedy"; "Reliability"; "SLA-MLO"].

Definition protocol_choices : list string := ["UDP"; "TCP"; "Mixed"].

(** The [Namespace] returned by [parser.parse_args()]. *)
Record namespace := mk_namespace {
  ns_categories : option (list string);
  ns_strategies : option (list string);
  ns_protocols : option (list string);
  ns_workers : option Z;
  ns_list_scenarios : bool }.

(** What [parse_args] guarantees of an option declared with [nargs='+']
    and [choices]: when given, it holds at least one value and every value
    is one of the choices (otherwise the parser exits before [main] goes
    on). *)
Definition chosen_from (choices : list string) (arg : option (list string)) : Prop :=
  match arg with
  | None => True
  | Some l => l <> [] /\ Forall (fun x => x ∈ choices) l
  end.

Definition parser_accepts (c : runner_class) (a : namespace) : Prop :=
  chosen_from (category_choices c) (ns_categories a) /\
  chosen_from strategy_choices (ns_strategies a) /\
  chosen_from protocol_choices (ns_protocols a).

(** The two lines printed by [setup_directory_structure]. *)
Definition setup_directory_structure_lines (r : runner) : list string :=
  [match cls r with
   | MLOSimulationRunner => "📁 Basic Test Output CSV will be saved to: "
   | MLOExtremeSimulationRunner => "📁 Extreme Test Output CSV will be saved to: "
   end +:+ Path.str (output_csv_path r);
   "📁 Log files will be saved in: " +:+ Path.str (log_dir r)].

(** The listing printed under [--list-scenarios]. *)
Definition list_category_lines (entry : string * category) : list string :=
  [Py.LF +:+ "🎯 CATEGORY: " +:+ upper (fst entry);
   "   Description: " +:+ cat_description (snd entry);
   "   Tests (" +:+ Py.str_int (Z.of_nat (length (tests (snd entry)))) +:+ "):" +:+ Py.LF] ++
  ((fun t => "     • " +:+ name t +:+ ": " +:+ description t) <$> tests (snd entry)).

Definition list_scenarios_lines (r : runner) : list string :=
  match cls r with
  | MLOSimulationRunner =>
      ["📋 Available Basic Test Scenarios:";
       String.string_of_list_ascii (replicate 50 "="%char)]
  | MLOExtremeSimulationRunner =>
      ["📋 Available Extreme Test Scenarios:";
       String.string_of_list_ascii (replicate 60 "="%char)]
  end ++ (scenarios r ≫= list_category_lines).

(** What the script leaves behind: the lines printed before
    [run_all_tests] takes over, and its report when it was called. *)
Record script_run := mk_script_run {
  script_console : list string;
  script_report : option report }.

(** The [if __name__ == "__main__"] block after a successful
    [parse_args], started at the instant [now] in the working directory. *)
Definition main (c : runner_class) (now : datetime) (h : host) (fs : file_store)
    (args : namespace) : script_run :=
  let runner := init c "." now in
  let out := setup_directory_structure_lines runner in
  if ns_list_scenarios args then
    mk_script_run (out ++ list_scenarios_lines runner) None
  else
    mk_script_run out
      (Some (run_all_tests runner h fs (ns_workers args) (ns_categories args)
               (ns_strategies args) (ns_protocols args))).

(** ** Further vocabulary *)

Definition known (r : runner) (category_name : string) : bool :=
  match dict_get (scenarios r) category_name with
  | Some _ => true
  | None => false
  end.

Definition no_slash (s : string) : bool :=
  bool_decide ("/"%char ∉ chars s).

Definition single_line (s : string) : bool :=
  bool_decide ("010"%char ∉ chars s).

(** All scenario definitions of a catalog, category after category. *)
Definition all_tests (d : scenarios_dict) : list test_config :=
  d ≫= fun entry => tests (snd entry).

(** Two hosts whose workers and pool behave alike; only the completion
    order, the core count and the measured total time may differ. *)
Definition same_workers (h1 h2 : host) : Prop :=
  (forall i, worker_env h1 i = worker_env h2 i) /\
  (forall i, pool_fault h1 i = pool_fault h2 i) /\
  (forall i, lost_worker h1 i = lost_worker h2 i).

Definition sample_args : namespace :=
  mk_namespace (Some ["failure_recovery"]) (Some ["RoundRobin"; "Greedy"])
    (Some ["UDP"; "TCP"]) None false.

(** A runner whose [timestamp] attribute was replaced after creation. *)
Definition renamed_runner (stamp : string) : runner :=
  let r := init MLOSimulationRunner "." noon in
  mk_runner (cls r) (ns3_dir r) (output_dir r) (log_dir r) (output_csv_path r)
    stamp (scenarios r) (strategies r) (protocols r).


(** ** The analyser's two pure helpers ([mlo_analyser_script.py]) *)

Definition STRATEGY_ORDER : list string :=
  ["RoundRobin"; "Greedy"; "SLA-MLO"; "Reliability"].

Definition NODE_CATEGORIES : list (string * (Z * Z)) :=
  [("Small", (1, 20)); ("Medium", (21, 40)); ("Large", (41, 60))].

(** [get_ordered_strategies], on the distinct values of the [Strategy]
    column in their order of appearance. *)
Definition get_ordered_strategies (available_strategies : list string) : list string :=
  filter (fun strategy => strategy ∈ available_strategies) STRATEGY_ORDER.

(** [categorize_nodes] on an integer node count. *)
Definition categorize_nodes (node_count : Z) : string :=
  if decide (1 <= node_count <= 20) then "Small"
  else if decide (21 <= node_count <= 40) then "Medium"
  else if decide (41 <= node_count <= 60) then "Large"
  else "Other".

(** ** The model on small inputs *)

Example format_f_ex1 :
  Py.format_f 2 (99 # 8) = "12.38".
Proof. vm_compute. reflexivity. Qed.
Example format_f_ex2 :
  Py.format_f 2 (-(1 # 1024)) = "-0.00".
Proof. vm_compute. reflexivity. Qed.
Example format_f_ex3 :
  Py.format_f 1 (25 # 100) = "0.2".
Proof. vm_compute. reflexivity. Qed.
Example format_f_ex4 :
  Py.format_f 2 (3 # 1) = "3.00".
Proof. vm_compute. reflexivity. Qed.
Example format_f_ex5 :
  Py.format_f 2 (1 # 8) = "0.12".
Proof. vm_compute. reflexivity. Qed.
Example format_f_ex6 :
  Py.format_f 2 (3 # 8) = "0.38".
Proof. vm_compute. reflexivity. Qed.
Example split_ex :
  Py.split "_" "20261103_195700" = ["20261103"; "195700"].
Proof. reflexivity. Qed.
Example split_ex2 :
  Py.split "_" "a__b_" = ["a"; ""; "b"; ""].
Proof. reflexivity. Qed.
Example path_ex :
  Path.str (Path.of_str "." </> "scratch" </> "logs" </> "x.log") = "scratch/logs/x.log".
Proof. reflexivity. Qed.
Example path_ex2 :
  Path.str (Path.of_str "/opt//ns3/." </> "scratch") = "/opt/ns3/scratch".
Proof. reflexivity. Qed.
Example path_ex3 :
  Path.str (Path.of_str "a" </> "/b") = "/b".
Proof. reflexivity. Qed.
Example path_ex4 :
  Path.str (Path.of_str "") = ".".
Proof. reflexivity. Qed.
Example strf :
  strftime_Ymd_HMS (mk_datetime 2026 11 3 9 5 7 0) = "20261103_090507".
Proof. vm_compute. reflexivity. Qed.
Example iso :
  isoformat (mk_datetime 2026 11 3 9 5 7 1234) = "2026-11-03T09:05:07.001234".
Proof. vm_compute. reflexivity. Qed.
Example int_ex :
  Py.int "090507" = Py.Returned 90507.
Proof. vm_compute. reflexivity. Qed.
Example int_ex2 :
  Py.int " 12 " = Py.Returned 12 /\ Py.int "-1_000" = Py.Returned (-1000) /\
  Py.int "+٣٤" = Py.Returned 34.
Proof. vm_compute. done. Qed.
Example int_ex3 :
  Py.int "12_" = Py.Raised "invalid literal for int() with base 10: '12_'" /\
  Py.int "" = Py.Raised "invalid literal for int() with base 10: ''" /\
  Py.int "it's" = Py.Raised ("invalid literal for int() with base 10: " +:+
                             String "034" "it's" +:+ String "034" "").
Proof. vm_compute. done. Qed.
Example results_file_ex :
  results_file (init MLOSimulationRunner "." noon) =
    "scratch/output_files_csv/mlo_unified_results.csv" /\
  results_file (init MLOSimulationRunner "/opt/ns3" noon) =
    "/opt/ns3/scratch/output_files_csv/mlo_unified_results.csv".
Proof. vm_compute. done. Qed.
Example subprocess_run_ex :
  subprocess_run (exits_with 137) "true" "." =
    Py.Returned (mk_completed 137 "simulation output" "") /\
  subprocess_run (prints_no_text 0) "true" "." =
    Py.Raised "'utf-8' codec can't decode byte 0xff in position 0: invalid start byte".
Proof. done. Qed.
Example counter_ex :
  test_id_counter_init (init MLOSimulationRunner "." noon) = Py.Returned 120000.
Proof. vm_compute. reflexivity. Qed.
Example command_ex :
  sample_test =
  ("./ns3 run 'mlo_simulator --strategy=Greedy --protocol=UDP --seed=120003 --csvFile=scratch/output_files_csv/mlo_unified_results.csv --scenario=failure_recovery_random_failures_mixed_tid --runNumber=120003 --verbose=1 --nWifi=20 --tidCount=24 --criticalTids=8 --emergencyTids=8 --simtime=40 --linkFailureRate=0.1 --enableFailureRecovery=true'",
   "failure_recovery_random_failures_mixed_tid_Greedy_UDP_120003",
   "Random failures (10% chance per second) - Mixed TID").
Proof. vm_compute. reflexivity. Qed.
Example success_ex :
  returned (run_single_test (init MLOSimulationRunner "." noon) (exits_with 0) ∅ sample_test) =
  Py.Returned true.
Proof. reflexivity. Qed.
Example counter_ex2 :
  test_id_counter_init (renamed_runner "x_ 12 ") = Py.Returned 12 /\
  test_id_counter_init (renamed_runner "nightly_build") =
    Py.Raised "invalid literal for int() with base 10: 'build'".
Proof. vm_compute. done. Qed.
Example mixed_run_ex :
  outcome (run_all_tests (init MLOSimulationRunner "." noon) mixed_host ∅ None
             one_scenario two_strategies two_protocols) = Py.Returned (1, 3).
Proof. vm_compute. reflexivity. Qed.
Example rejected_ex :
  outcome (run_all_tests (init MLOSimulationRunner "." noon) mixed_host ∅ (Some 0)
             one_scenario two_strategies two_protocols) =
  Py.Raised "max_workers must be greater than 0".
Proof. vm_compute. reflexivity. Qed.
Example catalog_keys_unique :
  NoDup (keys basic_scenarios) /\ NoDup (keys extreme_scenarios).
Proof. split; apply (bool_decide_eq_true_1 _); vm_compute; reflexivity. Qed.

(** ** Strings as character lists *)

Lemma chars_app (a b : string) : chars (a +:+ b) = chars a ++ chars b.
Proof. induction a as [|c a IH]; simpl; [done|]. by rewrite IH. Qed.

Lemma chars_inj (a b : string) : chars a = chars b -> a = b.
Proof.
  intros H. rewrite <- (String.string_of_list_ascii_of_string a),
    <- (String.string_of_list_ascii_of_string b). by rewrite H.
Qed.

Lemma chars_of_list (l : list ascii) : chars (String.string_of_list_ascii l) = l.
Proof. apply String.list_ascii_of_string_of_list_ascii. Qed.

Lemma app_assoc_s (a b c : string) : (a +:+ b) +:+ c = a +:+ (b +:+ c).
Proof. apply chars_inj. rewrite !chars_app. by rewrite app_assoc. Qed.

Lemma app_nil_r_s (a : string) : a +:+ "" = a.
Proof. apply chars_inj. rewrite chars_app. simpl. by rewrite app_nil_r. Qed.

Lemma length_chars (s : string) : length (chars s) = String.length s.
Proof. induction s; simpl; congruence. Qed.

(** A string that ends with a separator followed by a separator-free tail
    determines both pieces. *)
Lemma split_at_last (x : ascii) (l1 l2 r1 r2 : list ascii) :
  x ∉ r1 -> x ∉ r2 -> l1 ++ x :: r1 = l2 ++ x :: r2 -> l1 = l2 /\ r1 = r2.
Proof.
  revert l2. induction l1 as [|a l1 IHl]; intros l2 H1 H2 E; destruct l2 as [|b l2];
    simpl in *.
  - by inversion E.
  - inversion E; subst. exfalso. apply H1, elem_of_app. right. left.
  - inversion E; subst. exfalso. apply H2, elem_of_app. right. left.
  - inversion E; subst. destruct (IHl l2 H1 H2) as [-> ->]; done.
Qed.

(** ** Decimal rendering of integers *)

Lemma pretty_N_char_digit (x : N) : digit_or_dash (pretty_N_char x).
Proof. unfold pretty_N_char, digit_or_dash. repeat case_match; simpl; tauto. Qed.

Lemma pretty_N_go_digits (x : N) (s : string) :
  Forall digit_or_dash (chars s) -> Forall digit_or_dash (chars (pretty_N_go x s)).
Proof.
  revert s. induction (N.lt_wf_0 x) as [x _ IH]; intros s Hs.
  destruct (decide (x = 0%N)) as [->|Hx].
  - by rewrite pretty_N_go_0.
  - rewrite pretty_N_go_step by lia. apply IH.
    + apply N.div_lt; lia.
    + simpl. apply Forall_cons. split; [apply pretty_N_char_digit|done].
Qed.

Lemma pretty_N_digits (x : N) : Forall digit_or_dash (chars (pretty x)).
Proof.
  unfold pretty, pretty_N. case_decide.
  - simpl. apply Forall_cons. split; [|constructor]. unfold digit_or_dash; simpl; tauto.
  - by apply pretty_N_go_digits.
Qed.

Lemma str_int_digits (z : Z) : Forall digit_or_dash (chars (Py.str_int z)).
Proof.
  unfold Py.str_int, pretty, pretty_Z. destruct z as [|p|p].
  - simpl. apply Forall_cons. split; [|constructor]. unfold digit_or_dash; simpl; tauto.
  - apply pretty_N_digits.
  - rewrite chars_app. apply Forall_app. split.
    + simpl. apply Forall_cons. split; [|constructor]. unfold digit_or_dash; simpl; tauto.
    + apply pretty_N_digits.
Qed.

Lemma digit_or_dash_not (c : ascii) (l : list ascii) :
  ~ digit_or_dash c -> Forall digit_or_dash l -> c ∉ l.
Proof.
  intros Hc Hl Hin. rewrite Forall_forall in Hl. apply Hc. by apply Hl.
Qed.

Lemma str_int_no_underscore (z : Z) : "_"%char ∉ chars (Py.str_int z).
Proof.
  apply digit_or_dash_not; [|apply str_int_digits].
  unfold digit_or_dash. simpl. intros H. repeat destruct H as [H|H]; try discriminate H; done.
Qed.

Lemma str_int_no_slash (z : Z) : "/"%char ∉ chars (Py.str_int z).
Proof.
  apply digit_or_dash_not; [|apply str_int_digits].
  unfold digit_or_dash. simpl. intros H. repeat destruct H as [H|H]; try discriminate H; done.
Qed.

Lemma str_int_inj (a b : Z) : Py.str_int a = Py.str_int b -> a = b.
Proof. apply pretty_Z_inj. Qed.

(** ** Matrix expansion *)

Lemma sum_list_fmap_all {A} (f : A -> nat) (k : nat) (l : list A) :
  (forall x, f x = k) -> sum_list (f <$> l) = (length l * k)%nat.
Proof.
  intros H. induction l as [|x l IH]; [done|].
  rewrite fmap_cons. cbn [sum_list sum_list_with length]. rewrite H.
  change (sum_list_with id (f <$> l)) with (sum_list (f <$> l)). rewrite IH.
  unfold id. lia.
Qed.

Lemma length_bind_sum {A B} (f : A -> list B) (l : list A) :
  length (l ≫= f) = sum_list ((fun x => length (f x)) <$> l).
Proof.
  induction l as [|x l IH]; [done|].
  rewrite bind_cons, length_app, IH. done.
Qed.

Section expansion.
Context (r : runner) (strats protos : list string).

Lemma queued_nil st : queued r st [] st.
Proof. split; simpl; [lia|by rewrite app_nil_r]. Qed.

Lemma queued_app st1 st2 st3 c1 c2 :
  queued r st1 c1 st2 -> queued r st2 c2 st3 -> queued r st1 (c1 ++ c2) st3.
Proof.
  intros [Hc1 Hq1] [Hc2 Hq2]. split.
  - rewrite length_app. lia.
  - rewrite Hq2, Hq1, Hc1, <- app_assoc. f_equal.
    rewrite length_app, Nat2Z.inj_add, seqZ_app by lia.
    rewrite zip_with_app by (rewrite length_seqZ; lia).
    do 3 f_equal. lia.
Qed.

Lemma for_protocol_queued c tc s st p :
  queued r st [(c, tc, s, p)] (for_protocol r c tc s st p).
Proof. split; simpl; [lia|]. reflexivity. Qed.

Lemma for_strategy_queued c tc st s :
  queued r st ((fun p => (c, tc, s, p)) <$> protos) (for_strategy r protos c tc st s).
Proof.
  unfold for_strategy. revert st.
  induction protos as [|p ps IH]; intros st; simpl.
  - apply queued_nil.
  - apply (queued_app _ _ _ [_] _ (for_protocol_queued c tc s st p)), IH.
Qed.

Lemma for_test_config_queued c st tc :
  queued r st (s ← strats; p ← protos; [(c, tc, s, p)])
    (for_test_config r strats protos c st tc).
Proof.
  unfold for_test_config. revert st.
  induction strats as [|s ss IH]; intros st.
  - apply queued_nil.
  - rewrite bind_cons. cbn [foldl]. eapply queued_app; [|apply IH].
    replace (p ← protos; [(c, tc, s, p)]) with ((fun p => (c, tc, s, p)) <$> protos).
    + apply for_strategy_queued.
    + clear. induction protos as [|p ps IH]; [done|].
      rewrite bind_cons, fmap_cons, IH. done.
Qed.

Lemma for_tests_queued c (l : list test_config) st :
  queued r st (tc ← l; s ← strats; p ← protos; [(c, tc, s, p)])
    (foldl (for_test_config r strats protos c) st l).
Proof.
  revert st. induction l as [|tc l IH]; intros st.
  - apply queued_nil.
  - rewrite bind_cons. cbn [foldl]. eapply queued_app; [apply for_test_config_queued|apply IH].
Qed.

Lemma for_category_queued st c :
  queued r st (tc ← tests_of r c; s ← strats; p ← protos; [(c, tc, s, p)])
    (for_category r strats protos st c).
Proof.
  unfold for_category, tests_of. destruct (dict_get (scenarios r) c) as [cat|].
  - apply for_tests_queued.
  - split; simpl; [lia|by rewrite app_nil_r].
Qed.

Lemma for_categories_queued cats st :
  queued r st (matrix r cats strats protos)
    (foldl (for_category r strats protos) st cats).
Proof.
  unfold matrix. revert st. induction cats as [|c cs IH]; intros st.
  - apply queued_nil.
  - rewrite bind_cons. cbn [foldl]. eapply queued_app; [apply for_category_queued|apply IH].
Qed.

Lemma expand_matrix_queue cats start :
  all_tests_to_run (expand_matrix r cats strats protos start) =
  zip_with (build r) (matrix r cats strats protos)
    (seqZ (start + 1) (Z.of_nat (length (matrix r cats strats protos)))).
Proof.
  destruct (for_categories_queued cats (mk_expansion start [] [])) as [_ H].
  exact H.
Qed.

Lemma length_matrix cats :
  length (matrix r cats strats protos) = expected_total r cats strats protos.
Proof.
  unfold matrix, expected_total. rewrite length_bind_sum. f_equal.
  apply list_fmap_ext. intros _ c _.
  rewrite length_bind_sum, (sum_list_fmap_all _ (length strats * length protos)%nat); [lia|].
  intros tc.
  rewrite length_bind_sum, (sum_list_fmap_all _ (length protos)); [done|].
  intros s.
  rewrite length_bind_sum, (sum_list_fmap_all _ 1%nat); [lia|done].
Qed.

Lemma length_expand_matrix cats start :
  length (all_tests_to_run (expand_matrix r cats strats protos start)) =
  expected_total r cats strats protos.
Proof.
  rewrite expand_matrix_queue, length_zip_with, length_seqZ, length_matrix. lia.
Qed.
End expansion.

(** ** The start timestamp and the seed counter *)

Lemma split_no_sep (sep : ascii) (s : string) :
  sep ∉ chars s -> Py.split sep s = [s].
Proof.
  induction s as [|c s IH]; simpl; intros H; [done|].
  case_decide as Hc.
  - subst. exfalso. apply H. left.
  - rewrite IH; [done|]. intros Hin. apply H. by right.
Qed.

Lemma split_at_sep (sep : ascii) (a b : string) :
  sep ∉ chars a -> Py.split sep (a +:+ String sep b) = a :: Py.split sep b.
Proof.
  induction a as [|c a IH]; intros H.
  - change ("" +:+ String sep b) with (String sep b). cbn [Py.split].
    case_decide; [done|congruence].
  - change (String c a +:+ String sep b) with (String c (a +:+ String sep b)).
    cbn [Py.split]. case_decide as Hc.
    + subst. exfalso. apply H. left.
    + rewrite IH; [done|]. intros Hin. apply H. by right.
Qed.

Lemma int_digits_shift (acc : Z) (s : string) :
  Py.int_digits acc s =
  (fun v => acc * 10 ^ Z.of_nat (String.length s) + v) <$> Py.int_digits 0 s.
Proof.
  revert acc. induction s as [|c s IH]; intros acc.
  - simpl. f_equal. lia.
  - cbn [Py.int_digits String.length]. destruct (Py.digit_value c) as [d|]; [|done].
    rewrite (IH (10 * acc + d)), (IH (10 * 0 + d)).
    destruct (Py.int_digits 0 s) as [v|]; [|done]. simpl. f_equal.
    rewrite Nat2Z.inj_succ, Z.pow_succ_r by lia. lia.
Qed.

Lemma int_digits_app (acc : Z) (a b : string) :
  Py.int_digits acc (a +:+ b) =
  Py.int_digits acc a ≫= fun v => Py.int_digits v b.
Proof.
  revert acc. induction a as [|c a IH]; intros acc; [done|].
  change (String c a +:+ b) with (String c (a +:+ b)). cbn [Py.int_digits].
  destruct (Py.digit_value c); [apply IH|done].
Qed.

Lemma pad2_table :
  forallb (fun k => bool_decide (Py.int_digits 0 (pad 2 k) = Some k /\
                                 String.length (pad 2 k) = 2%nat))
          (seqZ 0 100) = true.
Proof. vm_compute. reflexivity. Qed.

Lemma pad2_value (n : Z) :
  0 <= n < 100 ->
  Py.int_digits 0 (pad 2 n) = Some n /\ String.length (pad 2 n) = 2%nat.
Proof.
  intros Hn. pose proof pad2_table as H.
  rewrite forallb_forall in H. specialize (H n).
  eapply bool_decide_eq_true_1. apply H.
  apply list_elem_of_In, elem_of_seqZ. lia.
Qed.

Lemma int_digits_pad2 (acc n : Z) :
  0 <= n < 100 -> Py.int_digits acc (pad 2 n) = Some (100 * acc + n).
Proof.
  intros Hn. destruct (pad2_value n Hn) as [Hv Hl].
  rewrite int_digits_shift, Hv, Hl. simpl. f_equal. lia.
Qed.

Lemma zfill_digits (w : nat) (s : string) :
  Forall digit_or_dash (chars s) -> Forall digit_or_dash (chars (Py.zfill w s)).
Proof.
  intros H. unfold Py.zfill. rewrite chars_app, chars_of_list.
  apply Forall_app. split; [|done].
  apply Forall_replicate. unfold digit_or_dash; simpl; tauto.
Qed.

Lemma pad_digits (w : nat) (n : Z) : Forall digit_or_dash (chars (pad w n)).
Proof. apply zfill_digits, str_int_digits. Qed.

Lemma strftime_parts (d : datetime) :
  strftime_Ymd_HMS d = date_text d +:+ String "_" (time_text d).
Proof.
  unfold strftime_Ymd_HMS, date_text, time_text.
  rewrite !app_assoc_s. reflexivity.
Qed.

Lemma date_text_digits d : Forall digit_or_dash (chars (date_text d)).
Proof.
  unfold date_text. rewrite !chars_app, !Forall_app. auto using pad_digits.
Qed.

Lemma time_text_digits d : Forall digit_or_dash (chars (time_text d)).
Proof.
  unfold time_text. rewrite !chars_app, !Forall_app. auto using pad_digits.
Qed.

Lemma underscore_not_digit : ~ digit_or_dash "_"%char.
Proof.
  unfold digit_or_dash. simpl. intros H.
  repeat (destruct H as [H|H]; [discriminate H|]). done.
Qed.

Lemma slash_not_digit : ~ digit_or_dash "/"%char.
Proof.
  unfold digit_or_dash. simpl. intros H.
  repeat (destruct H as [H|H]; [discriminate H|]). done.
Qed.

Lemma split_strftime (d : datetime) :
  Py.split "_" (strftime_Ymd_HMS d) = [date_text d; time_text d].
Proof.
  rewrite strftime_parts, split_at_sep.
  - rewrite split_no_sep; [done|].
    apply digit_or_dash_not; [apply underscore_not_digit|apply time_text_digits].
  - apply digit_or_dash_not; [apply underscore_not_digit|apply date_text_digits].
Qed.

Lemma int_digits_all_digits (s : string) (acc v : Z) :
  Py.int_digits acc s = Some v -> Forall (fun c => is_Some (Py.digit_value c)) (chars s).
Proof.
  revert acc. induction s as [|c s IH]; intros acc H; simpl in *; [constructor|].
  destruct (Py.digit_value c) as [d|] eqn:Hc; [|discriminate H].
  constructor; [by eexists|]. by apply (IH _ H).
Qed.

Lemma digit_byte (c : ascii) :
  is_Some (Py.digit_value c) -> (48 <= Py.byte c <= 57)%N.
Proof.
  intros [d Hd]. unfold Py.digit_value in Hd. unfold Py.byte.
  case_decide; [lia|discriminate Hd].
Qed.

Lemma code_points_of_digits (l : list ascii) :
  Forall (fun c => is_Some (Py.digit_value c)) l ->
  (fun c => Py.to_ascii (fst c)) <$> Py.code_points_from 0 l = l.
Proof.
  induction 1 as [|c l Hc Hl IH]; [done|].
  apply digit_byte in Hc. cbn [Py.code_points_from].
  assert (Py.first_code_point (c :: l) = (Py.byte c, 1%nat)) as ->.
  { unfold Py.first_code_point. cbn [head default]. unfold id.
    destruct (Py.byte c <? 128)%N eqn:E; [done|]. apply N.ltb_ge in E. lia. }
  cbn [take String.string_of_list_ascii Nat.sub]. rewrite fmap_cons. cbn [fst]. f_equal; [|exact IH].
  unfold Py.to_ascii. destruct (Py.byte c <? 127)%N eqn:E.
  - unfold Py.byte. apply ascii_N_embedding.
  - apply N.ltb_ge in E. lia.
Qed.

Lemma scan_all_digits (l : list ascii) (b : bool) :
  Forall (fun c => is_Some (Py.digit_value c)) l ->
  l <> [] \/ b = false ->
  Py.scan_digits b l = Some (String.string_of_list_ascii l, []).
Proof.
  intros Hl. revert b. induction Hl as [|c l [d Hc] Hl IH]; intros b Hb.
  - destruct Hb as [Hb| ->]; [done|reflexivity].
  - cbn [Py.scan_digits]. rewrite Hc. rewrite (IH false) by (by right). reflexivity.
Qed.

(** [int] on a plain string of digits. *)
Lemma int_of_digits (s : string) (v : Z) :
  s <> "" -> (String.length s <= 4300)%nat ->
  Py.int_digits 0 s = Some v -> Py.int s = Py.Returned v.
Proof.
  intros Hne Hlen Hv.
  pose proof (int_digits_all_digits s 0 v Hv) as Hall.
  unfold Py.int, Py.code_points. fold (chars s). rewrite (code_points_of_digits _ Hall).
  destruct (chars s) as [|c l] eqn:Hs.
  { destruct s; [done|discriminate Hs]. }
  assert (is_Some (Py.digit_value c)) as Hc by (by inversion Hall).
  pose proof (digit_byte c Hc) as Hb.
  assert (Py.skip_spaces (c :: l) = c :: l) as ->.
  { cbn [Py.skip_spaces]. unfold Py.c_space.
    destruct (9 <=? Py.byte c)%N eqn:E1; destruct (Py.byte c <=? 13)%N eqn:E2;
      cbn [andb orb]; try (rewrite bool_decide_eq_false_2 by lia; reflexivity).
    apply N.leb_le in E2. lia. }
  rewrite (bool_decide_eq_false_2 (c = "+"%char))
    by (intros ->; vm_compute in Hb; destruct Hb as [Hb _]; by apply Hb).
  rewrite (bool_decide_eq_false_2 (c = "-"%char))
    by (intros ->; vm_compute in Hb; destruct Hb as [Hb _]; by apply Hb).
  rewrite (scan_all_digits (c :: l) true Hall) by (by left).
  rewrite <- Hs. rewrite String.string_of_list_ascii_of_string.
  destruct (4300 <? String.length s)%nat eqn:E; [apply Nat.ltb_lt in E; lia|].
  cbn [Py.skip_spaces]. rewrite Hv. f_equal. lia.
Qed.

Lemma int_time_text (d : datetime) :
  valid_datetime d -> Py.int (time_text d) = Py.Returned (seed_base d).
Proof.
  intros (_ & _ & _ & HH & HM & HS & _).
  assert (Py.int_digits 0 (time_text d) = Some (seed_base d)) as Hd.
  { unfold time_text. rewrite int_digits_app.
    rewrite (int_digits_pad2 0 (hour d)) by lia. simpl.
    rewrite int_digits_app.
    rewrite (int_digits_pad2 _ (minute d)) by lia. simpl.
    rewrite (int_digits_pad2 _ (second d)) by lia.
    f_equal. unfold seed_base. lia. }
  assert (String.length (time_text d) = 6%nat) as Hlen.
  { unfold time_text. rewrite <- length_chars, !chars_app, !length_app, !length_chars.
    destruct (pad2_value (hour d)) as [_ ->]; [lia|].
    destruct (pad2_value (minute d)) as [_ ->]; [lia|].
    destruct (pad2_value (second d)) as [_ ->]; [lia|]. reflexivity. }
  apply int_of_digits; [|lia|exact Hd].
  intros E. rewrite E in Hlen. discriminate Hlen.
Qed.

Lemma counter_of_start (r : runner) (now : datetime) :
  started_at r now -> test_id_counter_init r = Py.Returned (seed_base now).
Proof.
  intros [Hts Hv]. unfold test_id_counter_init.
  rewrite Hts, split_strftime. simpl. by rewrite int_time_text.
Qed.

Lemma init_started_at (c : runner_class) (dir : string) (now : datetime) :
  valid_datetime now -> started_at (init c dir now) now.
Proof. by split. Qed.

Lemma seed_base_range (now : datetime) :
  valid_datetime now -> 0 <= seed_base now <= 235959.
Proof. intros (_ & _ & _ & HH & HM & HS & _). unfold seed_base. lia. Qed.

(** ** Run identifiers and log paths are unique within a run *)

Lemma run_id_build (r : runner) (x : cell) (seed : Z) :
  run_id (build r x seed) = cell_label x +:+ "_" +:+ Py.str_int seed.
Proof.
  destruct x as [[[c tc] s] p]. unfold run_id, build, generate_test_command, cell_label.
  cbn [fst snd]. rewrite !app_assoc_s. reflexivity.
Qed.

Lemma run_id_seed_inj (r : runner) (x1 x2 : cell) (s1 s2 : Z) :
  run_id (build r x1 s1) = run_id (build r x2 s2) -> s1 = s2.
Proof.
  rewrite !run_id_build. intros E. apply (f_equal chars) in E.
  rewrite !chars_app in E. simpl in E.
  apply split_at_last in E; try apply str_int_no_underscore.
  destruct E as [_ E]. by apply str_int_inj, chars_inj.
Qed.

Lemma NoDup_zip_with_seeds {A B} (f : A -> Z -> B) (cells : list A) (seeds : list Z) :
  (forall x1 x2 s1 s2, f x1 s1 = f x2 s2 -> s1 = s2) ->
  NoDup seeds -> NoDup (zip_with f cells seeds).
Proof.
  intros Hf. revert seeds. induction cells as [|x cells IH]; intros [|s seeds] Hnd;
    simpl; try constructor.
  - apply NoDup_cons in Hnd as [Hs _]. intros Hin.
    apply elem_of_zip_with in Hin as (x' & s' & E & _ & Hs').
    apply Hf in E. by subst.
  - apply NoDup_cons in Hnd as [_ Hnd]. by apply IH.
Qed.

Lemma NoDup_run_ids (r : runner) (cells : list cell) (a n : Z) :
  NoDup (run_id <$> zip_with (build r) cells (seqZ a n)).
Proof.
  assert (run_id <$> zip_with (build r) cells (seqZ a n) =
          zip_with (fun x s => run_id (build r x s)) cells (seqZ a n)) as ->.
  { generalize (seqZ a n). induction cells as [|x cells IH]; intros [|s l]; simpl; try done.
    by rewrite IH. }
  apply NoDup_zip_with_seeds; [|apply NoDup_seqZ].
  intros x1 x2 s1 s2. apply run_id_seed_inj.
Qed.

Lemma NoDup_queue (r : runner) (cells : list cell) (a n : Z) :
  NoDup (zip_with (build r) cells (seqZ a n)).
Proof. eapply NoDup_fmap_1, NoDup_run_ids. Qed.

(** ** Where a log path ends *)

Lemma app_cons_s (c : ascii) (a b : string) : String c a +:+ b = String c (a +:+ b).
Proof. reflexivity. Qed.

Lemma app_nil_l_s (b : string) : "" +:+ b = b.
Proof. reflexivity. Qed.

Lemma length_app_s (a b : string) :
  String.length (a +:+ b) = (String.length a + String.length b)%nat.
Proof. by rewrite <- !length_chars, chars_app, length_app. Qed.

Lemma split_last_segment (P t : string) :
  "/"%char ∉ chars t ->
  exists qs w, Py.split "/" (P +:+ t) = qs ++ [w +:+ t].
Proof.
  intros Ht. induction P as [|c P (qs & w & IH)].
  - exists [], "". by rewrite app_nil_l_s, split_no_sep.
  - rewrite app_cons_s. cbn [Py.split]. rewrite IH. case_decide.
    + by exists ("" :: qs), w.
    + destruct qs as [|q qs]; simpl.
      * by exists [], (String c w).
      * by exists (String c q :: qs), w.
Qed.

Lemma splitroot_tail (P t : string) :
  "/"%char ∉ chars t -> t <> "" ->
  exists rt P', Path.splitroot (P +:+ t) = (rt, P' +:+ t).
Proof.
  intros Ht Hne.
  assert (Path.splitroot t = ("", t)) as Ht0.
  { destruct t as [|c t]; [done|]. simpl. case_decide; [|done].
    subst. exfalso. apply Ht. left. }
  assert (forall c, c <> "/"%char -> forall s, Path.splitroot (String c s) = ("", String c s)) as Hnot.
  { intros c Hc s. simpl. by rewrite decide_False. }
  destruct t as [|c0 t0]; [done|].
  assert (c0 <> "/"%char) as Hc0 by (intros ->; apply Ht; left).
  destruct P as [|c1 P].
  { exists "", "". by rewrite app_nil_l_s. }
  rewrite app_cons_s. destruct (decide (c1 = "/"%char)) as [->|H1].
  2:{ exists "", (String c1 P). rewrite app_cons_s. by apply Hnot. }
  destruct P as [|c2 P].
  { exists "/", "". rewrite !app_nil_l_s. simpl. by rewrite decide_False. }
  rewrite app_cons_s. destruct (decide (c2 = "/"%char)) as [->|H2].
  2:{ exists "/", (String c2 P). rewrite app_cons_s. simpl. by rewrite decide_False. }
  destruct P as [|c3 P].
  { exists "//", "". rewrite !app_nil_l_s. simpl. by rewrite decide_False. }
  rewrite app_cons_s. destruct (decide (c3 = "/"%char)) as [->|H3].
  - exists "/", (String "/" (String "/" P)). rewrite !app_cons_s. reflexivity.
  - exists "//", (String c3 P). rewrite app_cons_s. simpl. by rewrite decide_False.
Qed.

Lemma keep_long_part (w t : string) :
  (2 <= String.length t)%nat -> Path.keep_part (w +:+ t) = true.
Proof.
  intros Hl. unfold Path.keep_part. apply bool_decide_eq_true_2.
  split; intros E; apply (f_equal String.length) in E;
    rewrite length_app_s in E; simpl in E; lia.
Qed.

Lemma join_cons (sep x : string) (l : list string) :
  l <> [] -> Py.join sep (x :: l) = x +:+ sep +:+ Py.join sep l.
Proof. by destruct l. Qed.

Lemma join_last (sep : string) (ps : list string) (seg : string) :
  exists X, chars (Py.join sep (ps ++ [seg])) = X ++ chars seg.
Proof.
  induction ps as [|p ps [X IH]].
  - by exists [].
  - rewrite <- app_comm_cons, join_cons by (by destruct ps).
    rewrite !chars_app, IH. exists (chars p ++ chars sep ++ X).
    by rewrite <- !app_assoc.
Qed.

Lemma str_last_part (rt : string) (ps : list string) (seg : string) :
  exists X, chars (Path.str (Path.mk rt (ps ++ [seg]))) = X ++ chars seg.
Proof.
  destruct (join_last "/" ps seg) as [X HX].
  exists (chars rt ++ X). unfold Path.str. cbn [Path.root Path.parts].
  assert (ps ++ [seg] <> []) as Hne by (by destruct ps).
  destruct (ps ++ [seg]) as [|a l] eqn:E; [done|].
  rewrite <- app_assoc, <- HX, <- chars_app. by destruct rt.
Qed.

(** A file name whose tail holds no separator keeps that tail at the end
    of the joined path. *)
Lemma div_keeps_tail (dir : Path.t) (P t : string) :
  "/"%char ∉ chars t -> (2 <= String.length t)%nat ->
  exists X, chars (Path.str (dir </> (P +:+ t))) = X ++ chars t.
Proof.
  intros Ht Hl.
  assert (t <> "") as Hne by (intros ->; simpl in Hl; lia).
  destruct (splitroot_tail P t Ht Hne) as (rt & P' & Hsr).
  destruct (split_last_segment P' t Ht) as (qs & w & Hsp).
  assert (Path.of_str (P +:+ t) =
          Path.mk rt (filter (fun x => Path.keep_part x = true) qs ++ [w +:+ t])) as Hof.
  { unfold Path.of_str. rewrite Hsr, Hsp, filter_app. do 2 f_equal.
    rewrite filter_cons_True by (by apply keep_long_part). done. }
  unfold Path.div. rewrite Hof. cbn [Path.root Path.parts].
  set (seg := w +:+ t).
  assert (forall rt' ps, exists X,
            chars (Path.str (Path.mk rt' (ps ++ [seg]))) = X ++ chars t) as Hend.
  { intros rt' ps. destruct (str_last_part rt' ps seg) as [X HX].
    exists (X ++ chars w). rewrite HX. unfold seg. by rewrite chars_app, app_assoc. }
  case_decide.
  - rewrite app_assoc. apply Hend.
  - apply Hend.
Qed.

Lemma strftime_no_slash (d : datetime) : "/"%char ∉ chars (strftime_Ymd_HMS d).
Proof.
  rewrite strftime_parts, chars_app. simpl. intros Hin.
  apply elem_of_app in Hin as [Hin|Hin].
  - revert Hin. apply digit_or_dash_not; [apply slash_not_digit|apply date_text_digits].
  - apply elem_of_cons in Hin as [Hin|Hin]; [discriminate Hin|].
    revert Hin. apply digit_or_dash_not; [apply slash_not_digit|apply time_text_digits].
Qed.

Lemma log_path_seed_inj (r : runner) (x1 x2 : cell) (s1 s2 : Z) :
  "/"%char ∉ chars (timestamp r) ->
  Path.str (log_file_path r (run_id (build r x1 s1))) =
  Path.str (log_file_path r (run_id (build r x2 s2))) -> s1 = s2.
Proof.
  intros Hts E.
  set (T := "_" +:+ timestamp r +:+ ".log").
  assert (forall x s, exists X,
    chars (Path.str (log_file_path r (run_id (build r x s)))) =
    (X ++ "_"%char :: chars (Py.str_int s)) ++ chars T) as Hshape.
  { intros x s. unfold log_file_path. rewrite run_id_build.
    replace ((cell_label x +:+ "_" +:+ Py.str_int s) +:+ "_" +:+ timestamp r +:+ ".log")
      with (cell_label x +:+ ("_" +:+ Py.str_int s +:+ T))
      by (unfold T; by rewrite !app_assoc_s).
    destruct (div_keeps_tail (log_dir r) (cell_label x) ("_" +:+ Py.str_int s +:+ T))
      as [X HX].
    - unfold T. rewrite !chars_app. simpl. intros Hin.
      apply elem_of_cons in Hin as [Hin|Hin]; [discriminate Hin|].
      apply elem_of_app in Hin as [Hin|Hin]; [by apply str_int_no_slash in Hin|].
      apply elem_of_cons in Hin as [Hin|Hin]; [discriminate Hin|].
      apply elem_of_app in Hin as [Hin|Hin]; [done|].
      repeat (apply elem_of_cons in Hin as [Hin|Hin]; [discriminate Hin|]).
      by apply elem_of_nil in Hin.
    - unfold T. rewrite !length_app_s. simpl. lia.
    - exists X. rewrite HX, !chars_app. simpl. by rewrite <- !app_assoc. }
  destruct (Hshape x1 s1) as [X1 H1]. destruct (Hshape x2 s2) as [X2 H2].
  rewrite E, H2 in H1. apply app_inv_tail in H1.
  apply split_at_last in H1; try apply str_int_no_underscore.
  destruct H1 as [_ H1]. symmetry. by apply str_int_inj, chars_inj.
Qed.

Lemma NoDup_log_paths (r : runner) (cells : list cell) (a n : Z) :
  "/"%char ∉ chars (timestamp r) ->
  NoDup ((fun t => Path.str (log_file_path r (run_id t))) <$>
         zip_with (build r) cells (seqZ a n)).
Proof.
  intros Hts.
  assert (((fun t => Path.str (log_file_path r (run_id t))) <$>
           zip_with (build r) cells (seqZ a n)) =
          zip_with (fun x s => Path.str (log_file_path r (run_id (build r x s))))
            cells (seqZ a n)) as ->.
  { generalize (seqZ a n). induction cells as [|x cells IH]; intros [|s l]; simpl; try done.
    by rewrite IH. }
  apply NoDup_zip_with_seeds; [|apply NoDup_seqZ].
  intros x1 x2 s1 s2. by apply log_path_seed_inj.
Qed.

(** ** Collecting the results *)

Lemma returned_files_indep (r : runner) (env : process_env) (fs fs' : file_store)
    (t : test_info) :
  returned (run_single_test r env fs t) = returned (run_single_test r env fs' t).
Proof.
  destruct t as [[command test_name] description]. unfold run_single_test, on_exception.
  repeat case_match; simplify_eq/=; done.
Qed.

Lemma future_result_files_indep (r : runner) (h : host) (fs fs' : file_store)
    (i : nat) (t : test_info) :
  fst (future_result r h fs i t) = fst (future_result r h fs' i t).
Proof.
  unfold future_result. destruct (pool_fault h i); [done|].
  apply returned_files_indep.
Qed.

Lemma collect_step (r : runner) (h : host) (q : list test_info) (acc : tally) (i : nat) :
  (i < length q)%nat ->
  let acc' := collect r h q acc i in
  successful_runs acc' =
    successful_runs acc + (if counts_as_success (future_value r h q i) then 1 else 0) /\
  failed_runs acc' =
    failed_runs acc + (if counts_as_success (future_value r h q i) then 0 else 1).
Proof.
  intros Hi. apply lookup_lt_is_Some_2 in Hi as [t Ht].
  unfold collect, future_value. rewrite Ht.
  rewrite (future_result_files_indep r h ∅ (tally_files acc)).
  destruct (future_result r h (tally_files acc) i t) as [[[|]|e] fs]; simpl; lia.
Qed.

Lemma collect_fold (r : runner) (h : host) (q : list test_info) (order : list nat)
    (acc : tally) :
  Forall (fun i => (i < length q)%nat) order ->
  let acc' := foldl (collect r h q) acc order in
  successful_runs acc' = successful_runs acc +
    Z.of_nat (length (filter (fun i => counts_as_success (future_value r h q i) = true) order)) /\
  failed_runs acc' = failed_runs acc +
    Z.of_nat (length (filter (fun i => counts_as_success (future_value r h q i) = false) order)).
Proof.
  revert acc. induction order as [|i order IH]; intros acc Hall; simpl.
  - lia.
  - apply Forall_cons in Hall as [Hi Hall].
    destruct (collect_step r h q acc i Hi) as [Hs Hf].
    destruct (IH (collect r h q acc i) Hall) as [Hs' Hf']. simpl in Hs', Hf'.
    rewrite Hs', Hf', Hs, Hf, !filter_cons.
    destruct (counts_as_success (future_value r h q i)); simpl; lia.
Qed.

Lemma filter_bool_split {A} (f : A -> bool) (l : list A) :
  (length (filter (fun x => f x = true) l) +
   length (filter (fun x => f x = false) l))%nat = length l.
Proof.
  induction l as [|x l IH]; simpl; [done|].
  rewrite !filter_cons. destruct (f x); simpl; lia.
Qed.

Lemma successes_failures_total (r : runner) (h : host) (q : list test_info) :
  successes r h q + failures r h q = Z.of_nat (length q).
Proof.
  unfold successes, failures. rewrite <- Nat2Z.inj_add.
  rewrite (filter_bool_split (fun i => counts_as_success (future_value r h q i))).
  by rewrite length_seq.
Qed.

Lemma collect_all (r : runner) (h : host) (q : list test_info) (fs : file_store) :
  completes_all h q ->
  let acc' := foldl (collect r h q) (mk_tally 0 0 fs []) (completion_order h) in
  successful_runs acc' = successes r h q /\ failed_runs acc' = failures r h q.
Proof.
  intros Hperm.
  assert (Forall (fun i => (i < length q)%nat) (completion_order h)) as Hall.
  { apply Forall_forall. intros i Hi. rewrite Hperm in Hi.
    apply elem_of_seq in Hi. lia. }
  destruct (collect_fold r h q (completion_order h) (mk_tally 0 0 fs []) Hall) as [Hs Hf].
  simpl in *. unfold successes, failures. rewrite Hs, Hf, !Z.add_0_l.
  unfold completes_all in Hperm.
  split; f_equal; apply Permutation_length; by rewrite Hperm.
Qed.

(** ** The whole run *)

Section whole_run.
Context (r : runner) (now : datetime) (h : host) (fs : file_store)
        (max_workers : option Z) (categories strategies protocols : option (list string)).
Context (Hstart : started_at r now).

Lemma submitted_queue :
  submitted (run_all_tests r h fs max_workers categories strategies protocols) =
  expected_queue r now (categories_to_run r categories)
    (strategies_to_test r strategies) (protocols_to_test r protocols).
Proof.
  unfold run_all_tests. rewrite (counter_of_start r now Hstart).
  case_decide; cbn [submitted]; apply expand_matrix_queue.
Qed.

Lemma outcome_completed :
  0 < workers h max_workers ->
  completes_all h
    (submitted (run_all_tests r h fs max_workers categories strategies protocols)) ->
  outcome (run_all_tests r h fs max_workers categories strategies protocols) =
  Py.Returned
    (successes r h
       (submitted (run_all_tests r h fs max_workers categories strategies protocols)),
     failures r h
       (submitted (run_all_tests r h fs max_workers categories strategies protocols))).
Proof.
  intros Hw Hall. revert Hall. unfold run_all_tests.
  rewrite (counter_of_start r now Hstart).
  unfold workers in Hw. rewrite decide_False by lia. cbn [submitted outcome].
  intros Hall. destruct (collect_all r h _ fs Hall) as [-> ->]. done.
Qed.

End whole_run.

Lemma valid_noon : valid_datetime noon.
Proof. unfold valid_datetime, noon; simpl; lia. Qed.
Lemma valid_noon_and_a_second : valid_datetime noon_and_a_second.
Proof. unfold valid_datetime, noon_and_a_second; simpl; lia. Qed.
Lemma valid_noon_next_day : valid_datetime noon_next_day.
Proof. unfold valid_datetime, noon_next_day; simpl; lia. Qed.

(** C1: for a selection whose categories are all in the catalog,
    [run_all_tests] queues exactly one invocation per cell of the product
    category x scenario x strategy x protocol, in that nested order and
    with consecutive seeds; the queue holds no duplicate, its length is
    the sum over the selected categories of scenarios x strategies x
    protocols, and [baseline] with two strategies and two protocols gives
    48 invocations in both runners. *)
Theorem run_all_tests_cartesian_product :
  (forall (r : runner) (now : datetime) (h : host) (fs : file_store)
          (max_workers : option Z) (categories strategies protocols : option (list string)),
      started_at r now ->
      Forall (fun c => is_Some (dict_get (scenarios r) c)) (categories_to_run r categories) ->
      let cats := categories_to_run r categories in
      let strats := strategies_to_test r strategies in
      let protos := protocols_to_test r protocols in
      let q := submitted (run_all_tests r h fs max_workers categories strategies protocols) in
      q = zip_with (build r)
            (c ← cats; tc ← tests_of r c; s ← strats; p ← protos; [(c, tc, s, p)])
            (seqZ (seed_base now + 1) (Z.of_nat (length q))) /\
      length q =
        sum_list ((fun c => length (tests_of r c) * length strats * length protos)%nat <$> cats) /\
      NoDup q) /\
  (forall (c : runner_class) (dir : string) (now : datetime) (h : host) (fs : file_store)
          (max_workers : option Z),
      valid_datetime now ->
      length (tests_of (init c dir now) "baseline") = 12%nat /\
      length (submitted (run_all_tests (init c dir now) h fs max_workers
                baseline_selection two_strategies two_protocols)) = 48%nat).
Proof.
  split.
  - intros r now h fs mw categories strategies protocols Hstart _ cats strats protos q.
    assert (q = expected_queue r now cats strats protos) as Hq
      by (apply submitted_queue, Hstart).
    assert (length q = length (matrix r cats strats protos)) as Hlen.
    { rewrite Hq. unfold expected_queue, assigned_seeds.
      rewrite length_zip_with, length_seqZ. lia. }
    split; [|split].
    + rewrite Hlen. exact Hq.
    + rewrite Hlen. apply length_matrix.
    + rewrite Hq. apply NoDup_queue.
  - intros c dir now h fs mw Hv. split; [by destruct c|].
    rewrite (submitted_queue _ now) by (by apply init_started_at).
    unfold expected_queue, assigned_seeds.
    rewrite length_zip_with, length_seqZ, length_matrix. by destruct c.
Qed.

Lemma run_all_tests_cartesian_product_witness :
  let r := init MLOSimulationRunner "." noon in
  let q := submitted (run_all_tests r (plain_host (fun _ => exits_with 0) []) ∅ None
                        baseline_selection two_strategies two_protocols) in
  length q = 48%nat /\ NoDup q.
Proof.
  destruct run_all_tests_cartesian_product as [Hgen _].
  destruct (Hgen (init MLOSimulationRunner "." noon) noon
              (plain_host (fun _ => exits_with 0) []) ∅ None
              baseline_selection two_strategies two_protocols) as (_ & Hlen & Hnd).
  - apply init_started_at, valid_noon.
  - repeat constructor. vm_compute. eauto.
  - split; [rewrite Hlen; reflexivity|exact Hnd].
Defined.

(** C2: when the collection loop has seen every submitted future once, in
    whatever order, [successful_runs + failed_runs] is the number of
    invocations submitted; a future that returned [True] adds one success,
    and one that returned [False] or raised adds one failure, whether the
    exception came from [run_single_test] or from the pool. *)
Theorem counters_cover_all_submissions
    (r : runner) (now : datetime) (h : host) (fs : file_store)
    (max_workers : option Z) (categories strategies protocols : option (list string)) :
  started_at r now ->
  0 < workers h max_workers ->
  let rep := run_all_tests r h fs max_workers categories strategies protocols in
  completes_all h (submitted rep) ->
  exists ok ko : Z,
    outcome rep = Py.Returned (ok, ko) /\
    ok + ko = Z.of_nat (length (submitted rep)) /\
    ok = successes r h (submitted rep) /\
    ko = failures r h (submitted rep).
Proof.
  intros Hstart Hw rep Hall.
  exists (successes r h (submitted rep)), (failures r h (submitted rep)).
  split; [by apply (outcome_completed r now)|].
  split; [apply successes_failures_total|done].
Qed.

Lemma counters_cover_all_submissions_witness :
  let rep := run_all_tests (init MLOSimulationRunner "." noon) mixed_host ∅ None
               one_scenario two_strategies two_protocols in
  length (submitted rep) = 4%nat /\
  exists ok ko : Z, outcome rep = Py.Returned (ok, ko) /\ ok + ko = 4.
Proof.
  intros rep.
  assert (length (submitted rep) = 4%nat) as Hlen by (vm_compute; reflexivity).
  split; [exact Hlen|].
  destruct (counters_cover_all_submissions (init MLOSimulationRunner "." noon) noon
              mixed_host ∅ None one_scenario two_strategies two_protocols)
    as (ok & ko & Hout & Hsum & _).
  - apply init_started_at, valid_noon.
  - vm_compute. reflexivity.
  - unfold completes_all. fold rep. rewrite Hlen.
    apply (bool_decide_eq_true_1 _). vm_compute. reflexivity.
  - exists ok, ko. split; [exact Hout|]. fold rep in Hsum. rewrite Hsum, Hlen. reflexivity.
Defined.

(** C3: within one run, started at one instant, two invocations queued at
    different positions never share their run identifier, which is the
    text [category_scenario_strategy_protocol_seed], nor their log file
    path. *)
Theorem run_ids_unique_within_run
    (r : runner) (now : datetime) (h : host) (fs : file_store)
    (max_workers : option Z) (categories strategies protocols : option (list string)) :
  started_at r now ->
  let q := submitted (run_all_tests r h fs max_workers categories strategies protocols) in
  run_id <$> q =
    zip_with rendered_id
      (matrix r (categories_to_run r categories) (strategies_to_test r strategies)
         (protocols_to_test r protocols))
      (seqZ (seed_base now + 1) (Z.of_nat (length q))) /\
  forall (i j : nat) (t1 t2 : test_info),
    q !! i = Some t1 -> q !! j = Some t2 -> i <> j ->
    run_id t1 <> run_id t2 /\ log_name r t1 <> log_name r t2.
Proof.
  intros Hstart q.
  assert (q = expected_queue r now (categories_to_run r categories)
                (strategies_to_test r strategies) (protocols_to_test r protocols)) as Hq
    by (apply submitted_queue, Hstart).
  assert (length q = length (matrix r (categories_to_run r categories)
            (strategies_to_test r strategies) (protocols_to_test r protocols))) as Hlen.
  { rewrite Hq. unfold expected_queue, assigned_seeds.
    rewrite length_zip_with, length_seqZ. lia. }
  split.
  - rewrite Hlen, Hq. unfold expected_queue, assigned_seeds.
    generalize (seqZ (seed_base now + 1) (Z.of_nat (length (matrix r
      (categories_to_run r categories) (strategies_to_test r strategies)
      (protocols_to_test r protocols))))).
    generalize (matrix r (categories_to_run r categories)
      (strategies_to_test r strategies) (protocols_to_test r protocols)).
    intros cells. induction cells as [|x cells IH]; intros [|s l]; simpl; try done.
    rewrite IH. f_equal. destruct x as [[[c tc] st] p].
    unfold run_id, build, generate_test_command, rendered_id. reflexivity.
  - intros i j t1 t2 Hi Hj Hij.
    assert (NoDup (run_id <$> q)) as Hid
      by (rewrite Hq; apply NoDup_run_ids).
    assert (NoDup (log_name r <$> q)) as Hlog.
    { rewrite Hq. apply NoDup_log_paths. destruct Hstart as [-> _].
      apply strftime_no_slash. }
    split; intros E; apply Hij.
    + eapply (proj1 (NoDup_alt _) Hid i j (run_id t1)); rewrite list_lookup_fmap.
      * by rewrite Hi.
      * by rewrite Hj, E.
    + eapply (proj1 (NoDup_alt _) Hlog i j (log_name r t1)); rewrite list_lookup_fmap.
      * by rewrite Hi.
      * by rewrite Hj, E.
Qed.

Lemma run_ids_unique_within_run_witness :
  let r := init MLOSimulationRunner "." noon in
  let q := submitted (run_all_tests r mixed_host ∅ None
                        one_scenario two_strategies two_protocols) in
  run_id <$> q =
    ["failure_recovery_random_failures_mixed_tid_RoundRobin_UDP_120001";
     "failure_recovery_random_failures_mixed_tid_RoundRobin_TCP_120002";
     "failure_recovery_random_failures_mixed_tid_Greedy_UDP_120003";
     "failure_recovery_random_failures_mixed_tid_Greedy_TCP_120004"] /\
  forall (i j : nat) (t1 t2 : test_info),
    q !! i = Some t1 -> q !! j = Some t2 -> i <> j ->
    run_id t1 <> run_id t2 /\ log_name r t1 <> log_name r t2.
Proof.
  intros r q. split; [vm_compute; reflexivity|].
  apply (run_ids_unique_within_run r noon mixed_host ∅ None
           one_scenario two_strategies two_protocols).
  apply init_started_at, valid_noon.
Defined.

(** C4, as the code has it: within one run the seeds are the consecutive
    numbers [HHMMSS + 1, HHMMSS + 2, ...] of the start time of day, one per
    queued invocation in submission order, hence strictly increasing and
    pairwise distinct; the seed sets of two runs are disjoint exactly when
    one of them is empty or one range ends before the other begins. *)
Theorem seeds_within_and_across_runs
    (r1 r2 : runner) (now1 now2 : datetime) (h1 h2 : host) (fs1 fs2 : file_store)
    (w1 w2 : option Z) (c1 s1 p1 c2 s2 p2 : option (list string)) :
  started_at r1 now1 -> started_at r2 now2 ->
  let q1 := submitted (run_all_tests r1 h1 fs1 w1 c1 s1 p1) in
  let q2 := submitted (run_all_tests r2 h2 fs2 w2 c2 s2 p2) in
  let seeds1 := assigned_seeds r1 now1 (categories_to_run r1 c1)
                  (strategies_to_test r1 s1) (protocols_to_test r1 p1) in
  let seeds2 := assigned_seeds r2 now2 (categories_to_run r2 c2)
                  (strategies_to_test r2 s2) (protocols_to_test r2 p2) in
  (q1 = zip_with (build r1)
          (matrix r1 (categories_to_run r1 c1) (strategies_to_test r1 s1)
             (protocols_to_test r1 p1)) seeds1 /\
   length seeds1 = length q1 /\
   (forall i, (i < length q1)%nat -> seeds1 !! i = Some (seed_base now1 + 1 + Z.of_nat i)) /\
   NoDup seeds1) /\
  ((forall s, s ∈ seeds1 -> s ∉ seeds2) <->
   (q1 = [] \/ q2 = [] \/
    seed_base now1 + Z.of_nat (length q1) <= seed_base now2 \/
    seed_base now2 + Z.of_nat (length q2) <= seed_base now1)).
Proof.
  intros H1 H2 q1 q2 seeds1 seeds2.
  assert (forall r now h fs w c s p, started_at r now ->
            length (submitted (run_all_tests r h fs w c s p)) =
            length (matrix r (categories_to_run r c) (strategies_to_test r s)
                      (protocols_to_test r p))) as Hlen.
  { intros r now h fs w c s p Hs. rewrite (submitted_queue r now) by done.
    unfold expected_queue, assigned_seeds. rewrite length_zip_with, length_seqZ. lia. }
  pose proof (Hlen r1 now1 h1 fs1 w1 c1 s1 p1 H1) as Hl1.
  pose proof (Hlen r2 now2 h2 fs2 w2 c2 s2 p2 H2) as Hl2.
  fold q1 in Hl1. fold q2 in Hl2.
  split; [split; [|split; [|split]]|].
  - apply (submitted_queue r1 now1), H1.
  - unfold seeds1, assigned_seeds. rewrite length_seqZ, Hl1. lia.
  - intros i Hi. unfold seeds1, assigned_seeds. apply lookup_seqZ. lia.
  - apply NoDup_seqZ.
  - unfold seeds1, seeds2, assigned_seeds. rewrite <- Hl1, <- Hl2.
    destruct q1 as [|t1 q1']; [split; [tauto|]; intros _ s Hs; apply elem_of_seqZ in Hs;
      simpl in Hs; lia|].
    destruct q2 as [|t2 q2']; [split; [tauto|]; intros _ s _ Hs; apply elem_of_seqZ in Hs;
      simpl in Hs; lia|].
    split.
    + intros Hdis. right. right.
      destruct (decide (seed_base now1 + Z.of_nat (length (t1 :: q1')) <= seed_base now2));
        [by left|].
      destruct (decide (seed_base now2 + Z.of_nat (length (t2 :: q2')) <= seed_base now1));
        [by right|].
      exfalso. apply (Hdis (Z.max (seed_base now1) (seed_base now2) + 1));
        apply elem_of_seqZ; simpl length in *; lia.
    + intros [?|[?|Hord]]; [done..|]. intros s Hs1 Hs2.
      apply elem_of_seqZ in Hs1, Hs2. lia.
Qed.

Lemma seeds_within_and_across_runs_witness :
  let r1 := init MLOSimulationRunner "." noon in
  let r2 := init MLOSimulationRunner "." (mk_datetime 2026 11 3 12 1 0 0) in
  let seeds1 := assigned_seeds r1 noon ["baseline"] ["RoundRobin"; "Greedy"] ["UDP"; "TCP"] in
  let seeds2 := assigned_seeds r2 (mk_datetime 2026 11 3 12 1 0 0)
                  ["baseline"] ["RoundRobin"; "Greedy"] ["UDP"; "TCP"] in
  seeds1 = seqZ 120001 48 /\ seeds2 = seqZ 120101 48 /\
  forall s, s ∈ seeds1 -> s ∉ seeds2.
Proof.
  intros r1 r2 seeds1 seeds2.
  split; [vm_compute; reflexivity|]. split; [vm_compute; reflexivity|].
  assert (started_at r1 noon) as H1 by apply init_started_at, valid_noon.
  assert (started_at r2 (mk_datetime 2026 11 3 12 1 0 0)) as H2.
  { apply init_started_at. unfold valid_datetime; simpl; lia. }
  pose proof (seeds_within_and_across_runs r1 r2 noon (mk_datetime 2026 11 3 12 1 0 0)
                (plain_host (fun _ => exits_with 0) []) (plain_host (fun _ => exits_with 0) [])
                ∅ ∅ None None
                baseline_selection two_strategies two_protocols
                baseline_selection two_strategies two_protocols H1 H2) as [_ Hiff].
  apply Hiff. right. right. left. vm_compute. discriminate.
Defined.

(** C4 as stated fails: runs started one second apart hand out
    overlapping seeds (seed 120002 is in both), and runs started at the
    same time of day on different days hand out the same seeds, building
    the very same queue. *)
Lemma seeds_reused_across_seconds :
  let rA := init MLOSimulationRunner "." noon in
  let rB := init MLOSimulationRunner "." noon_and_a_second in
  let rC := init MLOSimulationRunner "." noon_next_day in
  let run r := submitted (run_all_tests r (plain_host (fun _ => exits_with 0) []) ∅ None
                            baseline_selection two_strategies two_protocols) in
  timestamp rA = "20261103_120000" /\
  timestamp rB = "20261103_120001" /\
  timestamp rC = "20261104_120000" /\
  (exists tc,
     head basic_baseline_tests = Some tc /\
     run rA !! 1%nat = Some (generate_test_command rA "baseline" tc "RoundRobin" "TCP" 120002) /\
     run rB !! 0%nat = Some (generate_test_command rB "baseline" tc "RoundRobin" "UDP" 120002)) /\
  run rC = run rA /\
  ~ (forall s,
       s ∈ assigned_seeds rA noon ["baseline"] ["RoundRobin"; "Greedy"] ["UDP"; "TCP"] ->
       s ∉ assigned_seeds rB noon_and_a_second ["baseline"] ["RoundRobin"; "Greedy"] ["UDP"; "TCP"]).
Proof.
  intros rA rB rC run.
  split; [vm_compute; reflexivity|]. split; [vm_compute; reflexivity|].
  split; [vm_compute; reflexivity|]. split; [|split].
  - exists (mk_test "normal_load_critical_high"
      "--nWifi=20 --tidCount=24 --criticalTids=0 --emergencyTids=24 --simtime=30 --dataRate=100Mbps"
      "Normal load - Emergency TIDs with Ultra-Critical SLA (1ms threshold)").
    split; [reflexivity|]. split; vm_compute; reflexivity.
  - vm_compute. reflexivity.
  - intros H. apply (H 120002); apply elem_of_seqZ; vm_compute; split; congruence.
Qed.

(** ** Categories missing from the catalog *)

Lemma foldl_warnings {A} (f : expansion -> A -> expansion) (l : list A) (st : expansion) :
  (forall st x, warnings (f st x) = warnings st) ->
  warnings (foldl f st l) = warnings st.
Proof.
  intros Hf. revert st. induction l as [|x l IH]; intros st; simpl; [done|].
  by rewrite IH, Hf.
Qed.

Lemma for_category_warnings (r : runner) (strats protos : list string)
    (st : expansion) (c : string) :
  warnings (for_category r strats protos st c) =
  warnings st ++
    match dict_get (scenarios r) c with None => [skip_warning c] | Some _ => [] end.
Proof.
  unfold for_category. destruct (dict_get (scenarios r) c) as [cat|]; [|done].
  rewrite app_nil_r. apply foldl_warnings. intros st' tc.
  apply foldl_warnings. intros st'' s. apply foldl_warnings. done.
Qed.






(** C10: an empty list given for categories, strategies or protocols is
    falsy, so it selects the full set exactly as an omitted argument does:
    the call behaves identically, and for the two runners the result is
    the whole matrix rather than an empty run. *)
Theorem empty_selection_means_everything :
  (forall (r : runner) (h : host) (fs : file_store) (max_workers : option Z)
          (a b c : option (list string)),
     run_all_tests r h fs max_workers (Some []) b c = run_all_tests r h fs max_workers None b c /\
     run_all_tests r h fs max_workers a (Some []) c = run_all_tests r h fs max_workers a None c /\
     run_all_tests r h fs max_workers a b (Some []) = run_all_tests r h fs max_workers a b None /\
     categories_to_run r (Some []) = keys (scenarios r) /\
     strategies_to_test r (Some []) = strategies r /\
     protocols_to_test r (Some []) = protocols r) /\
  (forall (k : runner_class) (dir : string) (now : datetime),
     strategies_to_test (init k dir now) (Some []) =
       ["RoundRobin"; "Greedy"; "Reliability"; "SLA-MLO"] /\
     protocols_to_test (init k dir now) (Some []) = ["UDP"; "TCP"; "Mixed"] /\
     categories_to_run (init k dir now) (Some []) = keys (define_test_scenarios k) /\
     expected_total (init k dir now)
       (categories_to_run (init k dir now) (Some []))
       (strategies_to_test (init k dir now) (Some []))
       (protocols_to_test (init k dir now) (Some [])) =
     match k with
     | MLOSimulationRunner => 720%nat
     | MLOExtremeSimulationRunner => 1368%nat
     end) /\
  (forall (k : runner_class) (dir : string) (now : datetime) (h : host) (fs : file_store)
          (max_workers : option Z),
     valid_datetime now ->
     length (submitted (run_all_tests (init k dir now) h fs max_workers
                          (Some []) (Some []) (Some []))) =
     match k with
     | MLOSimulationRunner => 720%nat
     | MLOExtremeSimulationRunner => 1368%nat
     end).
Proof.
  split; [|split].
  - intros r h fs mw a b c. repeat split; reflexivity.
  - intros k dir now. repeat split; try reflexivity. destruct k; vm_compute; reflexivity.
  - intros k dir now h fs mw Hv.
    rewrite (submitted_queue _ now) by (by apply init_started_at).
    unfold expected_queue, assigned_seeds.
    rewrite length_zip_with, length_seqZ, length_matrix.
    destruct k; vm_compute; reflexivity.
Qed.

Lemma empty_selection_means_everything_witness :
  length (submitted (run_all_tests (init MLOSimulationRunner "." noon)
                       (plain_host (fun _ => exits_with 0) []) ∅ None
                       (Some []) (Some []) (Some []))) = 720%nat.
Proof.
  destruct empty_selection_means_everything as (_ & _ & Hlen).
  apply (Hlen MLOSimulationRunner "." noon (plain_host (fun _ => exits_with 0) []) ∅ None).
  apply valid_noon.
Defined.

(** ** One run and its log *)

Lemma of_str_plain (F : string) :
  "/"%char ∉ chars F -> (2 <= String.length F)%nat -> Path.of_str F = Path.mk "" [F].
Proof.
  intros Hs Hl. unfold Path.of_str.
  assert (Path.splitroot F = ("", F)) as ->.
  { destruct F as [|c F]; [done|]. simpl. case_decide; [|done].
    subst. exfalso. apply Hs. left. }
  rewrite split_no_sep by done. rewrite filter_cons_True; [done|].
  rewrite <- (app_nil_l_s F). by apply keep_long_part.
Qed.

Lemma log_file_path_plain (r : runner) (test_name : string) :
  "/"%char ∉ chars test_name -> "/"%char ∉ chars (timestamp r) ->
  log_file_path r test_name =
  Path.mk (Path.root (log_dir r))
    (Path.parts (log_dir r) ++ [test_name +:+ "_" +:+ timestamp r +:+ ".log"]).
Proof.
  intros Hn Hts. unfold log_file_path, Path.div. rewrite of_str_plain; [done| |].
  - rewrite !chars_app. simpl. intros Hin.
    apply elem_of_app in Hin as [Hin|Hin]; [done|].
    apply elem_of_cons in Hin as [Hin|Hin]; [discriminate Hin|].
    apply elem_of_app in Hin as [Hin|Hin]; [done|].
    repeat (apply elem_of_cons in Hin as [Hin|Hin]; [discriminate Hin|]).
    by apply elem_of_nil in Hin.
  - rewrite !length_app_s. simpl. lia.
Qed.

Lemma log_text_layout (r : runner) (env : process_env)
    (command test_name description : string) (result : completed_process) :
  log_text r env (command, test_name, description) result =
  log_artifact (details_header (cls r)) test_name description
    (isoformat (log_time env))
    (Py.format_f 2 (execution_time env) +:+ " seconds")
    (returncode result) command (stdout result) (stderr result).
Proof.
  unfold log_text, log_artifact. cbn [Py.join].
  apply chars_inj. rewrite !chars_app. simpl.
  repeat (rewrite <- !app_assoc; simpl). reflexivity.
Qed.




Lemma after_simulator_other (r : runner) (env : process_env) (fs : file_store)
    (command p : string) :
  p <> results_file r -> after_simulator r env fs command !! p = fs !! p.
Proof.
  intros Hp. unfold after_simulator. destruct (appended_rows r env command); [|done].
  by rewrite lookup_insert_ne.
Qed.

Section one_run.
Context (r : runner) (env : process_env) (fs : file_store)
        (command test_name description : string).

Lemma run_terminated (result : completed_process) :
  subprocess_run env command (Path.str (ns3_dir r)) = Py.Returned result ->
  open_fault env (Path.str (log_file_path r test_name)) = None ->
  returned (run_single_test r env fs (command, test_name, description)) =
    Py.Returned (bool_decide (returncode result = 0)) /\
  files (run_single_test r env fs (command, test_name, description)) =
    <[Path.str (log_file_path r test_name) :=
        log_text r env (command, test_name, description) result]>
      (after_simulator r env fs command).
Proof.
  intros Hrun Hopen. unfold run_single_test.
  rewrite Hrun, Hopen. case_decide.
  - by rewrite bool_decide_eq_true_2.
  - by rewrite bool_decide_eq_false_2.
Qed.

End one_run.

(** C7: the command is the simulator entry point, the flags [--strategy],
    [--protocol], [--seed], [--csvFile], [--scenario=<category>_<name>],
    [--runNumber] (same number as the seed) and [--verbose=1], then the
    scenario's parameter string unchanged; the quote opened by the entry
    point is closed after it, so that the simulator with its flags and
    parameters is the one argument of [./ns3 run]. *)
Theorem generate_test_command_shape (r : runner) (c : string) (tc : test_config)
    (S P : string) (seed : Z) :
  command_of (generate_test_command r c tc S P seed) =
    spawned_command S P seed (Path.str (output_csv_path r)) c (name tc) (params tc) +:+ "'" /\
  command_of (generate_test_command r c tc S P seed) =
    "./ns3 run '" +:+
    simulator_arguments S P seed (Path.str (output_csv_path r)) c (name tc) (params tc) +:+
    "'".
Proof.
  unfold command_of, generate_test_command, spawned_command, simulator_arguments,
    simulator_entry.
  cbn [fst snd Py.join].
  split; apply chars_inj; rewrite !chars_app; simpl;
    repeat (rewrite <- !app_assoc; simpl); reflexivity.
Qed.










(** ** More about one run *)

Lemma after_simulator_at (r : runner) (env : process_env) (fs : file_store)
    (command p : string) :
  after_simulator r env fs command !! p =
    if decide (p = results_file r) then
      match appended_rows r env command with
      | Some rows => Some (default "" (fs !! p) +:+ rows)
      | None => fs !! p
      end
    else fs !! p.
Proof.
  unfold after_simulator. case_decide as Hp.
  - subst p. destruct (appended_rows r env command); [|done]. by rewrite lookup_insert_eq.
  - by apply after_simulator_other.
Qed.

Lemma after_simulator_same_at (r : runner) (env : process_env) (fs fs' : file_store)
    (command p : string) :
  fs !! p = fs' !! p ->
  after_simulator r env fs command !! p = after_simulator r env fs' command !! p.
Proof. intros H. rewrite !after_simulator_at. by rewrite H. Qed.

Lemma run_single_test_frame
    (r : runner) (env : process_env) (fs : file_store) (t : test_info) (p : string) :
  p <> log_name r t ->
  files (run_single_test r env fs t) !! p = after_simulator r env fs (command_of t) !! p.
Proof.
  destruct t as [[command test_name] description]. unfold log_name, run_id, command_of.
  cbn [fst snd]. intros Hp. unfold run_single_test, on_exception.
  destruct (subprocess_run env command (Path.str (ns3_dir r))) as [result|e];
    destruct (open_fault env (Path.str (log_file_path r test_name))) as [e'|];
    try case_decide; cbn [files]; try done; by rewrite lookup_insert_ne.
Qed.







(** ** Files after a whole run *)

Lemma own_log_depends_on_own_path (r : runner) (env : process_env)
    (fs fs' : file_store) (t : test_info) :
  fs !! log_name r t = fs' !! log_name r t ->
  files (run_single_test r env fs t) !! log_name r t =
  files (run_single_test r env fs' t) !! log_name r t.
Proof.
  destruct t as [[command test_name] description]. unfold log_name, run_id. cbn [fst snd].
  intros Hfs.
  pose proof (after_simulator_same_at r env fs fs' command _ Hfs) as Hleft.
  unfold run_single_test, on_exception.
  destruct (subprocess_run env command (Path.str (ns3_dir r))) as [result|e0];
    destruct (open_fault env (Path.str (log_file_path r test_name))) as [e'|];
    try case_decide; cbn [files]; rewrite ?lookup_insert_eq, ?Hleft; done.
Qed.

Lemma future_result_other (r : runner) (h : host) (fs : file_store) (i : nat)
    (t : test_info) (p : string) :
  p <> log_name r t -> p <> results_file r -> (future_result r h fs i t).2 !! p = fs !! p.
Proof.
  intros Hp Hres. unfold future_result. destruct (pool_fault h i).
  - cbn [snd]. unfold left_by_lost_worker.
    destruct (lost_worker h i) as [[rows|] [text|]]; cbn [fst snd];
      rewrite ?(lookup_insert_ne _ (log_of r t)) by (intros E; by apply Hp);
      rewrite ?lookup_insert_ne by done; done.
  - cbn [snd]. rewrite run_single_test_frame by done. by apply after_simulator_other.
Qed.

Lemma future_result_own (r : runner) (h : host) (fs fs' : file_store) (i : nat)
    (t : test_info) :
  fs !! log_name r t = fs' !! log_name r t ->
  (future_result r h fs i t).2 !! log_name r t =
  (future_result r h fs' i t).2 !! log_name r t.
Proof.
  intros Hfs. unfold future_result. destruct (pool_fault h i).
  - cbn [snd]. unfold left_by_lost_worker.
    destruct (lost_worker h i) as [[rows|] [text|]]; cbn [fst snd];
      change (log_of r t) with (log_name r t);
      rewrite ?lookup_insert_eq; try done.
    destruct (decide (log_name r t = results_file r)) as [E|E].
    + rewrite <- E, !lookup_insert_eq. by rewrite Hfs.
    + by rewrite !lookup_insert_ne.
  - by apply own_log_depends_on_own_path.
Qed.

Lemma collect_files (r : runner) (h : host) (q : list test_info) (acc : tally)
    (i : nat) (t : test_info) :
  q !! i = Some t ->
  tally_files (collect r h q acc i) = (future_result r h (tally_files acc) i t).2.
Proof.
  intros Hi. unfold collect. rewrite Hi.
  by destruct (future_result r h (tally_files acc) i t) as [[[|]|e] fs'].
Qed.

Lemma collect_files_other (r : runner) (h : host) (q : list test_info) (acc : tally)
    (i : nat) (p : string) :
  (forall t, q !! i = Some t -> p <> log_name r t) ->
  p <> results_file r ->
  tally_files (collect r h q acc i) !! p = tally_files acc !! p.
Proof.
  intros Hp Hres. destruct (q !! i) as [t|] eqn:Hi.
  - rewrite (collect_files r h q acc i t Hi). apply future_result_other; [by apply Hp|done].
  - unfold collect. by rewrite Hi.
Qed.

Lemma fold_files_other (r : runner) (h : host) (q : list test_info) (order : list nat)
    (acc : tally) (p : string) :
  (forall i t, i ∈ order -> q !! i = Some t -> p <> log_name r t) ->
  p <> results_file r ->
  tally_files (foldl (collect r h q) acc order) !! p = tally_files acc !! p.
Proof.
  revert acc. induction order as [|i order IH]; intros acc Hp Hres; simpl; [done|].
  rewrite IH; [|intros j t Hj; apply Hp; by right|done].
  apply collect_files_other; [|done]. intros t Ht. apply (Hp i t); [left|done].
Qed.

Lemma fold_files_own (r : runner) (h : host) (q : list test_info) (order : list nat)
    (fs : file_store) (i : nat) (t : test_info) :
  NoDup (log_name r <$> q) -> NoDup order -> i ∈ order -> q !! i = Some t ->
  log_name r t <> results_file r ->
  tally_files (foldl (collect r h q) (mk_tally 0 0 fs []) order) !! log_name r t =
  (future_result r h fs i t).2 !! log_name r t.
Proof.
  intros Hq Hnd Hin Hi Hres.
  apply list_elem_of_split in Hin as (l1 & l2 & ->).
  apply NoDup_app in Hnd as (_ & Hl1 & Hnd). apply NoDup_cons in Hnd as [Hl2 _].
  assert (forall j tj, j <> i -> q !! j = Some tj -> log_name r t <> log_name r tj) as Hother.
  { intros j tj Hj Htj E. apply Hj.
    apply (proj1 (NoDup_alt _) Hq j i (log_name r t)); rewrite list_lookup_fmap.
    - by rewrite Htj, E.
    - by rewrite Hi. }
  rewrite foldl_app. cbn [foldl]. rewrite fold_files_other; [| |done].
  2:{ intros j tj Hj. apply Hother. intros ->. done. }
  rewrite (collect_files r h q _ i t Hi). apply future_result_own.
  rewrite fold_files_other; [done| |done].
  intros j tj Hj. apply Hother. intros ->. by apply (Hl1 i); [|left].
Qed.




Lemma NoDup_expected_log_names (r : runner) (now : datetime)
    (cats strats protos : list string) :
  started_at r now ->
  NoDup (log_name r <$> expected_queue r now cats strats protos).
Proof.
  intros [Hts _]. apply NoDup_log_paths. rewrite Hts. apply strftime_no_slash.
Qed.

Lemma final_files_unfold (r : runner) (now : datetime) (h : host) (fs : file_store)
    (max_workers : option Z) (categories strategies protocols : option (list string)) :
  started_at r now -> 0 < workers h max_workers ->
  final_files (run_all_tests r h fs max_workers categories strategies protocols) =
  tally_files
    (foldl (collect r h
              (submitted (run_all_tests r h fs max_workers categories strategies protocols)))
       (mk_tally 0 0 fs []) (completion_order h)).
Proof.
  intros Hstart Hw. unfold run_all_tests. rewrite (counter_of_start r now Hstart).
  unfold workers in Hw. by rewrite decide_False by lia.
Qed.




(** ** The order of completion does not matter *)

Lemma future_result_same_workers (r : runner) (h1 h2 : host) (fs : file_store)
    (i : nat) (t : test_info) :
  same_workers h1 h2 -> future_result r h1 fs i t = future_result r h2 fs i t.
Proof.
  intros (He & Hp & Hl). unfold future_result, left_by_lost_worker. by rewrite He, Hp, Hl.
Qed.

Lemma successes_same_workers (r : runner) (h1 h2 : host) (q : list test_info) :
  same_workers h1 h2 ->
  successes r h1 q = successes r h2 q /\ failures r h1 q = failures r h2 q.
Proof.
  intros Hsame. unfold successes, failures.
  assert (forall i, future_value r h1 q i = future_value r h2 q i) as Hv.
  { intros i. unfold future_value. destruct (q !! i); [|done].
    by rewrite (future_result_same_workers r h1 h2). }
  split; do 2 f_equal; apply list_filter_iff; intros i; by rewrite Hv.
Qed.

(** X6: two runs of the same runner on the same selection and files,
    whose workers behave alike, end with the same queue and the same two
    counters, whatever the order in which their futures complete and
    whatever the (positive) number of workers.  They also leave the same
    files, apart from the results file, which the simulators append to as
    they run. *)
Theorem completion_order_does_not_matter
    (r : runner) (now : datetime) (h1 h2 : host) (fs : file_store)
    (w1 w2 : option Z) (categories strategies protocols : option (list string)) :
  started_at r now ->
  0 < workers h1 w1 -> 0 < workers h2 w2 ->
  same_workers h1 h2 ->
  let rep1 := run_all_tests r h1 fs w1 categories strategies protocols in
  let rep2 := run_all_tests r h2 fs w2 categories strategies protocols in
  completes_all h1 (submitted rep1) -> completes_all h2 (submitted rep2) ->
  submitted rep1 = submitted rep2 /\
  outcome rep1 = outcome rep2 /\
  forall p : string,
    p <> results_file r -> final_files rep1 !! p = final_files rep2 !! p.
Proof.
  intros Hstart Hw1 Hw2 Hsame rep1 rep2 Hall1 Hall2.
  assert (submitted rep1 = submitted rep2) as Hq.
  { unfold rep1, rep2. by rewrite !(submitted_queue r now). }
  split; [exact Hq|]. split.
  - unfold rep1, rep2. rewrite !(outcome_completed r now) by done.
    fold rep1 rep2. rewrite Hq.
    by destruct (successes_same_workers r h1 h2 (submitted rep2) Hsame) as [-> ->].
  - intros p Hres.
    assert (NoDup (log_name r <$> submitted rep2)) as Hnd.
    { unfold rep2. rewrite (submitted_queue r now) by done.
      by apply NoDup_expected_log_names. }
    unfold rep1, rep2. rewrite !(final_files_unfold r now) by done. fold rep1 rep2.
    rewrite Hq in *.
    destruct (decide (p ∈ log_name r <$> submitted rep2)) as [Hin|Hout].
    + apply list_elem_of_fmap in Hin as (t & -> & Ht).
      apply list_elem_of_lookup in Ht as [i Hi].
      assert (i < length (submitted rep2))%nat as Hlt by (by apply lookup_lt_Some in Hi).
      rewrite !(fold_files_own r _ (submitted rep2) _ fs i t); try done.
      * by rewrite (future_result_same_workers r h1 h2).
      * unfold completes_all in Hall2. rewrite Hall2. apply NoDup_seq.
      * unfold completes_all in Hall2. rewrite Hall2. apply elem_of_seq. lia.
      * unfold completes_all in Hall1. rewrite Hall1. apply NoDup_seq.
      * unfold completes_all in Hall1. rewrite Hall1. apply elem_of_seq. lia.
    + rewrite !fold_files_other; try done.
      * intros i t _ Hi E. apply Hout. subst p.
        apply list_elem_of_fmap_2. by apply list_elem_of_lookup_2 in Hi.
      * intros i t _ Hi E. apply Hout. subst p.
        apply list_elem_of_fmap_2. by apply list_elem_of_lookup_2 in Hi.
Qed.

Lemma completion_order_does_not_matter_witness :
  let r := init MLOSimulationRunner "." noon in
  let other := mk_host 1 mixed_env (pool_fault mixed_host) (lost_worker mixed_host)
                 [0; 1; 2; 3]%nat (7 # 1) in
  let rep1 := run_all_tests r mixed_host ∅ None one_scenario two_strategies two_protocols in
  let rep2 := run_all_tests r other ∅ (Some 1) one_scenario two_strategies two_protocols in
  outcome rep1 = outcome rep2 /\
  final_files rep1 !! log_name r sample_test = final_files rep2 !! log_name r sample_test.
Proof.
  intros r other rep1 rep2.
  destruct (completion_order_does_not_matter r noon mixed_host other ∅ None (Some 1)
              one_scenario two_strategies two_protocols) as (_ & Hout & Hfiles).
  - apply init_started_at, valid_noon.
  - vm_compute. reflexivity.
  - vm_compute. reflexivity.
  - repeat split; reflexivity.
  - unfold completes_all.
    assert (length (submitted (run_all_tests r mixed_host ∅ None one_scenario
                                 two_strategies two_protocols)) = 4%nat) as ->
      by (vm_compute; reflexivity).
    apply (bool_decide_eq_true_1 _). vm_compute. reflexivity.
  - unfold completes_all.
    assert (length (submitted (run_all_tests r other ∅ (Some 1) one_scenario
                                 two_strategies two_protocols)) = 4%nat) as ->
      by (vm_compute; reflexivity).
    apply (bool_decide_eq_true_1 _). vm_compute. reflexivity.
  - split; [exact Hout|]. apply Hfiles. vm_compute. discriminate.
Defined.

(** ** Categories that are not in the catalog, in general *)

Lemma matrix_known (r : runner) (cats strats protos : list string) :
  matrix r cats strats protos =
  matrix r (filter (fun c => known r c = true) cats) strats protos.
Proof.
  unfold matrix. induction cats as [|c cats IH]; [done|].
  rewrite bind_cons, IH, filter_cons.
  destruct (known r c) eqn:Hk.
  - rewrite decide_True by done. by rewrite bind_cons.
  - rewrite decide_False by done. unfold known in Hk. unfold tests_of at 1.
    by destruct (dict_get (scenarios r) c).
Qed.

Lemma fold_category_warnings (r : runner) (strats protos cats : list string)
    (st : expansion) :
  warnings (foldl (for_category r strats protos) st cats) =
  warnings st ++ (skip_warning <$> filter (fun c => known r c = false) cats).
Proof.
  revert st. induction cats as [|c cats IH]; intros st.
  - simpl. by rewrite app_nil_r.
  - cbn [foldl]. rewrite IH, for_category_warnings, filter_cons.
    destruct (known r c) eqn:Hk; unfold known in Hk;
      destruct (dict_get (scenarios r) c) as [cat|]; try discriminate Hk.
    + rewrite decide_False by done. by rewrite app_nil_r.
    + rewrite decide_True by done. by rewrite <- app_assoc.
Qed.

Lemma expand_matrix_warnings (r : runner) (cats strats protos : list string) (start : Z) :
  warnings (expand_matrix r cats strats protos start) =
  skip_warning <$> filter (fun c => known r c = false) cats.
Proof. unfold expand_matrix. by rewrite fold_category_warnings. Qed.

Lemma console_shape (r : runner) (now : datetime) (h : host) (fs : file_store)
    (max_workers : option Z) (categories strategies protocols : option (list string)) :
  started_at r now ->
  exists rest,
    console (run_all_tests r h fs max_workers categories strategies protocols) =
    opening_lines r (workers h max_workers) (categories_to_run r categories)
      (strategies_to_test r strategies) (protocols_to_test r protocols) ++
    (skip_warning <$> filter (fun c => known r c = false) (categories_to_run r categories)) ++
    total_line (cls r)
      (length (submitted (run_all_tests r h fs max_workers categories strategies protocols)))
    :: rest.
Proof.
  intros Hstart. unfold run_all_tests. rewrite (counter_of_start r now Hstart).
  rewrite !expand_matrix_warnings.
  fold (workers h max_workers). case_decide; cbn [console submitted].
  - exists []. done.
  - eexists. rewrite <- !app_assoc. cbn [app]. reflexivity.
Qed.

(** X7: a selected category that is not in the catalog is skipped: the
    queue is the one of the selection without such categories, one
    invocation per cell of its matrix with the seeds counted from the
    first (a skipped category takes no seed), and the parent prints one
    warning for each skipped category, in selection order, between the
    opening lines and the line giving the total. *)
Theorem unknown_categories_are_skipped
    (r : runner) (now : datetime) (h : host) (fs : file_store)
    (max_workers : option Z) (categories strategies protocols : option (list string)) :
  started_at r now ->
  let cats := categories_to_run r categories in
  let strats := strategies_to_test r strategies in
  let protos := protocols_to_test r protocols in
  let kept := matrix r (filter (fun c => known r c = true) cats) strats protos in
  let rep := run_all_tests r h fs max_workers categories strategies protocols in
  submitted rep =
    zip_with (build r) kept (seqZ (seed_base now + 1) (Z.of_nat (length kept))) /\
  length (submitted rep) = length kept /\
  exists rest,
    console rep =
    opening_lines r (workers h max_workers) cats strats protos ++
    (skip_warning <$> filter (fun c => known r c = false) cats) ++
    total_line (cls r) (length kept) :: rest.
Proof.
  intros Hstart cats strats protos kept rep.
  assert (submitted rep = expected_queue r now cats strats protos) as Hq
    by (apply submitted_queue, Hstart).
  assert (kept = matrix r cats strats protos) as Hkept
    by (unfold kept; by rewrite <- matrix_known).
  assert (length (submitted rep) = length kept) as Hlen.
  { rewrite Hq, Hkept. unfold expected_queue, assigned_seeds.
    rewrite length_zip_with, length_seqZ. lia. }
  split; [|split; [exact Hlen|]].
  - rewrite Hq, Hkept. reflexivity.
  - rewrite <- Hlen. by apply (console_shape r now).
Qed.

Lemma unknown_categories_are_skipped_witness :
  let r := init MLOSimulationRunner "." noon in
  let rep := run_all_tests r mixed_host ∅ None
               (Some ["nowhere"; "failure_recovery"; "elsewhere"])
               two_strategies two_protocols in
  run_id <$> submitted rep =
    ["failure_recovery_random_failures_mixed_tid_RoundRobin_UDP_120001";
     "failure_recovery_random_failures_mixed_tid_RoundRobin_TCP_120002";
     "failure_recovery_random_failures_mixed_tid_Greedy_UDP_120003";
     "failure_recovery_random_failures_mixed_tid_Greedy_TCP_120004"] /\
  exists rest,
    console rep =
    opening_lines r 4 ["nowhere"; "failure_recovery"; "elsewhere"]
      ["RoundRobin"; "Greedy"] ["UDP"; "TCP"] ++
    ["⚠️ Warning: Scenario category 'nowhere' not found. Skipping.";
     "⚠️ Warning: Scenario category 'elsewhere' not found. Skipping."] ++
    total_line MLOSimulationRunner 4 :: rest.
Proof.
  intros r rep.
  destruct (unknown_categories_are_skipped r noon mixed_host ∅ None
              (Some ["nowhere"; "failure_recovery"; "elsewhere"])
              two_strategies two_protocols) as (Hq & _ & rest & Hrest).
  - apply init_started_at, valid_noon.
  - split.
    + fold r rep in Hq. rewrite Hq. vm_compute. reflexivity.
    + exists rest. fold r rep in Hrest. rewrite Hrest. reflexivity.
Defined.

(** X8: the order of the selection is the order of the queue, and the
    seed counter runs on from one category to the next: for a non-empty
    list [a], the queue of the selection [a ++ b] is the queue of [a]
    followed by the cells of [b] with the seeds that come next.  So
    lengthening a selection at its end changes none of the invocations
    (commands, identifiers, seeds) queued before. *)
Theorem selection_order_is_kept
    (r : runner) (now : datetime) (h : host) (fs : file_store)
    (max_workers : option Z) (a b : list string) (strategies protocols : option (list string)) :
  started_at r now ->
  a <> [] ->
  let strats := strategies_to_test r strategies in
  let protos := protocols_to_test r protocols in
  let qa := submitted (run_all_tests r h fs max_workers (Some a) strategies protocols) in
  submitted (run_all_tests r h fs max_workers (Some (a ++ b)) strategies protocols) =
  qa ++
  zip_with (build r) (matrix r b strats protos)
    (seqZ (seed_base now + 1 + Z.of_nat (length qa))
       (Z.of_nat (length (matrix r b strats protos)))).
Proof.
  intros Hstart Ha strats protos qa. unfold qa.
  rewrite !(submitted_queue r now) by done.
  assert (categories_to_run r (Some a) = a) as -> by (by destruct a).
  assert (categories_to_run r (Some (a ++ b)) = a ++ b) as -> by (by destruct a).
  unfold expected_queue, assigned_seeds. fold strats protos.
  assert (matrix r (a ++ b) strats protos =
          matrix r a strats protos ++ matrix r b strats protos) as ->
    by (unfold matrix; by rewrite bind_app).
  rewrite length_app, Nat2Z.inj_add, seqZ_app by lia.
  rewrite zip_with_app by (rewrite length_seqZ; lia).
  rewrite length_zip_with, length_seqZ.
  do 3 f_equal. lia.
Qed.

Lemma selection_order_is_kept_witness :
  let r := init MLOSimulationRunner "." noon in
  let run cats := submitted (run_all_tests r mixed_host ∅ None (Some cats)
                               two_strategies two_protocols) in
  length (run ["failure_recovery"]) = 4%nat /\
  take 4 (run ["failure_recovery"; "baseline"]) = run ["failure_recovery"] /\
  length (run ["failure_recovery"; "baseline"]) = 52%nat.
Proof.
  intros r run.
  pose proof (selection_order_is_kept r noon mixed_host ∅ None
                ["failure_recovery"] ["baseline"] two_strategies two_protocols) as H.
  assert (length (run ["failure_recovery"]) = 4%nat) as Hlen by (vm_compute; reflexivity).
  split; [exact Hlen|]. unfold run in *.
  change ["failure_recovery"; "baseline"] with (["failure_recovery"] ++ ["baseline"]).
  rewrite H; [|apply init_started_at, valid_noon|done].
  split.
  - rewrite take_app_length'; [done|exact Hlen].
  - rewrite length_app, Hlen, length_zip_with, length_seqZ. vm_compute. reflexivity.
Defined.

(** ** The timestamp attribute *)

(** X9: when the [timestamp] attribute holds no underscore,
    [run_all_tests] stops with the [IndexError] of
    [self.timestamp.split('_')[1]] right after the opening lines: nothing
    is queued, no warning or total is printed and no file changes. *)
Theorem timestamp_without_underscore_raises
    (r : runner) (h : host) (fs : file_store)
    (max_workers : option Z) (categories strategies protocols : option (list string)) :
  "_"%char ∉ chars (timestamp r) ->
  run_all_tests r h fs max_workers categories strategies protocols =
  mk_report
    (opening_lines r (workers h max_workers) (categories_to_run r categories)
       (strategies_to_test r strategies) (protocols_to_test r protocols))
    [] fs (Py.Raised "list index out of range").
Proof.
  intros Hts. unfold run_all_tests, test_id_counter_init.
  by rewrite (split_no_sep _ _ Hts).
Qed.

Lemma timestamp_without_underscore_raises_witness :
  outcome (run_all_tests (renamed_runner "nightly") mixed_host ∅ None
             one_scenario two_strategies two_protocols) =
    Py.Raised "list index out of range" /\
  submitted (run_all_tests (renamed_runner "nightly") mixed_host ∅ None
               one_scenario two_strategies two_protocols) = [].
Proof.
  rewrite (timestamp_without_underscore_raises (renamed_runner "nightly") mixed_host ∅ None
             one_scenario two_strategies two_protocols).
  - split; reflexivity.
  - apply (bool_decide_eq_true_1 (_ ∉ _)). vm_compute. reflexivity.
Defined.

(** X10: the queue of a run depends on the instant the runner was created
    only through its time of day: two runners of the same class and
    directory created at instants with the same [HHMMSS] build the same
    queue (same commands, identifiers and seeds), whatever the date, the
    host, the files and the worker count. *)
Theorem queue_depends_on_time_of_day_only
    (c : runner_class) (dir : string) (now1 now2 : datetime) (h1 h2 : host)
    (fs1 fs2 : file_store) (w1 w2 : option Z)
    (categories strategies protocols : option (list string)) :
  valid_datetime now1 -> valid_datetime now2 ->
  seed_base now1 = seed_base now2 ->
  submitted (run_all_tests (init c dir now1) h1 fs1 w1 categories strategies protocols) =
  submitted (run_all_tests (init c dir now2) h2 fs2 w2 categories strategies protocols).
Proof.
  intros Hv1 Hv2 Hbase.
  rewrite (submitted_queue _ now1) by (by apply init_started_at).
  rewrite (submitted_queue _ now2) by (by apply init_started_at).
  unfold expected_queue, assigned_seeds. rewrite Hbase. reflexivity.
Qed.

Lemma queue_depends_on_time_of_day_only_witness :
  submitted (run_all_tests (init MLOSimulationRunner "." noon) mixed_host ∅ None
               one_scenario two_strategies two_protocols) =
  submitted (run_all_tests (init MLOSimulationRunner "." noon_next_day)
               (plain_host (fun _ => exits_with 0) []) ∅ (Some 2)
               one_scenario two_strategies two_protocols).
Proof.
  apply queue_depends_on_time_of_day_only.
  - apply valid_noon.
  - apply valid_noon_next_day.
  - reflexivity.
Defined.

(** ** Selections that come from the command line *)

Lemma choices_are_keys (c : runner_class) :
  category_choices c = keys (define_test_scenarios c).
Proof. by destruct c. Qed.

Lemma catalog_names_hold_no_slash (c : runner_class) :
  forallb no_slash (keys (define_test_scenarios c)) = true /\
  forallb (fun t => no_slash (name t)) (all_tests (define_test_scenarios c)) = true.
Proof. destruct c; split; vm_compute; reflexivity. Qed.

Lemma choices_hold_no_slash :
  forallb no_slash strategy_choices = true /\ forallb no_slash protocol_choices = true.
Proof. split; vm_compute; reflexivity. Qed.

Lemma dict_get_of_key (d : scenarios_dict) (k : string) :
  k ∈ keys d -> exists v, dict_get d k = Some v /\ v ∈ d.*2.
Proof.
  induction d as [|[k' v] d IH]; simpl; intros Hk.
  - by apply elem_of_nil in Hk.
  - case_decide as Hkk.
    + exists v. split; [done|left].
    + apply elem_of_cons in Hk as [->|Hk]; [done|].
      destruct (IH Hk) as (v' & Hget & Hin). exists v'. split; [done|by right].
Qed.

Lemma tests_of_in_all_tests (r : runner) (c : string) (tc : test_config) :
  tc ∈ tests_of r c -> tc ∈ all_tests (scenarios r).
Proof.
  unfold tests_of, all_tests. generalize (scenarios r). intros d.
  induction d as [|[k v] d IH].
  - simpl. intros H. by apply elem_of_nil in H.
  - cbn [dict_get]. rewrite bind_cons. cbn [snd].
    case_decide; intros Hin; apply elem_of_app.
    + by left.
    + right. by apply IH.
Qed.

Lemma chosen_selection (choices : list string) (arg : option (list string)) :
  chosen_from choices arg -> Forall (fun x => x ∈ choices) (Py.or_list arg choices).
Proof.
  destruct arg as [[|x l]|]; simpl.
  - intros _. apply Forall_forall. done.
  - intros [_ H]. done.
  - intros _. apply Forall_forall. done.
Qed.

Section command_line.
Context (c : runner_class) (now : datetime) (args : namespace).
Context (Hv : valid_datetime now) (Hargs : parser_accepts c args).

Lemma cli_categories :
  Forall (fun x => x ∈ keys (define_test_scenarios c))
    (categories_to_run (init c "." now) (ns_categories args)).
Proof.
  destruct Hargs as (Hc & _ & _). unfold categories_to_run. simpl scenarios.
  rewrite <- choices_are_keys. by apply chosen_selection.
Qed.

Lemma cli_strategies :
  Forall (fun x => x ∈ strategy_choices)
    (strategies_to_test (init c "." now) (ns_strategies args)).
Proof. destruct Hargs as (_ & Hs & _). by apply chosen_selection. Qed.

Lemma cli_protocols :
  Forall (fun x => x ∈ protocol_choices)
    (protocols_to_test (init c "." now) (ns_protocols args)).
Proof. destruct Hargs as (_ & _ & Hp). by apply chosen_selection. Qed.

Lemma cli_categories_known :
  Forall (fun x => known (init c "." now) x = true)
    (categories_to_run (init c "." now) (ns_categories args)).
Proof.
  eapply Forall_impl; [apply cli_categories|]. intros x Hx. unfold known.
  destruct (dict_get_of_key _ x Hx) as (v & Hget & _). simpl scenarios. by rewrite Hget.
Qed.
End command_line.

(** X11: every category the command line accepts is in the catalog
    (the [choices] of [--categories] are the catalog's keys, in both
    scripts), so a run started from the command line skips nothing: the
    line giving the total follows the opening lines with no warning in
    between, and the queue has one invocation per scenario of the selected
    categories, strategy and protocol. *)
Theorem command_line_selection_is_in_catalog
    (c : runner_class) (now : datetime) (h : host) (fs : file_store) (args : namespace) :
  valid_datetime now ->
  parser_accepts c args ->
  ns_list_scenarios args = false ->
  let r := init c "." now in
  let cats := categories_to_run r (ns_categories args) in
  let strats := strategies_to_test r (ns_strategies args) in
  let protos := protocols_to_test r (ns_protocols args) in
  exists rep rest,
    script_report (main c now h fs args) = Some rep /\
    Forall (fun x => is_Some (dict_get (scenarios r) x)) cats /\
    length (submitted rep) =
      sum_list ((fun x => length (tests_of r x) * length strats * length protos)%nat <$> cats) /\
    console rep =
      opening_lines r (workers h (ns_workers args)) cats strats protos ++
      total_line c (length (submitted rep)) :: rest.
Proof.
  intros Hv Hargs Hlist r cats strats protos.
  pose proof (cli_categories_known c now args Hargs) as Hknown. fold r cats in Hknown.
  destruct (console_shape r now h fs (ns_workers args) (ns_categories args)
              (ns_strategies args) (ns_protocols args)) as [rest Hrest];
    [by apply init_started_at|].
  eexists _, rest. unfold main. rewrite Hlist. cbn [script_report].
  split; [reflexivity|]. fold r. split; [|split].
  - eapply Forall_impl; [exact Hknown|]. intros x Hx. unfold known in Hx.
    by destruct (dict_get (scenarios r) x).
  - rewrite (submitted_queue r now) by (by apply init_started_at).
    fold cats strats protos.
    assert (length (expected_queue r now cats strats protos) =
            length (matrix r cats strats protos)) as ->.
    { unfold expected_queue, assigned_seeds. rewrite length_zip_with, length_seqZ. lia. }
    apply length_matrix.
  - rewrite Hrest. fold cats strats protos. f_equal.
    assert (filter (fun x => known r x = false) cats = []) as ->; [|done].
    clear -Hknown. induction Hknown as [|x l Hx Hl IH]; [done|].
    rewrite filter_cons, decide_False by (by rewrite Hx). done.
Qed.

Lemma command_line_selection_is_in_catalog_witness :
  exists rep,
    script_report (main MLOSimulationRunner noon mixed_host ∅ sample_args) = Some rep /\
    length (submitted rep) = 4%nat.
Proof.
  destruct (command_line_selection_is_in_catalog MLOSimulationRunner noon mixed_host ∅
              sample_args) as (rep & rest & Hrep & _ & Hlen & _).
  - apply valid_noon.
  - repeat split; try done; repeat constructor.
  - reflexivity.
  - exists rep. split; [exact Hrep|]. rewrite Hlen. reflexivity.
Defined.

Lemma no_slash_app (a b : string) :
  "/"%char ∉ chars a -> "/"%char ∉ chars b -> "/"%char ∉ chars (a +:+ b).
Proof. intros Ha Hb. rewrite chars_app. intros [H|H]%elem_of_app; auto. Qed.

Lemma no_slash_of_list (l : list string) (x : string) :
  forallb no_slash l = true -> x ∈ l -> "/"%char ∉ chars x.
Proof.
  intros Hall Hx. rewrite forallb_forall in Hall.
  apply list_elem_of_In, Hall in Hx. by apply bool_decide_eq_true_1 in Hx.
Qed.

Lemma queue_element (r : runner) (now : datetime) (cats strats protos : list string)
    (t : test_info) :
  t ∈ expected_queue r now cats strats protos ->
  exists c tc s p seed,
    t = generate_test_command r c tc s p seed /\
    c ∈ cats /\ tc ∈ tests_of r c /\ s ∈ strats /\ p ∈ protos.
Proof.
  unfold expected_queue. intros Ht.
  apply elem_of_zip_with in Ht as ([[[c tc] s] p] & seed & -> & Hcell & _).
  exists c, tc, s, p, seed. split; [done|]. unfold matrix in Hcell.
  apply list_elem_of_bind in Hcell as (c' & Hcell & Hc).
  apply list_elem_of_bind in Hcell as (tc' & Hcell & Htc).
  apply list_elem_of_bind in Hcell as (s' & Hcell & Hs).
  apply list_elem_of_bind in Hcell as (p' & Hcell & Hp).
  apply list_elem_of_singleton in Hcell. by simplify_eq.
Qed.

(** X12: for every run started from the command line, each queued
    invocation has a run identifier without path separator, and its log
    is the file [scratch/logs/<runId>_<start timestamp>.log]: all logs sit
    directly in the log directory. *)
Theorem command_line_logs_sit_in_the_log_directory
    (c : runner_class) (now : datetime) (h : host) (fs : file_store) (args : namespace)
    (rep : report) (t : test_info) :
  valid_datetime now ->
  parser_accepts c args ->
  script_report (main c now h fs args) = Some rep ->
  t ∈ submitted rep ->
  ("/"%char ∉ chars (run_id t)) /\
  log_name (init c "." now) t =
    "scratch/logs/" +:+ run_id t +:+ "_" +:+ strftime_Ymd_HMS now +:+ ".log".
Proof.
  intros Hv Hargs Hrep Ht. unfold main in Hrep.
  destruct (ns_list_scenarios args); [discriminate Hrep|]. cbn [script_report] in Hrep.
  injection Hrep as <-.
  rewrite (submitted_queue _ now) in Ht by (by apply init_started_at).
  apply queue_element in Ht as (x & tc & s & p & seed & -> & Hx & Htc & Hs & Hp).
  set (r := init c "." now) in *.
  assert ("/"%char ∉ chars (run_id (generate_test_command r x tc s p seed))) as Hid.
  { pose proof (cli_categories c now args Hargs) as Hcats.
    pose proof (cli_strategies c now args Hargs) as Hstrats.
    pose proof (cli_protocols c now args Hargs) as Hprotos.
    rewrite Forall_forall in Hcats, Hstrats, Hprotos.
    destruct (catalog_names_hold_no_slash c) as [Hkeys Hnames].
    destruct choices_hold_no_slash as [Hsc Hpc].
    unfold run_id, generate_test_command. cbn [fst snd].
    repeat apply no_slash_app; try apply str_int_no_slash;
      try (simpl; intros [H|H]%elem_of_cons; [discriminate H|by apply elem_of_nil in H]).
    - apply (no_slash_of_list _ _ Hkeys). by apply Hcats.
    - apply tests_of_in_all_tests in Htc.
      rewrite forallb_forall in Hnames. apply list_elem_of_In, Hnames in Htc.
      by apply bool_decide_eq_true_1 in Htc.
    - apply (no_slash_of_list _ _ Hsc). by apply Hstrats.
    - apply (no_slash_of_list _ _ Hpc). by apply Hprotos. }
  split; [exact Hid|].
  unfold log_name. rewrite log_file_path_plain; [|exact Hid|apply strftime_no_slash].
  assert (log_dir r = Path.mk "" ["scratch"; "logs"]) as -> by reflexivity.
  change (timestamp r) with (strftime_Ymd_HMS now).
  unfold Path.str. cbn [Path.root Path.parts app Py.join].
  apply chars_inj. rewrite !chars_app. reflexivity.
Qed.

Lemma command_line_logs_sit_in_the_log_directory_witness :
  log_name (init MLOSimulationRunner "." noon) sample_test =
  "scratch/logs/failure_recovery_random_failures_mixed_tid_Greedy_UDP_120003_20261103_120000.log".
Proof.
  destruct (command_line_logs_sit_in_the_log_directory MLOSimulationRunner noon mixed_host ∅
              sample_args
              (run_all_tests (init MLOSimulationRunner "." noon) mixed_host ∅ None
                 (Some ["failure_recovery"]) (Some ["RoundRobin"; "Greedy"])
                 (Some ["UDP"; "TCP"]))
              sample_test) as [_ Hlog].
  - apply valid_noon.
  - repeat split; try done; repeat constructor.
  - reflexivity.
  - apply list_elem_of_lookup. exists 2%nat. vm_compute. reflexivity.
  - rewrite Hlog. vm_compute. reflexivity.
Defined.

(** ** Reading the log back *)

Lemma split_line (a b : string) :
  "010"%char ∉ chars a -> Py.split "010" (a +:+ Py.LF +:+ b) = a :: Py.split "010" b.
Proof. intros Ha. by apply split_at_sep. Qed.

Lemma split_join_lines (ls rest : list string) :
  Forall (fun x => "010"%char ∉ chars x) ls -> rest <> [] ->
  Py.split "010" (Py.join Py.LF (ls ++ rest)) = ls ++ Py.split "010" (Py.join Py.LF rest).
Proof.
  intros Hls Hrest. induction Hls as [|x ls Hx Hls IH]; [done|].
  rewrite <- app_comm_cons, join_cons by (by destruct ls, rest).
  rewrite split_line by done. by rewrite IH.
Qed.

Lemma newline_not_digit : ~ digit_or_dash "010"%char.
Proof.
  unfold digit_or_dash. simpl. intros H.
  repeat (destruct H as [H|H]; [discriminate H|]). done.
Qed.

Lemma pad_single_line (w : nat) (n : Z) : "010"%char ∉ chars (pad w n).
Proof. apply digit_or_dash_not; [apply newline_not_digit|apply pad_digits]. Qed.

Lemma isoformat_single_line (d : datetime) : "010"%char ∉ chars (isoformat d).
Proof.
  unfold isoformat. rewrite !chars_app. simpl.
  repeat (first [ rewrite elem_of_app | rewrite elem_of_cons ]).
  pose proof (pad_single_line 4 (year d)). pose proof (pad_single_line 2 (month d)).
  pose proof (pad_single_line 2 (day d)). pose proof (pad_single_line 2 (hour d)).
  pose proof (pad_single_line 2 (minute d)). pose proof (pad_single_line 2 (second d)).
  pose proof (pad_single_line 6 (microsecond d)).
  case_decide; rewrite ?chars_app; simpl;
    repeat (first [ rewrite elem_of_app | rewrite elem_of_cons ]);
    rewrite ?elem_of_nil; intros Hin;
    repeat (destruct Hin as [Hin|Hin]; try done; try discriminate Hin).
Qed.

Lemma format_f_single_line (prec : nat) (x : Q) : "010"%char ∉ chars (Py.format_f prec x).
Proof.
  unfold Py.format_f.
  set (n := Py.round_half_even _).
  assert (forall z, "010"%char ∉ chars (Py.str_int z)) as Hint.
  { intros z. apply digit_or_dash_not; [apply newline_not_digit|apply str_int_digits]. }
  assert (forall w z, "010"%char ∉ chars (Py.zfill w (Py.str_int z))) as Hfill.
  { intros w z. apply (pad_single_line w z). }
  rewrite !chars_app. intros Hin.
  apply elem_of_app in Hin as [Hin|Hin].
  { destruct (Qlt_le_dec x 0); simpl in Hin.
    - apply elem_of_cons in Hin as [Hin|Hin]; [discriminate Hin|by apply elem_of_nil in Hin].
    - by apply elem_of_nil in Hin. }
  apply elem_of_app in Hin as [Hin|Hin]; [by apply Hint in Hin|].
  destruct prec as [|prec]; [by apply elem_of_nil in Hin|].
  rewrite chars_app in Hin. simpl in Hin.
  apply elem_of_cons in Hin as [Hin|Hin]; [discriminate Hin|]. by apply Hfill in Hin.
Qed.

(** X13: when the run identifier and the description hold no line
    break, the first eight lines of the log written when [subprocess.run]
    has returned the finished process are, by
    position, the details header, [Test Name], [Description], [Timestamp],
    [Execution Time], [Return Code], an empty line and [--- COMMAND ---]:
    the identifier and the exit code can be read back from lines 2 and
    6. *)
Theorem log_header_can_be_read_back
    (r : runner) (env : process_env) (fs : file_store)
    (command test_name description : string) (result : completed_process) :
  ("010"%char ∉ chars test_name) ->
  ("010"%char ∉ chars description) ->
  subprocess_run env command (Path.str (ns3_dir r)) = Py.Returned result ->
  open_fault env (log_name r (command, test_name, description)) = None ->
  exists text more,
    files (run_single_test r env fs (command, test_name, description))
      !! log_name r (command, test_name, description) = Some text /\
    Py.split "010" text =
      [details_header (cls r);
       "Test Name: " +:+ test_name;
       "Description: " +:+ description;
       "Timestamp: " +:+ isoformat (log_time env);
       "Execution Time: " +:+ Py.format_f 2 (execution_time env) +:+ " seconds";
       "Return Code: " +:+ Py.str_int (returncode result);
       "";
       "--- COMMAND ---"] ++ more.
Proof.
  intros Hname Hdesc Hrun Hopen.
  destruct (run_terminated r env fs command test_name description result Hrun Hopen)
    as [_ Hfiles].
  exists (log_text r env (command, test_name, description) result),
    (Py.split "010" (Py.join Py.LF
       [command; ""; "--- STDOUT ---"; stdout result; "--- STDERR ---"; stderr result])).
  split.
  - rewrite Hfiles. unfold log_name, run_id. cbn [fst snd]. by rewrite lookup_insert_eq.
  - rewrite log_text_layout. unfold log_artifact.
    apply (split_join_lines
             [_; _; _; _; _; _; _; _]
             [command; ""; "--- STDOUT ---"; stdout result; "--- STDERR ---"; stderr result]);
      [|done].
    assert (forall lit x, "010"%char ∉ chars lit -> "010"%char ∉ chars x ->
                          "010"%char ∉ chars (lit +:+ x)) as Happ.
    { intros lit x Hl Hx. rewrite chars_app. intros [H|H]%elem_of_app; auto. }
    assert (forall s, forallb (fun c => negb (Ascii.eqb c "010")) (chars s) = true ->
                      "010"%char ∉ chars s) as Hlit.
    { intros s Hs Hin. rewrite forallb_forall in Hs. apply list_elem_of_In, Hs in Hin.
      by rewrite Ascii.eqb_refl in Hin. }
    assert ("010"%char ∉ chars (Py.str_int (returncode result))) as Hcode
      by (apply digit_or_dash_not; [apply newline_not_digit|apply str_int_digits]).
    pose proof (isoformat_single_line (log_time env)) as Hiso.
    pose proof (format_f_single_line 2 (execution_time env)) as Hsecs.
    repeat (apply Forall_cons; split); [| | | | | | | |by apply Forall_nil].
    + destruct (cls r); apply Hlit; reflexivity.
    + apply Happ; [apply Hlit; reflexivity|done].
    + apply Happ; [apply Hlit; reflexivity|done].
    + apply Happ; [apply Hlit; reflexivity|done].
    + apply Happ; [apply Hlit; reflexivity|].
      apply Happ; [done|apply Hlit; reflexivity].
    + apply Happ; [apply Hlit; reflexivity|done].
    + apply Hlit; reflexivity.
    + apply Hlit; reflexivity.
Qed.

Lemma log_header_can_be_read_back_witness :
  exists text,
    files (run_single_test (init MLOSimulationRunner "." noon) (exits_with 137) ∅ sample_test)
      !! log_name (init MLOSimulationRunner "." noon) sample_test = Some text /\
    Py.split "010" text !! 5%nat = Some "Return Code: 137".
Proof.
  destruct (log_header_can_be_read_back (init MLOSimulationRunner "." noon) (exits_with 137) ∅
              (command_of sample_test) (run_id sample_test) (snd sample_test)
              (mk_completed 137 "simulation output" ""))
    as (text & more & Htext & Hlines).
  - apply (bool_decide_eq_true_1 (_ ∉ _)). vm_compute. reflexivity.
  - apply (bool_decide_eq_true_1 (_ ∉ _)). vm_compute. reflexivity.
  - reflexivity.
  - reflexivity.
  - exists text. split; [exact Htext|]. rewrite Hlines. reflexivity.
Defined.

(** ** What the two counters count *)




(** ** The analyser's helpers *)

(** X15: [get_ordered_strategies] gives exactly the strategies of
    [STRATEGY_ORDER] that occur in the data, each once and in the order of
    [STRATEGY_ORDER], whatever the order and multiplicity of the rows; a
    strategy outside [STRATEGY_ORDER] is dropped, and none of the four
    strategies the runners can select is. *)
Theorem get_ordered_strategies_keeps_the_fixed_order :
  (forall available : list string,
     sublist (get_ordered_strategies available) STRATEGY_ORDER /\
     NoDup (get_ordered_strategies available) /\
     forall x, x ∈ get_ordered_strategies available <->
               x ∈ STRATEGY_ORDER /\ x ∈ available) /\
  (forall a1 a2 : list string,
     (forall x, x ∈ a1 <-> x ∈ a2) ->
     get_ordered_strategies a1 = get_ordered_strategies a2) /\
  (forall (c : runner_class) (dir : string) (now : datetime) (x : string),
     x ∈ strategies (init c dir now) -> x ∈ STRATEGY_ORDER).
Proof.
  split; [|split].
  - intros available. unfold get_ordered_strategies. split; [|split].
    + apply sublist_filter.
    + apply NoDup_filter. apply (bool_decide_eq_true_1 (NoDup _)). vm_compute. reflexivity.
    + intros x. rewrite list_elem_of_filter. tauto.
  - intros a1 a2 Heq. unfold get_ordered_strategies.
    apply list_filter_iff. intros x. apply Heq.
  - intros c dir now x Hx. simpl in Hx. unfold STRATEGY_ORDER.
    repeat (apply elem_of_cons in Hx as [->|Hx]); try by apply elem_of_nil in Hx.
    all: repeat (first [ by left | right ]).
Qed.

Lemma get_ordered_strategies_keeps_the_fixed_order_witness :
  get_ordered_strategies ["Reliability"; "Greedy"; "Reliability"] =
  get_ordered_strategies ["Greedy"; "Reliability"].
Proof.
  destruct get_ordered_strategies_keeps_the_fixed_order as (_ & Hsame & _).
  apply Hsame. intros x. rewrite !elem_of_cons, !elem_of_nil. tauto.
Defined.

(** X16: on integer node counts, the branches of [categorize_nodes]
    agree with the [NODE_CATEGORIES] table: a count gets the name of the
    one range that holds it, and [Other] exactly when no range does (below
    1 or above 60). *)
Theorem categorize_nodes_agrees_with_the_table (n : Z) :
  (forall name lo hi,
     (name, (lo, hi)) ∈ NODE_CATEGORIES ->
     (categorize_nodes n = name <-> lo <= n <= hi)) /\
  (categorize_nodes n = "Other" <->
   forall name lo hi, (name, (lo, hi)) ∈ NODE_CATEGORIES -> ~ (lo <= n <= hi)) /\
  (categorize_nodes n = "Other" <-> n < 1 \/ 60 < n).
Proof.
  unfold NODE_CATEGORIES. split; [|split].
  - intros name lo hi Hin.
    repeat (apply elem_of_cons in Hin as [Hin|Hin]; [injection Hin as -> -> ->|]);
      [| | |by apply elem_of_nil in Hin];
      unfold categorize_nodes; repeat case_decide; split; intros Hx; try done; try lia.
  - split.
    + intros Hother name lo hi Hin Hrange.
      repeat (apply elem_of_cons in Hin as [Hin|Hin]; [injection Hin as -> -> ->|]);
        [| | |by apply elem_of_nil in Hin];
        unfold categorize_nodes in Hother; repeat case_decide; try done; lia.
    + intros Hnone. unfold categorize_nodes. repeat case_decide; try done; exfalso.
      * apply (Hnone "Small" 1 20); [left|done].
      * apply (Hnone "Medium" 21 40); [right; left|done].
      * apply (Hnone "Large" 41 60); [right; right; left|done].
  - unfold categorize_nodes. repeat case_decide; split; intros Hx; try done; lia.
Qed.
